(** * The Javalette test driver [tester/testing.py]: model and properties

    The driver is a sequential Python script whose behaviour is entirely
    determined by the file system and by the child processes it launches.
    The model below makes both explicit: a [World] carries the file system,
    the behaviour of child processes (an oracle), the history of launched
    commands and the text written to the two standard streams; every
    function of the script becomes a computation in a state-and-exception
    monad over [World].

    Conventions.
    - A Python [str] is a sequence of Unicode code points: [list N].
    - A Python [bytes] object is a [list Byte.byte].
    - Python exceptions are values of [exn]; [try/finally] and
      [try/except] are the combinators [try_finally] and [try_catch]. *)

From Stdlib Require Import ZArith NArith Lia Strings.Byte Strings.String.
From stdpp Require Import gmap strings list fin_maps pretty.

Open Scope N_scope.

Abbreviation pystr := (list N).
Abbreviation bytes := (list Byte.byte).

(** ** Python strings *)

Module Str.

(** A string literal of the script (ASCII only). *)
Definition T (s : string) : pystr := map Byte.to_N (String.list_byte_of_string s).

Definition nl : pystr := [10].

Definition eqb (a b : pystr) : bool := bool_decide (a = b).

(** [str.isspace] for one code point: the white-space table of CPython
    ([_PyUnicode_IsWhitespace]). *)
Definition isspace (c : N) : bool :=
  ((9 <=? c) && (c <=? 13)) || ((28 <=? c) && (c <=? 32))
  || (c =? 133) || (c =? 160) || (c =? 5760)
  || ((8192 <=? c) && (c <=? 8202))
  || (c =? 8232) || (c =? 8233) || (c =? 8239) || (c =? 8287) || (c =? 12288).

Fixpoint lstrip (s : pystr) : pystr :=
  match s with
  | c :: r => if isspace c then lstrip r else s
  | [] => []
  end.

Definition rstrip (s : pystr) : pystr := rev (lstrip (rev s)).

(** [s.strip()] *)
Definition strip (s : pystr) : pystr := rstrip (lstrip s).

Fixpoint startswith (pat s : pystr) : bool :=
  match pat, s with
  | [], _ => true
  | p :: pat', c :: s' => (p =? c) && startswith pat' s'
  | _ :: _, [] => false
  end.

(** [pat in s] *)
Fixpoint contains (pat s : pystr) : bool :=
  startswith pat s ||
  match s with
  | [] => false
  | _ :: s' => contains pat s'
  end.

(** [sep.join(parts)] *)
Fixpoint join (sep : pystr) (parts : list pystr) : pystr :=
  match parts with
  | [] => []
  | [p] => p
  | p :: rest => p ++ sep ++ join sep rest
  end.

(** Line boundaries of [str.splitlines]. *)
Definition is_linebreak (c : N) : bool :=
  ((10 <=? c) && (c <=? 13)) || ((28 <=? c) && (c <=? 30))
  || (c =? 133) || (c =? 8232) || (c =? 8233).

(** [splitlines_go cur s]: [cur] is the current line, reversed. *)
Fixpoint splitlines_go (cur : pystr) (s : pystr) : list pystr :=
  match s with
  | [] => match cur with [] => [] | _ => [rev cur] end
  | 13 :: ((10 :: r) as s') => rev cur :: splitlines_go [] r
  | c :: r =>
      if is_linebreak c then rev cur :: splitlines_go [] r
      else splitlines_go (c :: cur) r
  end.

Definition splitlines (s : pystr) : list pystr := splitlines_go [] s.

(** [str(n)] and [{:d}] for an integer. *)
Definition of_Z (z : Z) : pystr := T (pretty z).
Definition of_nat (n : nat) : pystr := T (pretty n).

(** [{:5s}]: left-aligned in a field of width 5. *)
Definition pad5 (s : pystr) : pystr := s ++ repeat 32 (5 - length s)%nat.

(** [repr] of a string, for [str(list)].  Exact for the code points below
    256: the escapes of CPython are written out, and the non-printable
    ones ([U+0000]-[U+001F], [U+007F]-[U+00A0], [U+00AD]) become [\xhh].
    Code points from 256 on are taken to be printable. *)
Definition hex_digit (n : N) : N := if n <? 10 then 48 + n else 87 + n.

Definition repr_char (q : N) (c : N) : pystr :=
  if c =? 92 then [92; 92]
  else if c =? q then [92; q]
  else if c =? 10 then [92; 110]
  else if c =? 13 then [92; 114]
  else if c =? 9 then [92; 116]
  else if (c <? 32) || ((127 <=? c) && (c <=? 160)) || (c =? 173)
  then [92; 120; hex_digit (c / 16); hex_digit (c mod 16)]
  else [c].

Definition repr (s : pystr) : pystr :=
  let q := if bool_decide (39 ∈ s) && negb (bool_decide (34 ∈ s)) then 34 else 39 in
  q :: concat (map (repr_char q) s) ++ [q].

(** [str(l)] for a list of strings. *)
Definition of_list (l : list pystr) : pystr :=
  T "[" ++ join (T ", ") (map repr l) ++ T "]".

End Str.

Export Str(T).

(** ** Encodings: UTF-8 and text-mode newlines *)

Module Utf8.

Definition is_cont (b : N) : bool := (128 <=? b) && (b <=? 191).

(** [b.decode("utf-8")] in strict mode: [None] stands for
    [UnicodeDecodeError].  Shortest forms only, no surrogates, nothing
    above U+10FFFF. *)
Fixpoint decode (bs : bytes) : option pystr :=
  match bs with
  | [] => Some []
  | b0 :: r0 =>
      let n0 := Byte.to_N b0 in
      if n0 <? 128 then cons n0 <$> decode r0
      else if (194 <=? n0) && (n0 <=? 223) then
        match r0 with
        | b1 :: r1 =>
            let n1 := Byte.to_N b1 in
            if is_cont n1
            then cons ((n0 - 192) * 64 + (n1 - 128)) <$> decode r1
            else None
        | _ => None
        end
      else if (224 <=? n0) && (n0 <=? 239) then
        match r0 with
        | b1 :: b2 :: r2 =>
            let n1 := Byte.to_N b1 in
            let n2 := Byte.to_N b2 in
            let lo := if n0 =? 224 then 160 else 128 in
            let hi := if n0 =? 237 then 159 else 191 in
            if (lo <=? n1) && (n1 <=? hi) && is_cont n2
            then cons ((n0 - 224) * 4096 + (n1 - 128) * 64 + (n2 - 128)) <$> decode r2
            else None
        | _ => None
        end
      else if (240 <=? n0) && (n0 <=? 244) then
        match r0 with
        | b1 :: b2 :: b3 :: r3 =>
            let n1 := Byte.to_N b1 in
            let n2 := Byte.to_N b2 in
            let n3 := Byte.to_N b3 in
            let lo := if n0 =? 240 then 144 else 128 in
            let hi := if n0 =? 244 then 143 else 191 in
            if (lo <=? n1) && (n1 <=? hi) && is_cont n2 && is_cont n3
            then cons ((n0 - 240) * 262144 + (n1 - 128) * 4096
                       + (n2 - 128) * 64 + (n3 - 128)) <$> decode r3
            else None
        | _ => None
        end
      else None
  end.

Definition byte_of (n : N) : Byte.byte := default Byte.x00 (Byte.of_N n).

(** One code point to its UTF-8 bytes; [None] stands for
    [UnicodeEncodeError] (surrogates and values above U+10FFFF). *)
Definition encode_char (c : N) : option bytes :=
  if c <? 128 then Some [byte_of c]
  else if c <? 2048 then Some [byte_of (192 + c / 64); byte_of (128 + c mod 64)]
  else if c <? 65536 then
    if (55296 <=? c) && (c <=? 57343) then None
    else Some [byte_of (224 + c / 4096); byte_of (128 + (c / 64) mod 64);
               byte_of (128 + c mod 64)]
  else if c <? 1114112 then
    Some [byte_of (240 + c / 262144); byte_of (128 + (c / 4096) mod 64);
          byte_of (128 + (c / 64) mod 64); byte_of (128 + c mod 64)]
  else None.

(** [s.encode("utf-8")] *)
Fixpoint encode (s : pystr) : option bytes :=
  match s with
  | [] => Some []
  | c :: r =>
      match encode_char c, encode r with
      | Some bs, Some rest => Some (bs ++ rest)
      | _, _ => None
      end
  end.

End Utf8.

(** Reading through a text-mode file object ([open(name)] with the default
    [newline=None]): every ["\r\n"] and every lone ["\r"] is handed to the
    program as ["\n"]. *)
Fixpoint universal_newlines (s : pystr) : pystr :=
  match s with
  | [] => []
  | 13 :: ((10 :: r) as s') => 10 :: universal_newlines r
  | 13 :: r => 10 :: universal_newlines r
  | c :: r => c :: universal_newlines r
  end.

(** ** POSIX path functions ([os.path]) *)

Module Path.

Definition sep : N := 47.
Definition dot : N := 46.

Definition join2 (a b : pystr) : pystr :=
  if Str.startswith [sep] b then b
  else match a with
       | [] => b
       | _ => if bool_decide (last a = Some sep) then a ++ b else a ++ [sep] ++ b
       end.

(** [os.path.join(a, p1, p2, ...)] *)
Definition join (a : pystr) (ps : list pystr) : pystr := fold_left join2 ps a.

(** Index one past the last occurrence of [c] ([s.rfind(c) + 1]). *)
Fixpoint after_last (c : N) (s : pystr) : nat :=
  match s with
  | [] => O
  | x :: r =>
      match after_last c r with
      | O => if x =? c then 1%nat else O
      | S k => S (S k)
      end
  end.

Fixpoint lstrip_sep (s : pystr) : pystr :=
  match s with
  | c :: r => if c =? sep then lstrip_sep r else s
  | [] => []
  end.

(** [os.path.split(p)]: the head loses its trailing slashes unless it
    consists of slashes only. *)
Definition split (p : pystr) : pystr * pystr :=
  let i := after_last sep p in
  let head := take i p in
  let tail := drop i p in
  (if forallb (N.eqb sep) head then head else rev (lstrip_sep (rev head)), tail).

(** [os.path.splitext(p)]: the extension starts at the last dot of the
    last component, unless that component has only leading dots before it. *)
Definition splitext (p : pystr) : pystr * pystr :=
  let sepIndex := after_last sep p in
  let dotIndex := after_last dot p in
  if (sepIndex <? dotIndex)%nat then
    (* [dotIndex - 1] is the position of the last dot, within the last
       component; look for a character other than a dot before it *)
    if forallb (N.eqb dot) (drop sepIndex (take (dotIndex - 1) p))
    then (p, [])
    else (take (dotIndex - 1) p, drop (dotIndex - 1) p)
  else (p, []).

End Path.

(** ** The world around the script *)

(** The record built with [Struct(...)] for every executed test. *)
Record Struct := {
  stderr_actual : pystr;
  stderr_expected : pystr;
  stdout_expected : pystr;
  stdout_actual : pystr;
  stdout_compiler : pystr
}.

(** Result of a child process that ran to completion. *)
Record Completed := {
  returncode : Z;
  child_stdout : bytes;
  child_stderr : bytes
}.

(** What [subprocess.run] can do: fail to launch the program (an
    [OSError] with its class name, errno and message) or hand back the
    completed child. *)
Inductive Spawn :=
| SpawnError (cls : pystr) (errno : Z) (strerror : pystr)
| Exited (c : Completed).

(** The file system: regular files with their contents and directories
    with their listings, both by absolute path; the paths that carry the
    execute permission; the working directory. *)
Record FS := {
  cwd : pystr;
  files : gmap pystr bytes;
  dirs : gmap pystr (list pystr);
  execs : gset pystr
}.

(** How child processes behave: from the command line, the bytes on
    standard input ([None] when it is inherited), the file system and the
    command lines launched before, to the outcome and the file system the
    child leaves behind. *)
Definition Oracle : Type :=
  list pystr -> option bytes -> FS -> list (list pystr) -> Spawn * FS.

(** One executed test, as the loops of [run_tests] see it: the title of
    the pass, the test case, and what [exec_test] returned. *)
Record Verdict := {
  v_pass : pystr;
  v_test : pystr;
  v_ok : bool;
  v_data : Struct
}.

Record World := {
  w_fs : FS;
  w_proc : Oracle;
  w_platform : pystr;            (* [platform.system()] *)
  w_tmp : nat;                   (* name supply of [tempfile] *)
  w_trace : list (list pystr);   (* every command line launched so far *)
  w_stdout : list pystr;         (* chunks written to [sys.stdout] *)
  w_stderr : list pystr;         (* chunks written to [sys.stderr] *)
  w_verdicts : list Verdict      (* history of executed tests; the script
                                    never reads it *)
}.

Definition set_fs (fs : FS) (w : World) : World :=
  {| w_fs := fs; w_proc := w_proc w; w_platform := w_platform w;
     w_tmp := w_tmp w; w_trace := w_trace w;
     w_stdout := w_stdout w; w_stderr := w_stderr w;
     w_verdicts := w_verdicts w |}.

Definition set_tmp (n : nat) (w : World) : World :=
  {| w_fs := w_fs w; w_proc := w_proc w; w_platform := w_platform w;
     w_tmp := n; w_trace := w_trace w;
     w_stdout := w_stdout w; w_stderr := w_stderr w;
     w_verdicts := w_verdicts w |}.

Definition add_trace (argv : list pystr) (w : World) : World :=
  {| w_fs := w_fs w; w_proc := w_proc w; w_platform := w_platform w;
     w_tmp := w_tmp w; w_trace := w_trace w ++ [argv];
     w_stdout := w_stdout w; w_stderr := w_stderr w;
     w_verdicts := w_verdicts w |}.

Definition add_stdout (s : pystr) (w : World) : World :=
  {| w_fs := w_fs w; w_proc := w_proc w; w_platform := w_platform w;
     w_tmp := w_tmp w; w_trace := w_trace w;
     w_stdout := w_stdout w ++ [s]; w_stderr := w_stderr w;
     w_verdicts := w_verdicts w |}.

Definition add_stderr (s : pystr) (w : World) : World :=
  {| w_fs := w_fs w; w_proc := w_proc w; w_platform := w_platform w;
     w_tmp := w_tmp w; w_trace := w_trace w;
     w_stdout := w_stdout w; w_stderr := w_stderr w ++ [s];
     w_verdicts := w_verdicts w |}.

Definition add_verdict (v : Verdict) (w : World) : World :=
  {| w_fs := w_fs w; w_proc := w_proc w; w_platform := w_platform w;
     w_tmp := w_tmp w; w_trace := w_trace w;
     w_stdout := w_stdout w; w_stderr := w_stderr w;
     w_verdicts := w_verdicts w ++ [v] |}.

Definition set_files (m : gmap pystr bytes) (fs : FS) : FS :=
  {| cwd := cwd fs; files := m; dirs := dirs fs; execs := execs fs |}.

Definition set_dirs (d : gmap pystr (list pystr)) (fs : FS) : FS :=
  {| cwd := cwd fs; files := files fs; dirs := d; execs := execs fs |}.

(** A relative path is taken from the working directory. *)
Definition abspath (fs : FS) (p : pystr) : pystr := Path.join2 (cwd fs) p.

Definition fs_isfile (fs : FS) (p : pystr) : bool :=
  bool_decide (is_Some (files fs !! abspath fs p)).

Definition fs_isdir (fs : FS) (p : pystr) : bool :=
  bool_decide (is_Some (dirs fs !! abspath fs p)).

(** ** Exceptions and the monad *)

Inductive exn :=
| TestingException (msg : pystr)
| OSError (cls : pystr) (errno : Z) (strerror : pystr)
| OtherException (cls : pystr).

(** [type(exc).__name__] *)
Definition exn_name (e : exn) : pystr :=
  match e with
  | TestingException _ => T "TestingException"
  | OSError cls _ _ => cls
  | OtherException cls => cls
  end.

Inductive Res (A : Type) :=
| Ok (a : A)
| Raise (e : exn).
Arguments Ok {A} a.
Arguments Raise {A} e.

Definition M (A : Type) : Type := World -> Res A * World.

Definition ret {A} (a : A) : M A := fun w => (Ok a, w).

Definition raise {A} (e : exn) : M A := fun w => (Raise e, w).

Definition bind {A B} (m : M A) (k : A -> M B) : M B :=
  fun w =>
    match m w with
    | (Ok a, w') => k a w'
    | (Raise e, w') => (Raise e, w')
    end.

Declare Scope py_scope.
Delimit Scope py_scope with py.
Notation "x <- c1 ;; c2" := (bind c1 (fun x => c2))
  (at level 100, c1 at next level, right associativity) : py_scope.
Notation "c1 ;; c2" := (bind c1 (fun _ => c2))
  (at level 100, right associativity) : py_scope.
Open Scope py_scope.

(** [try: body finally: fin]: [fin] runs on both exits; if [fin] itself
    raises, that exception replaces the outcome of [body]. *)
Definition try_finally {A} (body : M A) (fin : M unit) : M A :=
  fun w =>
    let '(r, w1) := body w in
    match fin w1 with
    | (Ok _, w2) => (r, w2)
    | (Raise e, w2) => (Raise e, w2)
    end.

(** [try: body except <class> as exc: handler(exc)]: [handler] answers
    [None] for the exceptions the clause does not cover. *)
Definition try_catch {A} (body : M A) (handler : exn -> option (M A)) : M A :=
  fun w =>
    match body w with
    | (Ok a, w1) => (Ok a, w1)
    | (Raise e, w1) =>
        match handler e with
        | Some h => h w1
        | None => (Raise e, w1)
        end
    end.

(** ** Primitive operations *)

Definition get_fs : M FS := fun w => (Ok (w_fs w), w).

Definition put_fs (fs : FS) : M unit := fun w => (Ok tt, set_fs fs w).

Definition stdout_write (s : pystr) : M unit := fun w => (Ok tt, add_stdout s w).

Definition stderr_write (s : pystr) : M unit := fun w => (Ok tt, add_stderr s w).

(** Not an action of the script: notes an executed test in the history. *)
Definition note_verdict (v : Verdict) : M unit := fun w => (Ok tt, add_verdict v w).

(** [print(s)] and [print(s, file=sys.stderr)] *)
Definition print (s : pystr) : M unit := stdout_write (s ++ Str.nl).
Definition eprint (s : pystr) : M unit := stderr_write (s ++ Str.nl).

Definition platform_system : M pystr := fun w => (Ok (w_platform w), w).

(** [os.path.isfile], [os.path.isdir], [os.path.exists], [os.access(p, X_OK)] *)
Definition isfile (p : pystr) : M bool := fs <- get_fs ;; ret (fs_isfile fs p).
Definition isdir (p : pystr) : M bool := fs <- get_fs ;; ret (fs_isdir fs p).
Definition path_exists (p : pystr) : M bool :=
  fs <- get_fs ;; ret (fs_isfile fs p || fs_isdir fs p).
Definition access_x (p : pystr) : M bool :=
  fs <- get_fs ;; ret (bool_decide (abspath fs p ∈ execs fs)).

Definition ENOENT : exn := OSError (T "FileNotFoundError") 2 (T "No such file or directory").
Definition ENOTDIR : exn := OSError (T "NotADirectoryError") 20 (T "Not a directory").
Definition EISDIR : exn := OSError (T "IsADirectoryError") 21 (T "Is a directory").

(** [os.listdir(p)] *)
Definition listdir (p : pystr) : M (list pystr) :=
  fs <- get_fs ;;
  match dirs fs !! abspath fs p with
  | Some names => ret names
  | None => if fs_isfile fs p then raise ENOTDIR else raise ENOENT
  end.

(** The bytes behind [open(p)], opened for reading. *)
Definition open_read (p : pystr) : M bytes :=
  fs <- get_fs ;;
  match files fs !! abspath fs p with
  | Some content => ret content
  | None => if fs_isdir fs p then raise EISDIR else raise ENOENT
  end.

Definition decode_utf8 (b : bytes) : M pystr :=
  match Utf8.decode b with
  | Some s => ret s
  | None => raise (OtherException (T "UnicodeDecodeError"))
  end.

Definition encode_utf8 (s : pystr) : M bytes :=
  match Utf8.encode s with
  | Some b => ret b
  | None => raise (OtherException (T "UnicodeEncodeError"))
  end.

(** [with open(p) as f: f.read()]: text mode, UTF-8 locale. *)
Definition read_text (p : pystr) : M pystr :=
  b <- open_read p ;;
  s <- decode_utf8 b ;;
  ret (universal_newlines s).

(** Create or truncate the regular file [p] with the given contents. *)
Definition write_bytes (p : pystr) (content : bytes) : M unit :=
  fs <- get_fs ;;
  put_fs (set_files (<[abspath fs p := content]> (files fs)) fs).

(** [os.remove(p)] on a regular file. *)
Definition os_remove (p : pystr) : M unit :=
  fs <- get_fs ;;
  put_fs (set_files (delete (abspath fs p) (files fs)) fs).

(** [os.makedirs(p)] *)
Definition makedirs (p : pystr) : M unit :=
  fs <- get_fs ;;
  put_fs (set_dirs (<[abspath fs p := []]> (dirs fs)) fs).

(** Names of temporary files: [tempfile] draws names until one is free.
    The supply is a counter; [fresh_from] walks it past the names in use. *)
Definition tmp_name (dir pre suf : pystr) (n : nat) : pystr :=
  Path.join2 dir (pre ++ Str.of_nat n ++ suf).

Fixpoint fresh_from (fs : FS) (dir pre suf : pystr) (fuel n : nat) : nat :=
  match fuel with
  | O => n
  | S fuel' =>
      if fs_isfile fs (tmp_name dir pre suf n) || fs_isdir fs (tmp_name dir pre suf n)
      then fresh_from fs dir pre suf fuel' (S n)
      else n
  end.

Definition take_tmp (dir pre suf : pystr) : M pystr :=
  fun w =>
    let fs := w_fs w in
    let n := fresh_from fs dir pre suf (S (size (files fs) + size (dirs fs))) (w_tmp w) in
    (Ok (tmp_name dir pre suf n), set_tmp (S n) w).

(** [tempfile.mkstemp(prefix=pre, suffix=suf, dir=os.getcwd())]: the new
    empty file's path (the descriptor is not modelled). *)
Definition mkstemp (pre suf : pystr) : M pystr :=
  fs <- get_fs ;;
  name <- take_tmp (cwd fs) pre suf ;;
  write_bytes name [] ;;
  ret name.

(** [tempfile.mkdtemp(prefix=pre, dir=os.getcwd())] *)
Definition mkdtemp (pre : pystr) : M pystr :=
  fs <- get_fs ;;
  name <- take_tmp (cwd fs) pre [] ;;
  makedirs name ;;
  ret name.

(** [subprocess.run(argv, ...)] with both output streams captured.  The
    command line is logged whether or not the launch succeeds; a child
    cannot move the working directory of the script. *)
Definition subprocess_run (argv : list pystr) (stdin : option bytes) : M Completed :=
  fun w =>
    let '(r, fs1) := w_proc w argv stdin (w_fs w) (w_trace w) in
    let fs' := {| cwd := cwd (w_fs w); files := files fs1;
                  dirs := dirs fs1; execs := execs fs1 |} in
    let w' := add_trace argv (set_fs fs' w) in
    match r with
    | SpawnError cls errno msg => (Raise (OSError cls errno msg), w')
    | Exited c => (Ok c, w')
    end.

(** ** The script, function by function *)

(** A test case of the catalogue: base path and expected verdict. *)
Abbreviation TestCase := (pystr * bool)%type.

(** [indent_with(spaces, string)] *)
Definition indent_with (spaces : nat) (s : pystr) : pystr :=
  Str.join Str.nl (map (fun l => repeat 32 spaces ++ l) (Str.splitlines s)).

(** [clean_files(files)] *)
Fixpoint clean_files (names : list pystr) : M unit :=
  match names with
  | [] => ret tt
  | name :: rest =>
      b <- isfile name ;;
      (if b then os_remove name else ret tt) ;;
      clean_files rest
  end.

(** [run_command(cmd, args, stdi, stdo)].  [stdo], when given, is the path
    of the file object that receives the child's standard output.  With
    [stdi] given the pipes are in text mode: the child is launched, then
    the input is encoded, and what was captured is decoded (newlines
    translated) before the exit code is looked at: the standard output
    first, unless it went to [stdo], then the error stream. *)
Definition run_command (cmd : pystr) (args : list pystr)
    (stdi : option pystr) (stdo : option pystr) : M unit :=
  let argv := cmd :: args in
  let redirect (c : Completed) : M unit :=
    match stdo with
    | Some f => write_bytes f (child_stdout c)
    | None => ret tt
    end in
  match stdi with
  | Some input =>
      match Utf8.encode input with
      | None =>
          subprocess_run argv (Some []) ;;
          raise (OtherException (T "UnicodeEncodeError"))
      | Some b =>
          child <- subprocess_run argv (Some b) ;;
          match stdo with
          | Some _ => redirect child
          | None => decode_utf8 (child_stdout child) ;; ret tt
          end ;;
          err <- decode_utf8 (child_stderr child) ;;
          if (returncode child =? 0)%Z then ret tt
          else raise (TestingException
                 (cmd ++ T " failed with:" ++ Str.nl ++ universal_newlines err))
      end
  | None =>
      child <- subprocess_run argv None ;;
      redirect child ;;
      if (returncode child =? 0)%Z then ret tt
      else
        err <- decode_utf8 (child_stderr child) ;;
        raise (TestingException (cmd ++ T " failed with:" ++ Str.nl ++ err))
  end.

(** [link_llvm(path, source_str)] *)
Definition link_llvm (path : pystr) (source_str : pystr) : M unit :=
  let runtime := Path.join path [T "lib"; T "runtime.bc"] in
  tmp <- mkstemp (T "test_llvm_") (T ".bc") ;;
  try_finally
    (write_bytes tmp [] ;;     (* [open(tmp, 'w+')] truncates *)
     run_command (T "llvm-as") [] (Some source_str) (Some tmp) ;;
     run_command (T "llvm-link") [tmp; runtime; T "-o=main.bc"] None None ;;
     run_command (T "clang") [T "main.bc"] None None)
    (clean_files [tmp; T "main.bc"]).

(** [link_x86(path, source_str, is_x64, is_macho)] *)
Definition link_x86 (path : pystr) (source_str : pystr)
    (is_x64 is_macho : bool) : M unit :=
  tmp_s <- mkstemp (T "test_x86_") (T ".s") ;;
  tmp_o <- mkstemp (T "test_x86_") (T ".o") ;;
  let suff := if is_x64 then T "x64" else T "x86" in
  let runtime := Path.join path [T "lib"; T "runtime" ++ suff ++ T ".o"] in
  let arch :=
    if is_macho then (if is_x64 then T "macho64" else T "macho32")
    else (if is_x64 then T "elf64" else T "elf32") in
  try_finally
    (write_bytes tmp_s [] ;;   (* [open(tmp_s, 'w+')] truncates *)
     b <- encode_utf8 source_str ;;
     write_bytes tmp_s b ;;
     run_command (T "nasm") [T "-f " ++ arch; tmp_s; T "-o " ++ tmp_o] None None ;;
     run_command (T "clang") [tmp_o; runtime] None None)
    (clean_files [tmp_s; tmp_o]).

(** The [except OSError as exc] clause shared by [run_compiler] and
    [exec_test]. *)
Definition unable_to_execute {A} (what : pystr) (e : exn) : option (M A) :=
  match e with
  | OSError _ errno strerror =>
      Some (raise (TestingException
        (T "Unable to execute " ++ what ++ T " for some reason, " ++
         T "here is the errno: " ++ Str.of_Z errno ++ T ": " ++ strerror)))
  | _ => None
  end.

(** [run_compiler(exe, src_file, is_good)] *)
Definition run_compiler (exe src_file : pystr) (is_good : bool) : M (bool * Struct) :=
  r <- try_catch
         (infile <- open_read src_file ;;
          child <- subprocess_run [exe] (Some infile) ;;
          stdout <- decode_utf8 (child_stdout child) ;;
          stderr <- decode_utf8 (child_stderr child) ;;
          ret (child, stdout, Str.strip stderr))
         (unable_to_execute exe) ;;
  let '(child, stdout, stderr) := r in
  let '(expected, check) :=
    if is_good
    then (T "OK",
          fun s => Str.eqb s (T "OK") && (returncode child =? 0)%Z)
    else (T "ERROR",
          fun s => Str.contains (T "ERROR") s && negb (returncode child =? 0)%Z) in
  ret (check stderr,
       {| stderr_actual := stderr;
          stderr_expected := expected;
          stdout_expected := [];
          stdout_actual := [];
          stdout_compiler := stdout |}).

(** [exec_test(exe, filename, is_good, linker)]; [linker] is [None] when
    only the type checker is exercised.  The single test
    [not compiler_success or not is_good or linker == None] of the script
    is spread over the [match] on [linker] and the [if]. *)
Definition exec_test (exe filename : pystr) (is_good : bool)
    (linker : option (pystr -> M unit)) : M (bool * Struct) :=
  let input_file := filename ++ T ".input" in
  let output_file := filename ++ T ".output" in
  let source_file := filename ++ T ".jl" in
  r <- run_compiler exe source_file is_good ;;
  let '(compiler_success, data) := r in
  match linker with
  | Some link =>
      if negb compiler_success || negb is_good then ret (compiler_success, data)
      else
        link (stdout_compiler data) ;;
        has_input <- isfile input_file ;;
        infile <- (if has_input then open_read input_file else ret []) ;;
        has_output <- isfile output_file ;;
        expected <- (if has_output then read_text output_file else ret []) ;;
        actual <- try_catch
                    (child <- subprocess_run [T "./a.out"] (Some infile) ;;
                     decode_utf8 (child_stdout child))
                    (unable_to_execute (T "./a.out")) ;;
        let success := Str.eqb actual expected in
        ret (success,
             {| stderr_expected := stderr_expected data;
                stderr_actual := stderr_actual data;
                stdout_expected := expected;
                stdout_actual := actual;
                stdout_compiler := stdout_compiler data |})
  | None => ret (compiler_success, data)
  end.

(** The loop of [build_list]: [tests] is the list being appended to. *)
Fixpoint build_list_loop (tests : list TestCase) (path : pystr) (is_good : bool)
    (names : list pystr) : M (list TestCase) :=
  match names with
  | [] => ret tests
  | fname :: rest =>
      b <- isfile (Path.join path [fname]) ;;
      let '(base, ext) := Path.splitext fname in
      if b && Str.eqb ext (T ".jl")
      then build_list_loop (tests ++ [(Path.join path [base], is_good)]) path is_good rest
      else build_list_loop tests path is_good rest
  end.

(** [build_list(tests, path, is_good)]; the list is returned instead of
    being mutated. *)
Definition build_list (tests : list TestCase) (path : pystr) (is_good : bool)
    : M (list TestCase) :=
  names <- listdir path ;;
  build_list_loop tests path is_good names.

(** A double quote, for the messages that contain one. *)
Definition dq : pystr := [34].

(** The pattern of [check_archive],
    [^part(A|B|C)-[1-9][0-9]*\.(tgz|tar\.(gz|bz2|xz))$], as [re.match]
    applies it ([$] also matches before one final newline). *)
Fixpoint skip_digits (s : pystr) : pystr :=
  match s with
  | c :: r => if (48 <=? c) && (c <=? 57) then skip_digits r else s
  | [] => []
  end.

Definition archive_name_ok (fname : pystr) : bool :=
  match fname with
  | 112 :: 97 :: 114 :: 116 :: part :: 45 :: d :: rest =>
      ((65 <=? part) && (part <=? 67)) && ((49 <=? d) && (d <=? 57)) &&
      match skip_digits rest with
      | 46 :: ext =>
          let ext' := match last ext with
                      | Some 10 => removelast ext
                      | _ => ext
                      end in
          Str.eqb ext' (T "tgz") || Str.eqb ext' (T "tar.gz")
          || Str.eqb ext' (T "tar.bz2") || Str.eqb ext' (T "tar.xz")
      | _ => false
      end
  | _ => false
  end.

(** [check_archive(path, target)] *)
Definition check_archive (path target : pystr) : M unit :=
  let ext := snd (Path.splitext path) in
  let fname := snd (Path.split path) in
  if negb (archive_name_ok fname)
  then raise (TestingException
         (T "Archive is not named according to submission guidelines"))
  else
    let opt :=
      if Str.eqb ext (T ".tar") then T "xf"
      else if Str.eqb ext (T ".gz") then T "xzf"
      else if Str.eqb ext (T ".bz2") then T "xjf"
      else T "xJf" in
    stdout_write (T "- Unpacking " ++ fname ++ T " to " ++ dq ++ target ++ dq ++ T " ... ") ;;
    ex <- path_exists target ;;
    (if ex then ret tt else makedirs target) ;;
    child <- subprocess_run [T "tar"; opt; path; T "-C"; target] None ;;
    if negb (returncode child =? 0)%Z
    then
      print (T "Failed.") ;;
      err <- decode_utf8 (child_stderr child) ;;
      raise (TestingException (T "Unpacking failed with:" ++ Str.nl ++ err))
    else print (T "Ok.").

(** [check_contents(path)] *)
Definition check_contents (path : pystr) : M unit :=
  let lacks (name : pystr) : exn :=
    TestingException (T "Submission lacks directory: " ++ dq ++ name ++ dq) in
  d <- isdir (Path.join path [T "doc"]) ;;
  if negb d then raise (lacks (T "doc")) else
  d <- isdir (Path.join path [T "lib"]) ;;
  if negb d then raise (lacks (T "lib")) else
  d <- isdir (Path.join path [T "src"]) ;;
  if negb d then raise (lacks (T "src")) else
  f <- isfile (Path.join path [T "Makefile"]) ;;
  if negb f then raise (TestingException (T "Submission lacks Makefile in root"))
  else ret tt.

(** First loop of [check_build]: the executables. *)
Fixpoint check_executables (path prefix : pystr) (suffices : list pystr) : M unit :=
  match suffices with
  | [] => ret tt
  | suffix :: rest =>
      let exec_name :=
        prefix ++ (if negb (Str.eqb suffix (T "llvm")) then T "_" ++ suffix else []) in
      let full_path := Path.join path [exec_name] in
      f <- isfile full_path ;;
      if negb f
      then raise (TestingException
             (T "Build did not produce the executable " ++ dq ++ exec_name ++ dq ++
              T " required for the " ++ suffix ++ T " backend"))
      else
        x <- access_x full_path ;;
        if negb x
        then raise (TestingException
               (T "The file " ++ dq ++ exec_name ++ dq ++ T " is not executable"))
        else check_executables path prefix rest
  end.

(** Second loop of [check_build]: the runtimes. *)
Fixpoint check_runtimes (runtime : pystr) (backends : list pystr) : M unit :=
  match backends with
  | [] => ret tt
  | suff :: rest =>
      (if Str.eqb suff (T "llvm") then
         f <- isfile (runtime ++ T ".ll") ;;
         if negb f
         then print (T "Failed.") ;;
              raise (TestingException
                (dq ++ T "runtime.ll" ++ dq ++ T " is missing from " ++ dq ++ T "lib" ++ dq))
         else run_command (T "llvm-as")
                [runtime ++ T ".ll"; T "-o=" ++ runtime ++ T ".bc"] None None
       else if Str.eqb suff (T "x86") || Str.eqb suff (T "x64") then
         f <- isfile (runtime ++ T ".s") ;;
         if negb f
         then print (T "Failed.") ;;
              raise (TestingException
                (dq ++ T "runtime.s" ++ dq ++ T " is missing from " ++ dq ++ T "lib" ++ dq))
         else
           sys <- platform_system ;;
           let arch :=
             if Str.eqb sys (T "Darwin")
             then (if Str.eqb suff (T "x64") then T "macho64" else T "macho32")
             else (if Str.eqb suff (T "x64") then T "elf64" else T "elf32") in
           run_command (T "nasm")
             [T "-f " ++ arch; runtime ++ T ".s"; T "-o " ++ runtime ++ suff ++ T ".o"]
             None None
       else ret tt) ;;
      check_runtimes runtime rest
  end.

(** [check_build(path, prefix, backends)] *)
Definition check_build (path prefix : pystr) (backends : list pystr) : M unit :=
  stdout_write (T "- Running " ++ dq ++ T "make" ++ dq ++ T " in " ++ path ++ T " ... ") ;;
  child <- subprocess_run [T "sh"; T "-exec"; T "make -C " ++ path] None ;;
  if negb (returncode child =? 0)%Z
  then
    print (T "Failed.") ;;
    err <- decode_utf8 (child_stderr child) ;;
    raise (TestingException (T "make failed with:" ++ Str.nl ++ err))
  else
    print (T "Ok.") ;;
    stdout_write (T "- Checking for executable(s) ...") ;;
    check_executables path prefix
      (match backends with [] => [T "llvm"] | _ => backends end) ;;
    print (T "Ok.") ;;
    stdout_write (T "- Checking for runtime(s) ... ") ;;
    check_runtimes (Path.join path [T "lib"; T "runtime"]) backends ;;
    print (T "Ok.").

(** [status_msg(title, ok, bad, tot)] *)
Definition status_msg (title : pystr) (ok bad tot : nat) : pystr :=
  [13] ++ T "  " ++ Str.pad5 title ++ T " ok: " ++ Str.of_nat ok ++
  T ", failed: " ++ Str.of_nat bad ++
  T ", [" ++ Str.of_nat (ok + bad) ++ T "/" ++ Str.of_nat tot ++ T "]".

(** The counters and the failure list that the loops of [run_tests]
    update: [tests_ok], [tests_bad] and [failures]. *)
Record Tally := {
  tests_ok : nat;
  tests_bad : nat;
  failures : list (pystr * Struct)
}.

(** The loop over [test_files], written twice in [run_tests] (once for
    type checking with [linker = None] and title ['typecheck'], once per
    backend). *)
Fixpoint test_loop (full_name : pystr) (linker : option (pystr -> M unit))
    (title : pystr) (tests_total : nat) (test_files : list TestCase)
    (t : Tally) : M Tally :=
  match test_files with
  | [] => ret t
  | (filename, is_good) :: rest =>
      r <- exec_test full_name filename is_good linker ;;
      let '(is_ok, data) := r in
      note_verdict {| v_pass := title; v_test := filename;
                      v_ok := is_ok; v_data := data |} ;;
      let t' :=
        if is_ok
        then {| tests_ok := S (tests_ok t); tests_bad := tests_bad t;
                failures := failures t |}
        else {| tests_ok := tests_ok t; tests_bad := S (tests_bad t);
                failures := failures t ++ [(filename, data)] |} in
      stdout_write (status_msg title (tests_ok t') (tests_bad t') tests_total) ;;
      test_loop full_name linker title tests_total rest t'
  end.

(** The linker picked for a backend suffix. *)
Definition pick_linker (path suffix : pystr) (link_macho : bool) : pystr -> M unit :=
  if Str.eqb suffix (T "llvm") then fun s => link_llvm path s
  else if Str.eqb suffix (T "x86") then fun s => link_x86 path s false link_macho
  else fun s => link_x86 path s true link_macho.

(** The loop over [backends]: the two counters start again from zero for
    every backend, the failure list is carried over. *)
Fixpoint backend_loop (path prefix : pystr) (link_macho : bool)
    (tests_total : nat) (test_files : list TestCase)
    (backends : list pystr) (t : Tally) : M Tally :=
  match backends with
  | [] => ret t
  | suffix :: rest =>
      let t0 := {| tests_ok := O; tests_bad := O; failures := failures t |} in
      let linker := pick_linker path suffix link_macho in
      let exec_name :=
        prefix ++ (if Str.eqb suffix (T "llvm") then [] else T "_" ++ suffix) in
      let full_name := Path.join path [exec_name] in
      t' <- test_loop full_name (Some linker) suffix tests_total test_files t0 ;;
      print [] ;;
      backend_loop path prefix link_macho tests_total test_files rest t'
  end.

(** The catalogue: the fixed directories, then one per extension. *)
Fixpoint build_extensions (tests : list TestCase) (exts : list pystr)
    : M (list TestCase) :=
  match exts with
  | [] => ret tests
  | ext :: rest =>
      tests' <- build_list tests (T "testsuite/extensions/" ++ ext) true ;;
      build_extensions tests' rest
  end.

Definition build_catalog (exts : list pystr) : M (list TestCase) :=
  tests <- build_list [] (T "testsuite/good") true ;;
  tests <- build_list tests (T "testsuite/bad") false ;;
  build_extensions tests exts.

(** All the passes of [run_tests], from fresh counters. *)
Definition run_passes (path : pystr) (backends : list pystr) (prefix : pystr)
    (test_files : list TestCase) : M Tally :=
  let tests_total := length test_files in
  let t0 := {| tests_ok := O; tests_bad := O; failures := [] |} in
  match backends with
  | [] =>
      test_loop (Path.join path [prefix]) None (T "typecheck")
        tests_total test_files t0
  | _ =>
      sys <- platform_system ;;
      backend_loop path prefix (Str.eqb sys (T "Darwin"))
        tests_total test_files backends t0
  end.

(** What is printed for one entry of [failures]. *)
Definition failure_block (backends : list pystr) (f : pystr * Struct) : list pystr :=
  let '(name, data) := f in
  [T "---------- !!! " ++ name ++ T ".jl failed !!! ----------" ++ Str.nl] ++
  (if negb (Str.eqb (stderr_expected data) (stderr_actual data))
   then [T "- stderr expected:"; indent_with 4 (stderr_expected data);
         T "- stderr actual:"; indent_with 4 (stderr_actual data)]
   else []) ++
  (if (0 <? length backends)%nat && (0 <? length (stdout_expected data))%nat
   then [T "- stdout expected:"; indent_with 4 (stdout_expected data);
         T "- stdout actual:"; indent_with 4 (stdout_actual data)]
   else []) ++
  [[]].

Fixpoint print_all (lines : list pystr) : M unit :=
  match lines with
  | [] => ret tt
  | l :: rest => print l ;; print_all rest
  end.

(** The section "Show results" of [run_tests]. *)
Definition show_results (backends : list pystr) (tests_total : nat) (t : Tally)
    : M bool :=
  let success := Nat.eqb (tests_ok t) tests_total in
  (if success
   then print (T "All tests succeeded.")
   else print (T "Some tests failed:") ;;
        print_all (concat (map (failure_block backends) (failures t)))) ;;
  ret success.

(** The local variables of [run_tests] when it returns. *)
Record Locals := {
  test_files_of : list TestCase;
  tally : Tally;
  success : bool
}.

(** [run_tests(path, backends, prefix, exts)], handing back its locals. *)
Definition run_tests_locals (path : pystr) (backends : list pystr)
    (prefix : pystr) (exts : list pystr) : M Locals :=
  print (T "About to run tests with these settings:") ;;
  print (T "  Prefix:     " ++ prefix) ;;
  print (T "  Backends:   " ++
         match backends with
         | [] => T "None (type checking only)"
         | _ => Str.of_list backends
         end) ;;
  print (T "  Extensions: " ++
         match exts with [] => T "None" | _ => Str.of_list exts end) ;;
  print [] ;;
  test_files <- build_catalog exts ;;
  t <- run_passes path backends prefix test_files ;;
  print [] ;;
  ok <- show_results backends (length test_files) t ;;
  ret {| test_files_of := test_files; tally := t; success := ok |}.

(** [run_tests] itself returns nothing. *)
Definition run_tests (path : pystr) (backends : list pystr)
    (prefix : pystr) (exts : list pystr) : M unit :=
  run_tests_locals path backends prefix exts ;; ret tt.

(** The parsed command line ([argparse] is not modelled). *)
Record Namespace := {
  ns_submission : pystr;
  ns_s : pystr;
  ns_llvm : bool;
  ns_x86 : bool;
  ns_x64 : bool;
  ns_x : list pystr;
  ns_archive : bool;
  ns_noclean : bool;
  ns_list : bool
}.

(** Order of [sorted] on strings: code point by code point. *)
Fixpoint str_le (a b : pystr) : bool :=
  match a, b with
  | [], _ => true
  | _ :: _, [] => false
  | x :: a', y :: b' => (x <? y) || ((x =? y) && str_le a' b')
  end.

Fixpoint insert_sorted (x : pystr) (l : list pystr) : list pystr :=
  match l with
  | [] => [x]
  | y :: r => if str_le x y then x :: l else y :: insert_sorted x r
  end.

(** [sorted(l)]: equal strings are identical, so any sorting method
    gives the same list. *)
Definition sorted_strs (l : list pystr) : list pystr :=
  fold_right insert_sorted [] l.

(** "Pick up backends" *)
Definition pick_backends (ns : Namespace) : list pystr :=
  (if ns_llvm ns then [T "llvm"] else []) ++
  (if ns_x86 ns then [T "x86"] else []) ++
  (if ns_x64 ns then [T "x64"] else []).

(** [path] once the archive, if any, is unpacked. *)
Definition main_path (ns : Namespace) (tmpdir : pystr) : pystr :=
  if ns_archive ns then tmpdir else ns_submission ns.

(** The body of the [try] statement of [main] up to the call of
    [run_tests]. *)
Definition main_checks (ns : Namespace) (tmpdir : pystr) : M unit :=
  (if ns_archive ns then check_archive (ns_submission ns) tmpdir else ret tt) ;;
  check_contents (main_path ns tmpdir) ;;
  check_build (main_path ns tmpdir) (ns_s ns) (pick_backends ns).

(** The body of the [try] statement of [main]. *)
Definition main_body (ns : Namespace) (tmpdir : pystr) : M unit :=
  main_checks ns tmpdir ;;
  run_tests (main_path ns tmpdir) (pick_backends ns) (ns_s ns) (ns_x ns).

(** The two [except] clauses: report, and remember the failure. *)
Definition main_except (e : exn) : M bool :=
  match e with
  | TestingException msg =>
      eprint (Str.nl ++ T "testing.py failed with:" ++ Str.nl ++ indent_with 4 msg) ;;
      ret true
  | _ =>
      eprint (Str.nl ++ T "Uncaught exception " ++ exn_name e) ;;
      ret true
  end.

(** The [finally] clause up to the two [sys.exit] calls. *)
Definition main_cleanup (ns : Namespace) (tmpdir : pystr) : M unit :=
  (if negb (ns_noclean ns) && ns_archive ns
   then print (T "Removing temporary files in: " ++ tmpdir) ;;
        subprocess_run [T "rm"; T "-rf"; tmpdir] None ;; ret tt
   else ret tt) ;;
  clean_files [T "a.out"].

(** [main()] before its [try] statement: [Some code] when the script
    leaves through [sys.exit(code)] there, [None] when it goes on. *)
Definition main_args (ns : Namespace) : M (option Z) :=
  avail_exts <- listdir (T "testsuite/extensions") ;;
  if ns_list ns then
    print (T "Available extensions:") ;;
    print_all (map (fun s => T "  * " ++ s) (sorted_strs avail_exts)) ;;
    ret (Some 0%Z)
  else
    match filter (fun ext => ext ∉ avail_exts) (ns_x ns) with
    | ext :: _ => eprint (T "Not a valid extension: " ++ ext) ;; ret (Some 1%Z)
    | [] =>
        is_f <- isfile (ns_submission ns) ;;
        is_d <- isdir (ns_submission ns) ;;
        if ns_archive ns && negb is_f then
          eprint (T "Not a file: " ++ ns_submission ns) ;;
          eprint (T "(--archive flag was passed)") ;;
          ret (Some 1%Z)
        else if negb (ns_archive ns) && negb is_d then
          eprint (T "Not a directory: " ++ ns_submission ns) ;;
          ret (Some 1%Z)
        else ret None
    end.

(** The [try] statement with its two [except] clauses: the value of
    [failure] when the [finally] clause starts. *)
Definition main_try (ns : Namespace) (tmpdir : pystr) : M bool :=
  try_catch (main_body ns tmpdir ;; ret false) (fun e => Some (main_except e)).

(** The directory for the unpacked archive ([tmpdir] stays empty without
    [--archive]). *)
Definition main_tmpdir (ns : Namespace) : M pystr :=
  if ns_archive ns then mkdtemp (T "testing_") else ret [].

(** [main()] from the parsed arguments on, up to the exit code of the
    process: the argument of [sys.exit], or 1 when an exception is not
    caught. *)
Definition main (ns : Namespace) : M Z :=
  early <- main_args ns ;;
  match early with
  | Some code => ret code
  | None =>
      tmpdir <- main_tmpdir ns ;;
      failure <- main_try ns tmpdir ;;
      main_cleanup ns tmpdir ;;
      ret (if failure then 1%Z else 0%Z)
  end.

(** The exit code of the process. *)
Definition exit_code (ns : Namespace) (w : World) : Z :=
  match main ns w with
  | (Ok code, _) => code
  | (Raise _, _) => 1%Z
  end.

(** ** Notions used in the statements

    The history [w_verdicts] lists every executed test in the order of
    execution.  The statements below read the failing (pass, test case)
    pairs of a run off it. *)

(** A computation that leaves the history as it is. *)
Definition keeps_log {A} (m : M A) : Prop :=
  forall w, w_verdicts (snd (m w)) = w_verdicts w.

(** A linker that leaves the history alone; [None] qualifies. *)
Definition linker_keeps_log (linker : option (pystr -> M unit)) : Prop :=
  forall link, linker = Some link -> forall s, keeps_log (link s).

(** The failure records that a stretch of the history accounts for. *)
Definition failing_records (vs : list Verdict) : list (pystr * Struct) :=
  map (fun v => (v_test v, v_data v)) (filter (fun v => v_ok v = false) vs).

(** The (pass, test case) pairs of a stretch of the history. *)
Definition executed (vs : list Verdict) : list (pystr * pystr) :=
  map (fun v => (v_pass v, v_test v)) vs.

(** The passes of a run: one per backend, or the single type-checking
    pass. *)
Definition pass_titles (backends : list pystr) : list pystr :=
  match backends with
  | [] => [T "typecheck"]
  | _ => backends
  end.

(** Every test case under every pass, pass by pass. *)
Definition schedule (titles : list pystr) (tests : list TestCase) : list (pystr * pystr) :=
  flat_map (fun b => map (fun tc : TestCase => (b, fst tc)) tests) titles.

(** A catalogue entry made from the directory [path] with the verdict
    [is_good]: it comes from a name of the listing that ends in [.jl] and
    is a regular file. *)
Definition from_jl_file (fs : FS) (path : pystr) (is_good : bool)
    (names : list pystr) (tc : TestCase) : Prop :=
  exists base,
    tc = (Path.join path [base], is_good) /\
    base ++ T ".jl" ∈ names /\
    fs_isfile fs (Path.join path [base ++ T ".jl"]) = true.

(** The text [exec_test] expects on standard output, in the file system
    [fs]: the fixture read in text mode, or nothing without a fixture.
    [None] when the fixture is not valid UTF-8. *)
Definition expected_output (fs : FS) (filename : pystr) : option pystr :=
  match files fs !! abspath fs (filename ++ T ".output") with
  | Some content => universal_newlines <$> Utf8.decode content
  | None => Some []
  end.

(** A computation's outcome that is a normal return. *)
Definition returned {A} (r : Res A) : Prop :=
  match r with
  | Ok _ => True
  | Raise _ => False
  end.

(** The archive names that the pattern of [check_archive] describes:
    [part], one of [A], [B], [C], a dash, a decimal number without a
    leading zero, a dot, one of the four archive extensions, and possibly
    one final newline. *)
Definition is_digit (c : N) : Prop := 48 <= c <= 57.

Definition submission_name (fname : pystr) : Prop :=
  exists part d ds ext tail,
    fname = T "part" ++ [part] ++ T "-" ++ [d] ++ ds ++ T "." ++ ext ++ tail /\
    (part = 65 \/ part = 66 \/ part = 67) /\
    49 <= d <= 57 /\ Forall is_digit ds /\
    (ext = T "tgz" \/ ext = T "tar.gz" \/ ext = T "tar.bz2" \/ ext = T "tar.xz") /\
    (tail = [] \/ tail = Str.nl).

(** The name of the compiler executable for a backend suffix. *)
Definition exec_name_of (prefix suffix : pystr) : pystr :=
  prefix ++ (if negb (Str.eqb suffix (T "llvm")) then T "_" ++ suffix else []).

(** A computation that leaves one component of the world as it is. *)
Definition leaves {A F} (proj : World -> F) (m : M A) : Prop :=
  forall w, proj (snd (m w)) = proj w.

(** What the loops of [run_tests] write while the tests run: a status
    line, or the empty line that ends a backend pass. *)
Definition progress_chunk (c : pystr) : Prop :=
  c = Str.nl \/ exists title ok bad tot, c = status_msg title ok bad tot.

(** Whether a launch gave a child that exited with code 0. *)
Definition exited_zero (r : Res Completed) : bool :=
  match r with
  | Ok c => (returncode c =? 0)%Z
  | Raise _ => false
  end.

(** Command lines launched in turn, without input, each one only if the
    one before it exited with code 0: the command lines that are launched,
    and whether every one of them exited with code 0. *)
Fixpoint launch_in_turn (cmds : list (list pystr)) (w : World)
    : list (list pystr) * bool :=
  match cmds with
  | [] => ([], true)
  | argv :: rest =>
      let r := subprocess_run argv None w in
      if exited_zero (fst r)
      then (argv :: fst (launch_in_turn rest (snd r)), snd (launch_in_turn rest (snd r)))
      else ([argv], false)
  end.

(** The test cases of the directory [path] with the verdict [is_good]:
    one for each name of the listing, in its order, that is a regular file
    of the directory and has the extension [.jl]; the test case is the
    path without the extension.  No test case when there is no listing. *)
Definition jl_entries (fs : FS) (path : pystr) (is_good : bool) : list TestCase :=
  map (fun fname => (Path.join path [fst (Path.splitext fname)], is_good))
    (filter (fun fname => fs_isfile fs (Path.join path [fname]) = true /\
                          snd (Path.splitext fname) = T ".jl")
       (default [] (dirs fs !! abspath fs path))).

(** The assembler command that [check_build] launches for the runtime of
    one backend, if it launches any. *)
Definition runtime_command (runtime sys suff : pystr) : option (list pystr) :=
  if Str.eqb suff (T "llvm")
  then Some [T "llvm-as"; runtime ++ T ".ll"; T "-o=" ++ runtime ++ T ".bc"]
  else if Str.eqb suff (T "x86") || Str.eqb suff (T "x64")
  then
    let arch :=
      if Str.eqb sys (T "Darwin")
      then (if Str.eqb suff (T "x64") then T "macho64" else T "macho32")
      else (if Str.eqb suff (T "x64") then T "elf64" else T "elf32") in
    Some [T "nasm"; T "-f " ++ arch; runtime ++ T ".s"; T "-o " ++ runtime ++ suff ++ T ".o"]
  else None.

(** ** A small concrete session

    One submission in [/w/sub] with a compiler for the LLVM backend and
    one for the 32-bit x86 backend, and a test suite made of the single
    good test [t1].  The LLVM compiler rejects [t1]; the x86 compiler
    accepts it and the program it produces prints nothing. *)

Module Demo.

Definition B (s : string) : bytes := String.list_byte_of_string s.

Definition completed (rc : Z) (out err : bytes) : Spawn :=
  Exited {| returncode := rc; child_stdout := out; child_stderr := err |}.

Definition proc : Oracle := fun argv _ fs _ =>
  match argv with
  | cmd :: _ =>
      if Str.eqb cmd (T "sub/jlc") then (completed 1 [] (B "ERROR: no"), fs)
      else if Str.eqb cmd (T "sub/jlc_x86") then (completed 0 (B "ret") (B "OK"), fs)
      else (completed 0 [] [], fs)
  | [] => (SpawnError (T "IndexError") 0 [], fs)
  end.

Definition fs0 : FS := {|
  cwd := T "/w";
  files := list_to_map
    [(T "/w/sub/Makefile", []); (T "/w/sub/jlc", []); (T "/w/sub/jlc_x86", []);
     (T "/w/sub/lib/runtime.ll", []); (T "/w/sub/lib/runtime.s", []);
     (T "/w/testsuite/good/t1.jl", B "int main () { return 0; }")];
  dirs := list_to_map
    [(T "/w/sub", [T "doc"; T "lib"; T "src"; T "Makefile"; T "jlc"; T "jlc_x86"]);
     (T "/w/sub/doc", []); (T "/w/sub/lib", [T "runtime.ll"; T "runtime.s"]);
     (T "/w/sub/src", []);
     (T "/w/testsuite/good", [T "t1.jl"; T "notes.txt"; T "old"]);
     (T "/w/testsuite/good/old", []);
     (T "/w/testsuite/bad", []);
     (T "/w/testsuite/extensions", [])];
  execs := {[ T "/w/sub/jlc"; T "/w/sub/jlc_x86" ]}
|}.

Definition world0 : World := {|
  w_fs := fs0; w_proc := proc; w_platform := T "Linux"; w_tmp := 0;
  w_trace := []; w_stdout := []; w_stderr := []; w_verdicts := []
|}.

Definition ns0 (llvm x86 : bool) : Namespace := {|
  ns_submission := T "sub"; ns_s := T "jlc";
  ns_llvm := llvm; ns_x86 := x86; ns_x64 := false;
  ns_x := []; ns_archive := false; ns_noclean := false; ns_list := false
|}.

(** The same session with an expected-output fixture for [t1] that ends
    in a carriage return and a line feed, and a produced program that
    prints exactly the bytes of the fixture. *)
Definition crlf : bytes := B "25" ++ [Byte.x0d; Byte.x0a].

Definition proc_crlf : Oracle := fun argv stdin fs trace =>
  match argv with
  | cmd :: _ =>
      if Str.eqb cmd (T "./a.out") then (completed 0 crlf [], fs)
      else proc argv stdin fs trace
  | [] => proc argv stdin fs trace
  end.

Definition world_crlf : World := {|
  w_fs := set_files (<[T "/w/testsuite/good/t1.output" := crlf]> (files fs0)) fs0;
  w_proc := proc_crlf; w_platform := T "Linux"; w_tmp := 0;
  w_trace := []; w_stdout := []; w_stderr := []; w_verdicts := []
|}.

(** The same session with an assembler that exits with code 1. *)
Definition proc_nasm_fails : Oracle := fun argv stdin fs trace =>
  match argv with
  | cmd :: _ =>
      if Str.eqb cmd (T "nasm") then (completed 1 [] (B "nasm: fatal"), fs)
      else proc argv stdin fs trace
  | [] => proc argv stdin fs trace
  end.

Definition world_nasm_fails : World := {|
  w_fs := fs0; w_proc := proc_nasm_fails; w_platform := T "Linux"; w_tmp := 0;
  w_trace := []; w_stdout := []; w_stderr := []; w_verdicts := []
|}.

(** The same session without the directory [testsuite/good]. *)
Definition world_nogood : World :=
  set_fs (set_dirs (delete (T "/w/testsuite/good") (dirs fs0)) fs0) world0.

End Demo.

(** More concrete sessions. *)
Module Demo2.

(** The session of [Demo] with a submission that has no [doc] directory. *)
Definition world_nodoc : World :=
  set_fs (set_dirs (delete (T "/w/sub/doc") (dirs Demo.fs0)) Demo.fs0) Demo.world0.

(** The session of [Demo] with an x86 compiler that puts white space
    around its ["OK"]. *)
Definition proc_padded : Oracle := fun argv stdin fs trace =>
  match argv with
  | cmd :: _ =>
      if Str.eqb cmd (T "sub/jlc_x86")
      then (Demo.completed 0 (Demo.B "ret")
              (Demo.B "  OK " ++ [Byte.x0d; Byte.x0a]), fs)
      else Demo.proc argv stdin fs trace
  | [] => Demo.proc argv stdin fs trace
  end.

Definition world_padded : World := {|
  w_fs := Demo.fs0; w_proc := proc_padded; w_platform := T "Linux"; w_tmp := 0;
  w_trace := []; w_stdout := []; w_stderr := []; w_verdicts := []
|}.

(** The session of [Demo] with a [make] that exits with code 2. *)
Definition proc_make_fails : Oracle := fun argv stdin fs trace =>
  match argv with
  | cmd :: _ =>
      if Str.eqb cmd (T "sh") then (Demo.completed 2 [] (Demo.B "make: *** Error 1"), fs)
      else Demo.proc argv stdin fs trace
  | [] => Demo.proc argv stdin fs trace
  end.

Definition world_make_fails : World := {|
  w_fs := Demo.fs0; w_proc := proc_make_fails; w_platform := T "Linux"; w_tmp := 0;
  w_trace := []; w_stdout := []; w_stderr := []; w_verdicts := []
|}.

End Demo2.

(** * Properties *)

(** ** Sanity checks of the string and path functions *)

Example splitext_ex1 : Path.splitext (T "a.b.jl") = (T "a.b", T ".jl").
Proof. reflexivity. Qed.
Example splitext_ex2 : Path.splitext (T ".jl") = (T ".jl", []).
Proof. reflexivity. Qed.
Example splitext_ex3 : Path.splitext (T "x.d/..jl") = (T "x.d/..jl", []).
Proof. reflexivity. Qed.
Example splitext_ex4 : Path.splitext (T "x.d/core") = (T "x.d/core", []).
Proof. reflexivity. Qed.
Example split_ex1 : Path.split (T "/tmp//partA-1.tar.gz") = (T "/tmp", T "partA-1.tar.gz").
Proof. reflexivity. Qed.
Example join_ex1 : Path.join (T "sub") [T "lib"; T "runtime.bc"] = T "sub/lib/runtime.bc".
Proof. reflexivity. Qed.
Example splitlines_ex1 :
  Str.splitlines ([97; 13; 10; 10; 98; 10]) = [[97]; []; [98]].
Proof. reflexivity. Qed.
Example decode_ex1 : Utf8.decode [Byte.xe2; Byte.x80; Byte.x83] = Some [8195].
Proof. reflexivity. Qed.
Example encode_ex1 : Utf8.encode [8195; 65] = Some [Byte.xe2; Byte.x80; Byte.x83; Byte.x41].
Proof. reflexivity. Qed.
Example strip_ex1 : Str.strip ([32; 8195] ++ T "OK" ++ [13; 10]) = T "OK".
Proof. reflexivity. Qed.

(** ** String functions *)

Lemma str_eqb_true (a b : pystr) : Str.eqb a b = true <-> a = b.
Proof. unfold Str.eqb. apply bool_decide_eq_true. Qed.

Lemma startswith_spec (pat s : pystr) :
  Str.startswith pat s = true <-> exists b, s = pat ++ b.
Proof.
  revert s. induction pat as [|p pat IH]; intros s; simpl.
  - split; [intros _; exists s; reflexivity | reflexivity].
  - destruct s as [|c s].
    + split; [discriminate | intros [b Hb]; discriminate].
    + rewrite andb_true_iff, N.eqb_eq, IH. split.
      * intros [-> [b ->]]. exists b. reflexivity.
      * intros [b Hb]. injection Hb as -> ->. split; [reflexivity | exists b; reflexivity].
Qed.

Lemma contains_spec (pat s : pystr) :
  Str.contains pat s = true <-> exists a b, s = a ++ pat ++ b.
Proof.
  induction s as [|c s IH].
  - simpl. rewrite orb_false_r, startswith_spec. split.
    + intros [b Hb]. exists [], b. exact Hb.
    + intros [a [b Hab]]. destruct a; [exists b; exact Hab | discriminate].
  - cbn [Str.contains]. rewrite orb_true_iff, startswith_spec, IH. split.
    + intros [[b Hb] | [a [b Hab]]].
      * exists [], b. exact Hb.
      * exists (c :: a), b. rewrite Hab. reflexivity.
    + intros [a [b Hab]]. destruct a as [|x a].
      * left. exists b. exact Hab.
      * right. injection Hab as -> ->. exists a, b. reflexivity.
Qed.

Lemma lstrip_spec (s : pystr) :
  exists l, s = l ++ Str.lstrip s /\ forallb Str.isspace l = true /\
            match Str.lstrip s with c :: _ => Str.isspace c = false | [] => True end.
Proof.
  induction s as [|c s (l & Hl & Hsp & Hhd)]; simpl.
  - exists []. auto.
  - destruct (Str.isspace c) eqn:Hc.
    + exists (c :: l). simpl. rewrite Hc, Hsp. split; [congruence | auto].
    + exists []. simpl. auto.
Qed.

Lemma lstrip_app_space (l s : pystr) :
  forallb Str.isspace l = true -> Str.lstrip (l ++ s) = Str.lstrip s.
Proof.
  induction l as [|c l IH]; simpl; [reflexivity|].
  intros H. apply andb_true_iff in H as [-> H]. auto.
Qed.

Lemma lstrip_nonspace_head (c : N) (s : pystr) :
  Str.isspace c = false -> Str.lstrip (c :: s) = c :: s.
Proof. intros H. simpl. rewrite H. reflexivity. Qed.

(** [strip] removes exactly the white space at both ends. *)
Lemma strip_decompose (s : pystr) :
  exists l r, s = l ++ Str.strip s ++ r /\
    forallb Str.isspace l = true /\ forallb Str.isspace r = true.
Proof.
  destruct (lstrip_spec s) as (l & Hl & Hsp & _).
  destruct (lstrip_spec (rev (Str.lstrip s))) as (r & Hr & Hspr & _).
  exists l, (rev r). split; [|split].
  - unfold Str.strip, Str.rstrip. rewrite <- rev_app_distr, <- Hr, rev_involutive.
    exact Hl.
  - exact Hsp.
  - rewrite forallb_forall in *. intros x Hx. apply Hspr. apply in_rev in Hx. exact Hx.
Qed.

Lemma strip_of_padded (l core r : pystr) (a z : N) (mid : pystr) :
  core = a :: mid -> last core = Some z ->
  Str.isspace a = false -> Str.isspace z = false ->
  forallb Str.isspace l = true -> forallb Str.isspace r = true ->
  Str.strip (l ++ core ++ r) = core.
Proof.
  intros Hcore Hlast Ha Hz Hl Hr. unfold Str.strip, Str.rstrip.
  rewrite lstrip_app_space by exact Hl.
  rewrite Hcore. cbn [app]. rewrite lstrip_nonspace_head by exact Ha.
  change (a :: mid ++ r) with ((a :: mid) ++ r). rewrite <- Hcore.
  rewrite rev_app_distr.
  rewrite lstrip_app_space.
  2:{ rewrite forallb_forall in *. intros x Hx. apply Hr. apply in_rev. exact Hx. }
  destruct (rev core) as [|y t] eqn:Hrev.
  - apply (f_equal (@rev N)) in Hrev. rewrite rev_involutive in Hrev. subst core. rewrite Hrev in Hlast. discriminate.
  - assert (core = rev t ++ [y]) as Hc.
    { apply (f_equal (@rev N)) in Hrev. rewrite rev_involutive in Hrev. exact Hrev. }
    rewrite Hc in Hlast. rewrite last_snoc in Hlast. injection Hlast as ->.
    rewrite lstrip_nonspace_head by exact Hz. rewrite Hc. reflexivity.
Qed.

(** Trimmed text equals ["OK"] exactly when the text is ["OK"] between two
    runs of white space. *)
Lemma strip_OK_iff (s : pystr) :
  Str.strip s = T "OK" <->
  exists l r, s = l ++ T "OK" ++ r /\
    forallb Str.isspace l = true /\ forallb Str.isspace r = true.
Proof.
  split.
  - intros H. destruct (strip_decompose s) as (l & r & Hs & Hl & Hr).
    exists l, r. rewrite <- H. auto.
  - intros (l & r & -> & Hl & Hr).
    apply (strip_of_padded l (T "OK") r 79 75 [75]); auto.
Qed.

Lemma contains_lstrip (p : N) (pat s : pystr) :
  Str.isspace p = false ->
  Str.contains (p :: pat) (Str.lstrip s) = Str.contains (p :: pat) s.
Proof.
  intros Hp. induction s as [|c s IH]; [reflexivity|].
  cbn [Str.lstrip]. destruct (Str.isspace c) eqn:Hc; [|reflexivity].
  rewrite IH. cbn [Str.contains Str.startswith].
  destruct (N.eqb_spec p c) as [->|_]; [congruence | reflexivity].
Qed.

Lemma contains_rev (pat s : pystr) :
  Str.contains (rev pat) (rev s) = Str.contains pat s.
Proof.
  apply eq_true_iff_eq. rewrite !contains_spec. split.
  - intros (a & b & H). exists (rev b), (rev a).
    apply (f_equal (@rev N)) in H. rewrite rev_involutive in H. rewrite H.
    rewrite !rev_app_distr, rev_involutive, app_assoc. reflexivity.
  - intros (a & b & ->). exists (rev b), (rev a).
    rewrite !rev_app_distr, app_assoc. reflexivity.
Qed.

(** A pattern that neither starts nor ends with white space occurs in the
    trimmed text exactly when it occurs in the text. *)
Lemma contains_strip (pat s : pystr) (a z : N) (mid : pystr) :
  pat = a :: mid -> last pat = Some z ->
  Str.isspace a = false -> Str.isspace z = false ->
  Str.contains pat (Str.strip s) = Str.contains pat s.
Proof.
  intros Hpat Hlast Ha Hz. unfold Str.strip, Str.rstrip.
  rewrite <- (contains_rev pat (rev _)), rev_involutive.
  assert (exists t, rev pat = z :: t) as [t Ht].
  { destruct (rev pat) as [|y t] eqn:Hrev.
    - apply (f_equal (@rev N)) in Hrev. rewrite rev_involutive in Hrev.
      rewrite Hrev in Hlast. discriminate.
    - apply (f_equal (@rev N)) in Hrev. rewrite rev_involutive in Hrev.
      simpl in Hrev. rewrite Hrev, last_snoc in Hlast. injection Hlast as ->. eauto. }
  rewrite Ht, contains_lstrip by exact Hz. rewrite <- Ht, contains_rev.
  rewrite Hpat. apply contains_lstrip. exact Ha.
Qed.

Lemma contains_ERROR_strip (s : pystr) :
  Str.contains (T "ERROR") (Str.strip s) = Str.contains (T "ERROR") s.
Proof. apply (contains_strip (T "ERROR") s 69 82 (T "RROR")); reflexivity. Qed.

(** ** The monad *)

Lemma bind_ok {A B} (m : M A) (k : A -> M B) w a w1 :
  m w = (Ok a, w1) -> bind m k w = k a w1.
Proof. unfold bind. intros ->. reflexivity. Qed.

Lemma bind_raise {A B} (m : M A) (k : A -> M B) w e w1 :
  m w = (Raise e, w1) -> bind m k w = (Raise e, w1).
Proof. unfold bind. intros ->. reflexivity. Qed.

Lemma bind_inv_ok {A B} (m : M A) (k : A -> M B) w b w2 :
  bind m k w = (Ok b, w2) ->
  exists a w1, m w = (Ok a, w1) /\ k a w1 = (Ok b, w2).
Proof.
  unfold bind. destruct (m w) as [[a|e] w1]; intros H.
  - exists a, w1. auto.
  - discriminate.
Qed.

(** What a returning [run_compiler] has done. *)
Lemma run_compiler_inv exe src is_good w passed data w' :
  run_compiler exe src is_good w = (Ok (passed, data), w') ->
  exists infile child out err,
    open_read src w = (Ok infile, w) /\
    subprocess_run [exe] (Some infile) w = (Ok child, w') /\
    Utf8.decode (child_stdout child) = Some out /\
    Utf8.decode (child_stderr child) = Some err /\
    passed = (if is_good
              then Str.eqb (Str.strip err) (T "OK") && (returncode child =? 0)%Z
              else Str.contains (T "ERROR") (Str.strip err)
                   && negb (returncode child =? 0)%Z) /\
    data = {| stderr_actual := Str.strip err;
              stderr_expected := if is_good then T "OK" else T "ERROR";
              stdout_expected := []; stdout_actual := [];
              stdout_compiler := out |}.
Proof.
  unfold run_compiler. intros H.
  apply bind_inv_ok in H as ([[child out] err'] & w1 & Hbody & Hret).
  unfold try_catch in Hbody.
  destruct (bind (open_read src) _ w) as [[r|e] w2] eqn:Hb.
  2:{ destruct e; simpl in Hbody; discriminate. }
  injection Hbody as -> ->.
  apply bind_inv_ok in Hb as (infile & w3 & Hopen & Hb).
  assert (w3 = w) as ->.
  { unfold open_read, bind, get_fs, ret, raise in Hopen.
    repeat case_match; simplify_eq; reflexivity. }
  apply bind_inv_ok in Hb as (child' & w4 & Hrun & Hb).
  unfold decode_utf8 in Hb.
  destruct (Utf8.decode (child_stdout child')) as [o|] eqn:Ho; [|discriminate].
  rewrite (bind_ok _ _ w4 o w4) in Hb by reflexivity.
  destruct (Utf8.decode (child_stderr child')) as [e|] eqn:He; [|discriminate].
  rewrite (bind_ok _ _ w4 e w4) in Hb by reflexivity.
  unfold ret in Hb. injection Hb as -> -> <- ->.
  exists infile, child, out, e.
  destruct is_good; unfold ret in Hret; injection Hret as <- <- <-; auto 10.
Qed.

(** ** The compile step *)

Lemma subprocess_run_trace argv stdin w :
  w_trace (snd (subprocess_run argv stdin w)) = w_trace w ++ [argv].
Proof.
  unfold subprocess_run. destruct (w_proc w argv stdin (w_fs w) (w_trace w)) as [[cls errno msg|c] fs1];
    reflexivity.
Qed.

Lemma open_read_world p w : snd (open_read p w) = w.
Proof.
  unfold open_read, bind, get_fs, ret, raise.
  repeat case_match; simplify_eq; reflexivity.
Qed.

Lemma try_catch_unable_world {A} (body : M A) what w :
  snd (try_catch body (unable_to_execute what) w) = snd (body w).
Proof.
  unfold try_catch. destruct (body w) as [[a|e] w1]; [reflexivity|].
  destruct e; reflexivity.
Qed.

Lemma bind_pure_world {A B} (m : M A) (k : A -> M B) w :
  (forall a w1, snd (k a w1) = w1) -> snd (bind m k w) = snd (m w).
Proof.
  intros Hk. unfold bind. destruct (m w) as [[a|e] w1]; [apply Hk | reflexivity].
Qed.

Lemma decode_utf8_world b w : snd (decode_utf8 b w) = w.
Proof. unfold decode_utf8. destruct (Utf8.decode b); reflexivity. Qed.

Lemma run_compiler_world exe src is_good w :
  snd (run_compiler exe src is_good w) = w \/
  exists infile, open_read src w = (Ok infile, w) /\
    snd (run_compiler exe src is_good w) = snd (subprocess_run [exe] (Some infile) w).
Proof.
  unfold run_compiler.
  rewrite bind_pure_world.
  2:{ intros [[child out] err] w1. destruct is_good; reflexivity. }
  rewrite try_catch_unable_world.
  pose proof (open_read_world src w) as Hw.
  destruct (open_read src w) as [[infile|e] w1] eqn:Hopen; simpl in Hw; subst w1.
  - right. exists infile. split; [reflexivity|].
    rewrite (bind_ok _ _ _ _ _ Hopen).
    apply bind_pure_world. intros child w1.
    rewrite bind_pure_world; [apply decode_utf8_world|].
    intros out w2. rewrite bind_pure_world; [apply decode_utf8_world|].
    reflexivity.
  - left. rewrite (bind_raise _ _ _ _ _ Hopen). reflexivity.
Qed.

Lemma run_compiler_trace exe src is_good w :
  w_trace (snd (run_compiler exe src is_good w)) = w_trace w \/
  w_trace (snd (run_compiler exe src is_good w)) = w_trace w ++ [[exe]].
Proof.
  destruct (run_compiler_world exe src is_good w) as [-> | (infile & _ & ->)].
  - left. reflexivity.
  - right. apply subprocess_run_trace.
Qed.

(** C3.  For a test case that is expected to compile, the compile step
    passes exactly when the text on the compiler's error stream is the two
    characters ["OK"] with at most white space before and after them, that
    is, is ["OK"] once trimmed, and the exit code is zero. *)
Theorem good_case_passes_iff_exact_OK exe src w passed data w' :
  run_compiler exe src true w = (Ok (passed, data), w') ->
  exists infile child text,
    subprocess_run [exe] (Some infile) w = (Ok child, w') /\
    Utf8.decode (child_stderr child) = Some text /\
    (passed = true <->
     (exists l r, text = l ++ T "OK" ++ r /\
                  forallb Str.isspace l = true /\ forallb Str.isspace r = true) /\
     returncode child = 0%Z).
Proof.
  intros H. apply run_compiler_inv in H
    as (infile & child & out & err & _ & Hrun & _ & Herr & -> & _).
  exists infile, child, err. split; [exact Hrun|]. split; [exact Herr|].
  rewrite andb_true_iff, str_eqb_true, Z.eqb_eq, strip_OK_iff. reflexivity.
Qed.

Lemma good_case_passes_iff_exact_OK_witness :
  let exe := T "sub/jlc_x86" in
  let r := run_compiler exe (T "testsuite/good/t1.jl") true Demo2.world_padded in
  exists infile child text,
    subprocess_run [exe] (Some infile) Demo2.world_padded = (Ok child, snd r) /\
    Utf8.decode (child_stderr child) = Some text /\
    (true = true <->
     (exists l r, text = l ++ T "OK" ++ r /\
                  forallb Str.isspace l = true /\ forallb Str.isspace r = true) /\
     returncode child = 0%Z).
Proof.
  intros exe r.
  apply (good_case_passes_iff_exact_OK exe (T "testsuite/good/t1.jl") Demo2.world_padded true
           (match fst r with Ok (_, d) => d | Raise _ => Build_Struct [] [] [] [] [] end)
           (snd r)).
  vm_compute. reflexivity.
Defined.

(** The compiler of this session answers ["  OK "] and a line end: the
    test passes, and the text kept for the report is the bare ["OK"]. *)
Example padded_OK_passes :
  let r := run_compiler (T "sub/jlc_x86") (T "testsuite/good/t1.jl") true Demo2.world_padded in
  exists data, fst r = Ok (true, data) /\ stderr_actual data = T "OK".
Proof. eexists. split; vm_compute; reflexivity. Qed.

(** Exact match, not substring: text after ["OK"] makes a good case fail. *)
Example good_case_is_exact :
  Str.eqb (Str.strip (T "OK, 0 errors")) (T "OK") = false /\
  Str.contains (T "OK") (T "OK, 0 errors") = true.
Proof. split; reflexivity. Qed.

(** C4.  For a test case that is expected to be rejected, the compile step
    passes exactly when the text on the compiler's error stream contains
    ["ERROR"] somewhere and the exit code is not zero. *)
Theorem bad_case_passes_iff_contains_ERROR exe src w passed data w' :
  run_compiler exe src false w = (Ok (passed, data), w') ->
  exists infile child text,
    subprocess_run [exe] (Some infile) w = (Ok child, w') /\
    Utf8.decode (child_stderr child) = Some text /\
    (passed = true <->
     (exists before after, text = before ++ T "ERROR" ++ after) /\
     returncode child <> 0%Z).
Proof.
  intros H. apply run_compiler_inv in H
    as (infile & child & out & err & _ & Hrun & _ & Herr & -> & _).
  exists infile, child, err. split; [exact Hrun|]. split; [exact Herr|].
  rewrite andb_true_iff, contains_ERROR_strip, contains_spec, negb_true_iff, Z.eqb_neq.
  reflexivity.
Qed.

Lemma bad_case_passes_iff_contains_ERROR_witness :
  let exe := T "sub/jlc" in
  let r := run_compiler exe (T "testsuite/good/t1.jl") false Demo.world0 in
  exists infile child text,
    subprocess_run [exe] (Some infile) Demo.world0 = (Ok child, snd r) /\
    Utf8.decode (child_stderr child) = Some text /\
    (true = true <->
     (exists before after, text = before ++ T "ERROR" ++ after) /\
     returncode child <> 0%Z).
Proof.
  intros exe r.
  apply (bad_case_passes_iff_contains_ERROR exe (T "testsuite/good/t1.jl") Demo.world0 true
           (match fst r with Ok (_, d) => d | Raise _ => Build_Struct [] [] [] [] [] end)
           (snd r)).
  vm_compute. reflexivity.
Defined.

(** C5.  Unless the test case is expected to compile, its compile step
    passed and a backend linker is at hand, [exec_test] is the compile step
    and nothing else: the linker is not called, no program is run, and the
    only command that may have been launched is the compiler. *)
Theorem link_and_run_only_after_good_compile exe filename is_good linker w :
  is_good = false \/ linker = None \/
  (forall d w1, run_compiler exe (filename ++ T ".jl") is_good w <> (Ok (true, d), w1)) ->
  exec_test exe filename is_good linker w
    = run_compiler exe (filename ++ T ".jl") is_good w /\
  (w_trace (snd (exec_test exe filename is_good linker w)) = w_trace w \/
   w_trace (snd (exec_test exe filename is_good linker w)) = w_trace w ++ [[exe]]).
Proof.
  intros H.
  assert (exec_test exe filename is_good linker w
          = run_compiler exe (filename ++ T ".jl") is_good w) as Heq.
  { unfold exec_test, bind at 1.
    destruct (run_compiler exe (filename ++ T ".jl") is_good w) as [[[ok data]|e] w1] eqn:Hc;
      [|reflexivity].
    destruct linker as [link|]; [|reflexivity].
    destruct H as [-> | [H | H]].
    - rewrite orb_true_r. reflexivity.
    - discriminate.
    - destruct ok; [|reflexivity]. exfalso. exact (H data w1 eq_refl). }
  split; [exact Heq|]. rewrite Heq. apply run_compiler_trace.
Qed.

Lemma link_and_run_only_after_good_compile_witness :
  let exe := T "sub/jlc" in
  let linker := Some (pick_linker (T "sub") (T "llvm") false) in
  exec_test exe (T "testsuite/good/t1") false linker Demo.world0
    = run_compiler exe (T "testsuite/good/t1" ++ T ".jl") false Demo.world0 /\
  (w_trace (snd (exec_test exe (T "testsuite/good/t1") false linker Demo.world0))
     = w_trace Demo.world0 \/
   w_trace (snd (exec_test exe (T "testsuite/good/t1") false linker Demo.world0))
     = w_trace Demo.world0 ++ [[exe]]).
Proof.
  intros exe linker.
  apply (link_and_run_only_after_good_compile exe (T "testsuite/good/t1") false linker
           Demo.world0).
  left. reflexivity.
Defined.

(** ** Temporary files of the link step *)

Lemma fs_isfile_false fs p :
  fs_isfile fs p = false <-> files fs !! abspath fs p = None.
Proof.
  unfold fs_isfile. rewrite bool_decide_eq_false, <- eq_None_not_Some. reflexivity.
Qed.

Lemma fs_isfile_true fs p :
  fs_isfile fs p = true <-> is_Some (files fs !! abspath fs p).
Proof. unfold fs_isfile. apply bool_decide_eq_true. Qed.

(** [clean_files] always returns, only deletes, and leaves none of the
    listed names behind as a regular file. *)
Lemma clean_files_spec names : forall w,
  exists w', clean_files names w = (Ok tt, w') /\
    cwd (w_fs w') = cwd (w_fs w) /\
    (forall p, files (w_fs w) !! p = None -> files (w_fs w') !! p = None) /\
    (forall n, n ∈ names -> fs_isfile (w_fs w') n = false).
Proof.
  induction names as [|name rest IH]; intros w.
  - exists w. split; [reflexivity|]. split; [reflexivity|]. split; [auto|].
    intros n Hn. apply elem_of_nil in Hn. contradiction.
  - cbn [clean_files]. unfold isfile, get_fs.
    rewrite (bind_ok _ _ w (fs_isfile (w_fs w) name) w) by reflexivity.
    set (w1 := if fs_isfile (w_fs w) name
               then set_fs (set_files (delete (abspath (w_fs w) name) (files (w_fs w))) (w_fs w)) w
               else w).
    assert ((if fs_isfile (w_fs w) name then os_remove name else ret tt) w = (Ok tt, w1)) as Hstep.
    { subst w1. destruct (fs_isfile (w_fs w) name); reflexivity. }
    rewrite (bind_ok _ _ _ _ _ Hstep).
    assert (cwd (w_fs w1) = cwd (w_fs w)) as Hcwd.
    { subst w1. destruct (fs_isfile (w_fs w) name); reflexivity. }
    assert (forall p, files (w_fs w) !! p = None -> files (w_fs w1) !! p = None) as Hmono.
    { subst w1. intros p Hp. destruct (fs_isfile (w_fs w) name); [|exact Hp].
      cbn. rewrite lookup_delete. case_decide; [reflexivity | exact Hp]. }
    assert (files (w_fs w1) !! abspath (w_fs w) name = None) as Hgone.
    { subst w1. destruct (fs_isfile (w_fs w) name) eqn:Hf.
      - cbn. apply lookup_delete_eq.
      - apply fs_isfile_false. exact Hf. }
    destruct (IH w1) as (w' & Hrun & Hcwd' & Hmono' & Hrest).
    exists w'. split; [exact Hrun|]. split; [congruence|]. split; [auto|].
    intros n Hn. apply elem_of_cons in Hn as [-> | Hn]; [|auto].
    apply fs_isfile_false. unfold abspath. rewrite Hcwd', Hcwd. apply Hmono'. exact Hgone.
Qed.

(** [mkstemp] always returns, and the name it returns is a regular file
    afterwards. *)
Lemma mkstemp_spec pre suf w :
  exists tmp w1, mkstemp pre suf w = (Ok tmp, w1) /\ fs_isfile (w_fs w1) tmp = true.
Proof.
  unfold mkstemp, get_fs, take_tmp, write_bytes, put_fs, bind, ret. cbn.
  eexists _, _. split; [reflexivity|].
  apply fs_isfile_true. cbn. rewrite lookup_insert_eq. eauto.
Qed.



(** The exit through a failing tool: the assembler exits with code 1, the
    link step raises, and the file system is as it was before. *)
Example link_x86_failure_cleans_up :
  let r := link_x86 (T "sub") (T "ret") false false Demo.world_nasm_fails in
  fst r = Raise (TestingException (T "nasm failed with:" ++ Str.nl ++ T "nasm: fatal")) /\
  files (w_fs (snd r)) = files (w_fs Demo.world_nasm_fails).
Proof. cbv zeta. split; vm_compute; reflexivity. Qed.

(** ** The history of verdicts is only written by the test loop *)

Section KeepsLog.

Context {A B : Type}.

Lemma keeps_ret (a : A) : keeps_log (ret a).
Proof. intros w. reflexivity. Qed.

Lemma keeps_raise (e : exn) : keeps_log (raise (A := A) e).
Proof. intros w. reflexivity. Qed.

Lemma keeps_bind (m : M A) (k : A -> M B) :
  keeps_log m -> (forall a, keeps_log (k a)) -> keeps_log (bind m k).
Proof.
  intros Hm Hk w. unfold bind. specialize (Hm w).
  destruct (m w) as [[a|e] w1]; cbn in *.
  - rewrite Hk. exact Hm.
  - exact Hm.
Qed.

Lemma keeps_try_finally (body : M A) (fin : M unit) :
  keeps_log body -> keeps_log fin -> keeps_log (try_finally body fin).
Proof.
  intros Hb Hf w. unfold try_finally. specialize (Hb w).
  destruct (body w) as [r w1]. specialize (Hf w1).
  destruct (fin w1) as [[[]|e] w2]; cbn in *; congruence.
Qed.

Lemma keeps_try_catch (body : M A) (handler : exn -> option (M A)) :
  keeps_log body -> (forall e h, handler e = Some h -> keeps_log h) ->
  keeps_log (try_catch body handler).
Proof.
  intros Hb Hh w. unfold try_catch. specialize (Hb w).
  destruct (body w) as [[a|e] w1]; cbn in *; [exact Hb|].
  destruct (handler e) as [h|] eqn:He; [|exact Hb].
  rewrite (Hh e h He). exact Hb.
Qed.

End KeepsLog.

Lemma keeps_get_fs : keeps_log get_fs.
Proof. intros w. reflexivity. Qed.

Lemma keeps_put_fs fs : keeps_log (put_fs fs).
Proof. intros w. reflexivity. Qed.

Lemma keeps_stdout_write s : keeps_log (stdout_write s).
Proof. intros w. reflexivity. Qed.

Lemma keeps_stderr_write s : keeps_log (stderr_write s).
Proof. intros w. reflexivity. Qed.

Lemma keeps_platform_system : keeps_log platform_system.
Proof. intros w. reflexivity. Qed.

Lemma keeps_take_tmp dir pre suf : keeps_log (take_tmp dir pre suf).
Proof. intros w. reflexivity. Qed.

Lemma keeps_subprocess_run argv stdin : keeps_log (subprocess_run argv stdin).
Proof.
  intros w. unfold subprocess_run.
  destruct (w_proc w argv stdin (w_fs w) (w_trace w)) as [[cls errno msg|c] fs1]; reflexivity.
Qed.

Lemma keeps_unable_to_execute {A} what e (h : M A) :
  unable_to_execute what e = Some h -> keeps_log h.
Proof.
  destruct e; cbn; intros H; try discriminate.
  injection H as <-. apply keeps_raise.
Qed.

Create HintDb keeps_db.

#[local] Hint Resolve keeps_get_fs keeps_put_fs keeps_stdout_write keeps_stderr_write
  keeps_platform_system keeps_take_tmp keeps_subprocess_run : keeps_db.

(** Peels a computation apart and closes the goals on known operations. *)
Ltac keeps_step :=
  first
    [ apply keeps_ret | apply keeps_raise
    | solve [auto with keeps_db]
    | eapply keeps_unable_to_execute; eassumption
    | apply keeps_bind | apply keeps_try_finally | apply keeps_try_catch
    | match goal with
      | |- keeps_log (match ?x with _ => _ end) => destruct x
      | |- forall _, _ => intro
      end ].

Ltac keeps := repeat keeps_step.

Lemma keeps_isfile p : keeps_log (isfile p).
Proof. unfold isfile. keeps. Qed.

Lemma keeps_open_read p : keeps_log (open_read p).
Proof. unfold open_read. keeps. Qed.

Lemma keeps_decode_utf8 b : keeps_log (decode_utf8 b).
Proof. unfold decode_utf8. keeps. Qed.

Lemma keeps_encode_utf8 s : keeps_log (encode_utf8 s).
Proof. unfold encode_utf8. keeps. Qed.

Lemma keeps_write_bytes p c : keeps_log (write_bytes p c).
Proof. unfold write_bytes. keeps. Qed.

Lemma keeps_os_remove p : keeps_log (os_remove p).
Proof. unfold os_remove. keeps. Qed.

#[local] Hint Resolve keeps_isfile keeps_open_read keeps_decode_utf8 keeps_encode_utf8
  keeps_write_bytes keeps_os_remove : keeps_db.

Lemma keeps_read_text p : keeps_log (read_text p).
Proof. unfold read_text. keeps. Qed.

Lemma keeps_mkstemp pre suf : keeps_log (mkstemp pre suf).
Proof. unfold mkstemp. keeps. Qed.

Lemma keeps_clean_files names : keeps_log (clean_files names).
Proof. induction names as [|n rest IH]; cbn [clean_files]; keeps. Qed.

Lemma keeps_run_command cmd args stdi stdo : keeps_log (run_command cmd args stdi stdo).
Proof. unfold run_command. keeps. Qed.

#[local] Hint Resolve keeps_read_text keeps_mkstemp keeps_clean_files
  keeps_run_command : keeps_db.

Lemma keeps_link_llvm path s : keeps_log (link_llvm path s).
Proof. unfold link_llvm. keeps. Qed.

Lemma keeps_link_x86 path s is_x64 is_macho : keeps_log (link_x86 path s is_x64 is_macho).
Proof. unfold link_x86. keeps. Qed.

Lemma keeps_pick_linker path suffix macho s : keeps_log (pick_linker path suffix macho s).
Proof.
  unfold pick_linker.
  destruct (Str.eqb suffix (T "llvm")); [apply keeps_link_llvm|].
  destruct (Str.eqb suffix (T "x86")); apply keeps_link_x86.
Qed.

Lemma keeps_run_compiler exe src is_good : keeps_log (run_compiler exe src is_good).
Proof. unfold run_compiler. keeps. Qed.

#[local] Hint Resolve keeps_run_compiler : keeps_db.

Lemma keeps_exec_test exe filename is_good linker :
  linker_keeps_log linker -> keeps_log (exec_test exe filename is_good linker).
Proof.
  intros Hl. unfold exec_test. apply keeps_bind; [apply keeps_run_compiler|].
  intros [ok data]. destruct linker as [link|]; [|apply keeps_ret].
  pose proof (Hl link eq_refl) as Hlink.
  keeps.
Qed.

(** ** The loops of [run_tests] *)

Lemma failing_records_app vs1 vs2 :
  failing_records (vs1 ++ vs2) = failing_records vs1 ++ failing_records vs2.
Proof. unfold failing_records. rewrite filter_app, map_app. reflexivity. Qed.

Lemma failing_records_cons v vs :
  failing_records (v :: vs) =
  if v_ok v then failing_records vs else (v_test v, v_data v) :: failing_records vs.
Proof.
  unfold failing_records. destruct (v_ok v) eqn:Hv.
  - rewrite filter_cons_False by congruence. reflexivity.
  - rewrite filter_cons_True by exact Hv. reflexivity.
Qed.

Lemma count_ok_cons v vs :
  length (filter (fun v => v_ok v = true) (v :: vs)) =
  ((if v_ok v then 1 else 0) + length (filter (fun v => v_ok v = true) vs))%nat.
Proof.
  destruct (v_ok v) eqn:Hv.
  - rewrite filter_cons_True by exact Hv. reflexivity.
  - rewrite filter_cons_False by congruence. reflexivity.
Qed.

Lemma count_bad_cons v vs :
  length (filter (fun v => v_ok v = false) (v :: vs)) =
  ((if v_ok v then 0 else 1) + length (filter (fun v => v_ok v = false) vs))%nat.
Proof.
  destruct (v_ok v) eqn:Hv.
  - rewrite filter_cons_False by congruence. reflexivity.
  - rewrite filter_cons_True by exact Hv. reflexivity.
Qed.

Lemma test_loop_cons full linker title total filename is_good rest t w t' w' :
  test_loop full linker title total ((filename, is_good) :: rest) t w = (Ok t', w') ->
  exists ok data w1,
    exec_test full filename is_good linker w = (Ok (ok, data), w1) /\
    let v := {| v_pass := title; v_test := filename; v_ok := ok; v_data := data |} in
    let t1 := if ok
              then {| tests_ok := S (tests_ok t); tests_bad := tests_bad t;
                      failures := failures t |}
              else {| tests_ok := tests_ok t; tests_bad := S (tests_bad t);
                      failures := failures t ++ [(filename, data)] |} in
    test_loop full linker title total rest t1
      (add_stdout (status_msg title (tests_ok t1) (tests_bad t1) total) (add_verdict v w1))
    = (Ok t', w').
Proof.
  cbn [test_loop]. intros H.
  apply bind_inv_ok in H as ([ok data] & w1 & Hexec & H).
  exists ok, data, w1. split; [exact Hexec|]. exact H.
Qed.

(** One pass: every test case is executed once, in order; it adds one to
    exactly one of the two counters, and a record to [failures] when it
    fails. *)
Lemma test_loop_spec full linker title total tests :
  linker_keeps_log linker ->
  forall t w t' w',
  test_loop full linker title total tests t w = (Ok t', w') ->
  exists vs,
    w_verdicts w' = w_verdicts w ++ vs /\
    executed vs = map (fun tc => (title, fst tc)) tests /\
    failures t' = failures t ++ failing_records vs /\
    tests_ok t' = (tests_ok t + length (filter (fun v => v_ok v = true) vs))%nat /\
    tests_bad t' = (tests_bad t + length (filter (fun v => v_ok v = false) vs))%nat.
Proof.
  intros Hl. induction tests as [|[filename is_good] rest IH]; intros t w t' w' H.
  - cbn in H. injection H as <- <-. exists []. cbn.
    rewrite !app_nil_r, !Nat.add_0_r. auto.
  - apply test_loop_cons in H as (ok & data & w1 & Hexec & H). cbv zeta in H.
    apply IH in H as (vs & Hlog & Hex & Hf & Hok & Hbad).
    pose proof (keeps_exec_test full filename is_good linker Hl w) as Hk.
    rewrite Hexec in Hk. cbn in Hk.
    exists ({| v_pass := title; v_test := filename; v_ok := ok; v_data := data |} :: vs).
    split; [|split; [|split; [|split]]].
    + rewrite Hlog. cbn. rewrite Hk, <- app_assoc. reflexivity.
    + unfold executed in *. cbn. rewrite Hex. reflexivity.
    + rewrite Hf, failing_records_cons. destruct ok; cbn.
      * reflexivity.
      * rewrite <- app_assoc. reflexivity.
    + rewrite Hok, count_ok_cons. destruct ok; cbn; lia.
    + rewrite Hbad, count_bad_cons. destruct ok; cbn; lia.
Qed.

Lemma filter_ok_split (vs : list Verdict) :
  (length (filter (fun v => v_ok v = true) vs)
   + length (filter (fun v => v_ok v = false) vs))%nat = length vs.
Proof.
  induction vs as [|v vs IH]; [reflexivity|].
  rewrite count_ok_cons, count_bad_cons. destruct (v_ok v); cbn; lia.
Qed.

(** The counting part holds for any linker. *)
Lemma test_loop_counts full linker title total tests :
  forall t w t' w',
  test_loop full linker title total tests t w = (Ok t', w') ->
  (tests_ok t' + tests_bad t' = tests_ok t + tests_bad t + length tests)%nat /\
  (tests_ok t <= tests_ok t')%nat /\ (tests_bad t <= tests_bad t')%nat /\
  (length (failures t') + tests_bad t = length (failures t) + tests_bad t')%nat.
Proof.
  induction tests as [|[filename is_good] rest IH]; intros t w t' w' H.
  - cbn in H. injection H as <- <-. cbn. lia.
  - apply test_loop_cons in H as (ok & data & w1 & _ & H). cbv zeta in H.
    apply IH in H. destruct ok; cbn in H; rewrite ?length_app in H; cbn in H; cbn; lia.
Qed.

(** C6.  A pass starts from two zero counters and runs the loop over the
    whole catalogue; when it completes, the two counters add up to the
    number of test cases, and the failure list has grown by the number of
    failed ones. *)
Theorem pass_counts_add_up full linker title total test_files recorded w t' w' :
  test_loop full linker title total test_files
    {| tests_ok := 0; tests_bad := 0; failures := recorded |} w = (Ok t', w') ->
  (tests_ok t' + tests_bad t')%nat = length test_files /\
  length (failures t') = (length recorded + tests_bad t')%nat.
Proof.
  intros H. apply test_loop_counts in H. cbn in H. lia.
Qed.

Lemma pass_counts_add_up_witness :
  let r := test_loop (T "sub/jlc") None (T "typecheck") 1 [(T "testsuite/good/t1", true)]
             {| tests_ok := 0; tests_bad := 0; failures := [] |} Demo.world0 in
  let t' := match fst r with Ok t => t | Raise _ => Build_Tally 0 0 [] end in
  (tests_ok t' + tests_bad t')%nat = length [(T "testsuite/good/t1", true)] /\
  length (failures t') = (length (@nil (pystr * Struct)) + tests_bad t')%nat.
Proof.
  intros r t'.
  apply (pass_counts_add_up (T "sub/jlc") None (T "typecheck") 1%nat
           [(T "testsuite/good/t1", true)] [] Demo.world0 t' (snd r)).
  vm_compute. reflexivity.
Defined.

Lemma executed_app vs1 vs2 : executed (vs1 ++ vs2) = executed vs1 ++ executed vs2.
Proof. unfold executed. apply map_app. Qed.

Lemma pick_linker_keeps path suffix macho :
  linker_keeps_log (Some (pick_linker path suffix macho)).
Proof. intros link H s. injection H as <-. apply keeps_pick_linker. Qed.

Lemma no_linker_keeps : linker_keeps_log None.
Proof. intros link H. discriminate. Qed.

(** The passes over the backends: the history grows by one verdict per
    backend and test case, in the order of execution; [failures] grows by
    the failing ones and is never emptied; the counters are those of the
    last pass. *)
Lemma backend_loop_spec path prefix macho tests backends :
  forall t w t' w',
  backend_loop path prefix macho (length tests) tests backends t w = (Ok t', w') ->
  exists vs,
    w_verdicts w' = w_verdicts w ++ vs /\
    executed vs = schedule backends tests /\
    failures t' = failures t ++ failing_records vs /\
    (backends <> [] -> (tests_ok t' + tests_bad t')%nat = length tests).
Proof.
  induction backends as [|suffix rest IH]; intros t w t' w' H.
  - cbn in H. injection H as <- <-. exists []. cbn. rewrite !app_nil_r.
    repeat (split; [reflexivity|]). intros Hne. destruct Hne. reflexivity.
  - cbn [backend_loop] in H. cbv zeta in H.
    apply bind_inv_ok in H as (t1 & w1 & Hpass & H).
    apply bind_inv_ok in H as ([] & w2 & Hprint & H).
    injection Hprint as <-.
    pose proof Hpass as Hcount. apply test_loop_counts in Hcount. cbn in Hcount.
    apply test_loop_spec in Hpass as (vs1 & Hlog1 & Hex1 & Hf1 & _ & _);
      [|apply pick_linker_keeps].
    cbn in Hf1.
    pose proof H as Hrest. apply IH in H as (vs2 & Hlog2 & Hex2 & Hf2 & Hsum).
    exists (vs1 ++ vs2). split; [|split; [|split]].
    + rewrite Hlog2. cbn. rewrite Hlog1, <- app_assoc. reflexivity.
    + rewrite executed_app, Hex1, Hex2. reflexivity.
    + rewrite Hf2, Hf1, failing_records_app, <- app_assoc. reflexivity.
    + intros _. destruct rest as [|b rest'].
      * cbn in Hrest. injection Hrest as <- _. lia.
      * apply Hsum. discriminate.
Qed.

Lemma run_passes_spec path backends prefix tests w t w' :
  run_passes path backends prefix tests w = (Ok t, w') ->
  exists vs,
    w_verdicts w' = w_verdicts w ++ vs /\
    executed vs = schedule (pass_titles backends) tests /\
    failures t = failing_records vs /\
    (tests_ok t + tests_bad t)%nat = length tests.
Proof.
  unfold run_passes. destruct backends as [|b rest].
  - intros H. pose proof H as Hcount. apply test_loop_counts in Hcount. cbn in Hcount.
    apply test_loop_spec in H as (vs & Hlog & Hex & Hf & _ & _); [|apply no_linker_keeps].
    exists vs. cbn. rewrite app_nil_r. cbn in Hf. split; [exact Hlog|].
    split; [exact Hex|]. split; [exact Hf | lia].
  - intros H. apply bind_inv_ok in H as (sys & w1 & Hsys & H).
    injection Hsys as <- <-.
    apply backend_loop_spec in H as (vs & Hlog & Hex & Hf & Hsum).
    exists vs. split; [exact Hlog|]. split; [exact Hex|]. split; [exact Hf|].
    apply Hsum. discriminate.
Qed.

Lemma print_all_spec lines : forall w,
  exists w', print_all lines w = (Ok tt, w') /\
    w_stdout w' = w_stdout w ++ map (fun l => l ++ Str.nl) lines /\
    w_verdicts w' = w_verdicts w.
Proof.
  induction lines as [|l rest IH]; intros w.
  - exists w. cbn. rewrite app_nil_r. auto.
  - cbn [print_all]. unfold print at 1, stdout_write.
    rewrite (bind_ok _ _ w tt (add_stdout (l ++ Str.nl) w)) by reflexivity.
    destruct (IH (add_stdout (l ++ Str.nl) w)) as (w' & Hrun & Hout & Hlog).
    exists w'. split; [exact Hrun|]. split; [|exact Hlog].
    rewrite Hout. cbn. rewrite <- app_assoc. reflexivity.
Qed.

(** What "Show results" prints. *)
Lemma show_results_spec backends total t w :
  exists w', show_results backends total t w = (Ok (Nat.eqb (tests_ok t) total), w') /\
    w_verdicts w' = w_verdicts w /\
    w_stdout w' = w_stdout w ++
      map (fun l => l ++ Str.nl)
        (if Nat.eqb (tests_ok t) total
         then [T "All tests succeeded."]
         else T "Some tests failed:" :: concat (map (failure_block backends) (failures t))).
Proof.
  unfold show_results. destruct (Nat.eqb (tests_ok t) total).
  - eexists. split; [reflexivity|]. split; reflexivity.
  - destruct (print_all_spec (concat (map (failure_block backends) (failures t)))
                (add_stdout (T "Some tests failed:" ++ Str.nl) w)) as (w' & Hrun & Hout & Hlog).
    exists w'. split; [|split].
    + unfold print at 1, stdout_write.
      rewrite (bind_ok _ _ w tt w').
      * reflexivity.
      * rewrite (bind_ok _ _ w tt (add_stdout (T "Some tests failed:" ++ Str.nl) w)) by reflexivity.
        exact Hrun.
    + exact Hlog.
    + rewrite Hout. cbn. rewrite <- app_assoc. reflexivity.
Qed.

(** C10, as the code has it.  When the passes complete, [failures] holds
    one record for every executed (pass, test case) pair that failed, in
    the order of execution and across all passes, while the two counters
    are those of the last pass alone; and whenever "Show results" takes its
    failure branch, what it prints is the heading followed by the block of
    every such record, in that order, with nothing that tells the passes
    apart. *)
Theorem failure_records_span_all_passes path backends prefix tests w t w' :
  run_passes path backends prefix tests w = (Ok t, w') ->
  exists vs,
    w_verdicts w' = w_verdicts w ++ vs /\
    executed vs = schedule (pass_titles backends) tests /\
    failures t = failing_records vs /\
    (tests_ok t + tests_bad t)%nat = length tests /\
    (Nat.eqb (tests_ok t) (length tests) = false ->
     forall w2, exists w3,
       show_results backends (length tests) t w2 = (Ok false, w3) /\
       w_stdout w3 = w_stdout w2 ++
         map (fun l => l ++ Str.nl)
           (T "Some tests failed:" ::
            concat (map (failure_block backends) (failing_records vs)))).
Proof.
  intros H. apply run_passes_spec in H as (vs & Hlog & Hex & Hf & Hsum).
  exists vs. repeat (split; [assumption|]).
  intros Hne w2.
  destruct (show_results_spec backends (length tests) t w2) as (w3 & Hrun & _ & Hout).
  rewrite Hne in Hrun, Hout. rewrite Hf in Hout. exists w3. auto.
Qed.

Lemma failure_records_span_all_passes_witness :
  let tests := [(T "testsuite/good/t1", true)] in
  let backends := [T "x86"; T "llvm"] in
  let r := run_passes (T "sub") backends (T "jlc") tests Demo.world0 in
  let t := match fst r with Ok t => t | Raise _ => Build_Tally 0 0 [] end in
  exists vs,
    w_verdicts (snd r) = w_verdicts Demo.world0 ++ vs /\
    executed vs = schedule (pass_titles backends) tests /\
    failures t = failing_records vs /\
    (tests_ok t + tests_bad t)%nat = length tests /\
    (Nat.eqb (tests_ok t) (length tests) = false ->
     forall w2, exists w3,
       show_results backends (length tests) t w2 = (Ok false, w3) /\
       w_stdout w3 = w_stdout w2 ++
         map (fun l => l ++ Str.nl)
           (T "Some tests failed:" ::
            concat (map (failure_block backends) (failing_records vs)))).
Proof.
  intros tests backends r t.
  apply (failure_records_span_all_passes (T "sub") backends (T "jlc") tests Demo.world0 t (snd r)).
  vm_compute. reflexivity.
Defined.

(** The claim as worded fails: a failure in a pass that is not the last
    one is recorded, and no block is printed for it. *)
Lemma failure_section_missing_example :
  let r := run_tests_locals (T "sub") [T "llvm"; T "x86"] (T "jlc") [] Demo.world0 in
  (exists loc, fst r = Ok loc /\
     map fst (failures (tally loc)) = [T "testsuite/good/t1"]) /\
  executed (filter (fun v => v_ok v = false) (w_verdicts (snd r)))
    = [(T "llvm", T "testsuite/good/t1")] /\
  last (w_stdout (snd r)) = Some (T "All tests succeeded." ++ Str.nl) /\
  forallb (fun chunk => negb (Str.contains (T "failed !!!") chunk)) (w_stdout (snd r)) = true.
Proof.
  intros r. split.
  { exists (match fst r with
            | Ok loc => loc
            | Raise _ => Build_Locals [] (Build_Tally 0 0 []) false
            end).
    split; vm_compute; reflexivity. }
  repeat split; vm_compute; reflexivity.
Qed.

(** C2 at a failing input: two backends, the only test fails under the
    first and passes under the second; the success flag is [true]. *)
Theorem success_flag_ignores_earlier_passes :
  let r := run_tests_locals (T "sub") [T "llvm"; T "x86"] (T "jlc") [] Demo.world0 in
  (exists loc, fst r = Ok loc /\ success loc = true) /\
  map (fun v => (v_pass v, v_ok v)) (w_verdicts (snd r))
    = [(T "llvm", false); (T "x86", true)] /\
  existsb (Str.eqb (status_msg (T "llvm") 0 1 1)) (w_stdout (snd r)) = true.
Proof.
  intros r. split.
  { exists (match fst r with
            | Ok loc => loc
            | Raise _ => Build_Locals [] (Build_Tally 0 0 []) false
            end).
    split; vm_compute; reflexivity. }
  split; vm_compute; reflexivity.
Qed.

(** ** The catalogue *)

Lemma splitext_app (p a b : pystr) : Path.splitext p = (a, b) -> p = a ++ b.
Proof.
  unfold Path.splitext. intros H.
  repeat case_match; simplify_eq; rewrite ?app_nil_r, ?take_drop; reflexivity.
Qed.

Lemma build_list_loop_spec path is_good names : forall all_names tests w,
  (forall n, n ∈ names -> n ∈ all_names) ->
  exists new,
    build_list_loop tests path is_good names w = (Ok (tests ++ new), w) /\
    Forall (from_jl_file (w_fs w) path is_good all_names) new.
Proof.
  induction names as [|fname rest IH]; intros all_names tests w Hsub.
  - exists []. rewrite app_nil_r. split; [reflexivity | constructor].
  - cbn [build_list_loop]. unfold isfile, get_fs.
    rewrite (bind_ok _ _ w (fs_isfile (w_fs w) (Path.join path [fname])) w) by reflexivity.
    destruct (Path.splitext fname) as [base ext] eqn:Hsplit.
    assert (forall n, n ∈ rest -> n ∈ all_names) as Hsub'.
    { intros n Hn. apply Hsub. apply elem_of_cons. right. exact Hn. }
    destruct (fs_isfile (w_fs w) (Path.join path [fname])) eqn:Hfile;
      destruct (Str.eqb ext (T ".jl")) eqn:Hext; cbn [andb];
      try (destruct (IH all_names tests w Hsub') as (new & Hrun & Hall);
           exists new; split; [exact Hrun | exact Hall]).
    apply str_eqb_true in Hext. subst ext. apply splitext_app in Hsplit. subst fname.
    destruct (IH all_names (tests ++ [(Path.join path [base], is_good)]) w Hsub')
      as (new & Hrun & Hall).
    exists ((Path.join path [base], is_good) :: new). split.
    + rewrite Hrun, <- app_assoc. reflexivity.
    + constructor; [|exact Hall]. exists base. split; [reflexivity|]. split; [|exact Hfile].
      apply Hsub. apply elem_of_cons. left. reflexivity.
Qed.

(** C8, as the code has it.  Scanning a directory that does not exist
    raises an operating-system error and builds nothing; scanning one that
    exists only ever adds entries for regular files whose name ends in
    [.jl], after the entries that were there, and changes nothing else. *)
Theorem build_list_missing_or_jl_only tests path is_good w :
  match dirs (w_fs w) !! abspath (w_fs w) path with
  | None =>
      exists cls errno strerror,
        build_list tests path is_good w = (Raise (OSError cls errno strerror), w)
  | Some names =>
      exists new,
        build_list tests path is_good w = (Ok (tests ++ new), w) /\
        Forall (from_jl_file (w_fs w) path is_good names) new
  end.
Proof.
  destruct (dirs (w_fs w) !! abspath (w_fs w) path) as [names|] eqn:Hdir.
  - destruct (build_list_loop_spec path is_good names names tests w) as (new & Hrun & Hall);
      [auto|].
    exists new. split; [|exact Hall].
    unfold build_list. rewrite (bind_ok _ _ w names w); [exact Hrun|].
    unfold listdir, get_fs, bind. rewrite Hdir. reflexivity.
  - destruct (fs_isfile (w_fs w) path) eqn:Hfile.
    + exists (T "NotADirectoryError"), 20%Z, (T "Not a directory").
      unfold build_list. apply bind_raise.
      unfold listdir, get_fs, bind. rewrite Hdir, Hfile. reflexivity.
    + exists (T "FileNotFoundError"), 2%Z, (T "No such file or directory").
      unfold build_list. apply bind_raise.
      unfold listdir, get_fs, bind. rewrite Hdir, Hfile. reflexivity.
Qed.

(** The claim as worded fails: without [testsuite/good] the catalogue is
    not built, and the session ends with exit code 1. *)
Lemma missing_good_directory_raises :
  fs_isdir (w_fs Demo.world_nogood) (T "testsuite/good") = false /\
  build_list [] (T "testsuite/good") true Demo.world_nogood
    = (Raise ENOENT, Demo.world_nogood) /\
  fst (run_tests (T "sub") [] (T "jlc") [] Demo.world_nogood) = Raise ENOENT /\
  exit_code (Demo.ns0 false false) Demo.world_nogood = 1%Z.
Proof. repeat split; vm_compute; reflexivity. Qed.

Example catalogue_skips_other_entries :
  fst (build_catalog [] Demo.world0) = Ok [(T "testsuite/good/t1", true)].
Proof. vm_compute. reflexivity. Qed.

(** ** The run stage *)

Lemma try_catch_unable_inv_ok {A} (body : M A) what w a w' :
  try_catch body (unable_to_execute what) w = (Ok a, w') -> body w = (Ok a, w').
Proof.
  unfold try_catch. destruct (body w) as [[a0|e] w1]; [auto|].
  destruct e; cbn; discriminate.
Qed.

Lemma isfile_eval p w : isfile p w = (Ok (fs_isfile (w_fs w) p), w).
Proof. reflexivity. Qed.

Lemma open_read_inv p w content w' :
  open_read p w = (Ok content, w') ->
  w' = w /\ files (w_fs w) !! abspath (w_fs w) p = Some content.
Proof.
  unfold open_read, get_fs, bind, ret, raise. intros H.
  repeat case_match; simplify_eq. auto.
Qed.

Lemma read_text_inv p w s w' :
  read_text p w = (Ok s, w') ->
  w' = w /\ universal_newlines <$> (files (w_fs w) !! abspath (w_fs w) p ≫= Utf8.decode) = Some s.
Proof.
  unfold read_text. intros H.
  apply bind_inv_ok in H as (b & w1 & Hopen & H).
  apply open_read_inv in Hopen as [-> Hb].
  unfold decode_utf8 in H. rewrite Hb. cbn.
  destruct (Utf8.decode b) as [s0|]; [|discriminate].
  cbn in H. injection H as <- <-. auto.
Qed.

(** C7, as the code has it.  When a good test case has compiled and its
    run returns a verdict, the verdict is [true] exactly when the decoded
    standard output of the program equals the expected text: the fixture as
    a text-mode read hands it over (decoded, every ["\r\n"] and ["\r"]
    turned into ["\n"]), or the empty string when there is no fixture. *)
Theorem run_verdict_compares_text exe filename link w d0 w0 passed data w' :
  run_compiler exe (filename ++ T ".jl") true w = (Ok (true, d0), w0) ->
  exec_test exe filename true (Some link) w = (Ok (passed, data), w') ->
  exists w1 infile child actual expected,
    link (stdout_compiler d0) w0 = (Ok tt, w1) /\
    subprocess_run [T "./a.out"] (Some infile) w1 = (Ok child, w') /\
    Utf8.decode (child_stdout child) = Some actual /\
    expected_output (w_fs w1) filename = Some expected /\
    (passed = true <-> actual = expected).
Proof.
  intros Hc H. unfold exec_test in H. rewrite (bind_ok _ _ _ _ _ Hc) in H. cbn [negb orb] in H.
  apply bind_inv_ok in H as ([] & w1 & Hlink & H).
  rewrite (bind_ok _ _ _ _ _ (isfile_eval _ w1)) in H.
  apply bind_inv_ok in H as (infile & w2 & Hin & H).
  assert (w2 = w1) as ->.
  { destruct (fs_isfile (w_fs w1) (filename ++ T ".input")).
    - apply open_read_inv in Hin as [-> _]. reflexivity.
    - injection Hin as _ <-. reflexivity. }
  rewrite (bind_ok _ _ _ _ _ (isfile_eval _ w1)) in H.
  apply bind_inv_ok in H as (expected & w2 & Hexp & H).
  assert (w2 = w1 /\ expected_output (w_fs w1) filename = Some expected) as [-> Hexpected].
  { unfold expected_output. destruct (fs_isfile (w_fs w1) (filename ++ T ".output")) eqn:Hf.
    - apply read_text_inv in Hexp as [-> Hs]. split; [reflexivity|].
      apply fs_isfile_true in Hf as [content Hcontent].
      rewrite Hcontent in Hs |- *. exact Hs.
    - injection Hexp as <- <-. apply fs_isfile_false in Hf. rewrite Hf. auto. }
  apply bind_inv_ok in H as (actual & w3 & Hrun & H).
  apply try_catch_unable_inv_ok in Hrun.
  apply bind_inv_ok in Hrun as (child & w4 & Hspawn & Hdec).
  unfold decode_utf8 in Hdec.
  destruct (Utf8.decode (child_stdout child)) as [s|] eqn:Hs; [|discriminate].
  injection Hdec as -> ->. injection H as <- _ <-.
  exists w1, infile, child, actual, expected.
  repeat (split; [assumption|]). apply str_eqb_true.
Qed.

Lemma run_verdict_compares_text_witness :
  let exe := T "sub/jlc_x86" in
  let filename := T "testsuite/good/t1" in
  let link := pick_linker (T "sub") (T "x86") false in
  let c := run_compiler exe (filename ++ T ".jl") true Demo.world_crlf in
  let d0 := match fst c with Ok (_, d) => d | Raise _ => Build_Struct [] [] [] [] [] end in
  let r := exec_test exe filename true (Some link) Demo.world_crlf in
  exists w1 infile child actual expected,
    link (stdout_compiler d0) (snd c) = (Ok tt, w1) /\
    subprocess_run [T "./a.out"] (Some infile) w1 = (Ok child, snd r) /\
    Utf8.decode (child_stdout child) = Some actual /\
    expected_output (w_fs w1) filename = Some expected /\
    (false = true <-> actual = expected).
Proof.
  intros exe filename link c d0 r.
  apply (run_verdict_compares_text exe filename link Demo.world_crlf d0 (snd c) false
           (match fst r with Ok (_, d) => d | Raise _ => d0 end) (snd r)).
  - vm_compute. reflexivity.
  - vm_compute. reflexivity.
Defined.

(** The claim as worded fails: the program prints the very bytes of the
    fixture, which ends in a carriage return and a line feed, and the
    verdict is [false]. *)
Lemma identical_bytes_can_fail :
  let filename := T "testsuite/good/t1" in
  let link := pick_linker (T "sub") (T "x86") false in
  let r := exec_test (T "sub/jlc_x86") filename true (Some link) Demo.world_crlf in
  (exists data, fst r = Ok (false, data)) /\
  files (w_fs (snd r)) !! T "/w/testsuite/good/t1.output" = Some Demo.crlf /\
  last (w_trace (snd r)) = Some [T "./a.out"] /\
  (forall stdin fs trace,
     fst (w_proc Demo.world_crlf [T "./a.out"] stdin fs trace)
     = Demo.completed 0 Demo.crlf []).
Proof.
  intros filename link r.
  split.
  { exists (match fst r with Ok (_, d) => d | Raise _ => Build_Struct [] [] [] [] [] end).
    vm_compute. reflexivity. }
  split; [vm_compute; reflexivity|].
  split; [vm_compute; reflexivity|].
  intros stdin fs trace. reflexivity.
Qed.

(** ** The exit code *)

Lemma main_except_ok e w : exists w', main_except e w = (Ok true, w').
Proof. destruct e; eexists; reflexivity. Qed.

(** The [try] statement never lets an exception through, and its flag
    tells whether the body raised one. *)
Lemma main_try_spec ns tmpdir w :
  (exists w', main_body ns tmpdir w = (Ok tt, w') /\ main_try ns tmpdir w = (Ok false, w')) \/
  (exists e w1 w', main_body ns tmpdir w = (Raise e, w1) /\
                   main_try ns tmpdir w = (Ok true, w')).
Proof.
  unfold main_try, try_catch.
  destruct (main_body ns tmpdir w) as [[[]|e] w1] eqn:Hbody.
  - left. exists w1. split; [reflexivity|].
    rewrite (bind_ok _ _ _ _ _ Hbody). reflexivity.
  - right. rewrite (bind_raise _ _ _ _ _ Hbody).
    destruct (main_except_ok e w1) as (w' & ->). eauto.
Qed.

Lemma run_tests_ok_iff path backends prefix exts w w' :
  run_tests path backends prefix exts w = (Ok tt, w') <->
  exists loc, run_tests_locals path backends prefix exts w = (Ok loc, w').
Proof.
  unfold run_tests, bind.
  destruct (run_tests_locals path backends prefix exts w) as [[loc|e] w1]; cbn; split.
  - intros H. injection H as <-. eauto.
  - intros [loc' H]. injection H as _ <-. reflexivity.
  - discriminate.
  - intros [loc' H]. discriminate.
Qed.

(** C1, as the code has it.  Once the arguments are accepted, the exit
    code is 0 exactly when no exception stops the session: the checks of
    the submission and [run_tests] return, and so does the clean-up.  The
    locals of [run_tests], its counters and its failure list among them,
    play no part. *)
Theorem exit_code_zero_iff_no_exception ns w w1 :
  main_args ns w = (Ok None, w1) ->
  exit_code ns w = 0%Z <->
  exists tmpdir w2 w3 loc w4 w5,
    main_tmpdir ns w1 = (Ok tmpdir, w2) /\
    main_checks ns tmpdir w2 = (Ok tt, w3) /\
    run_tests_locals (main_path ns tmpdir) (pick_backends ns) (ns_s ns) (ns_x ns) w3
      = (Ok loc, w4) /\
    main_cleanup ns tmpdir w4 = (Ok tt, w5).
Proof.
  intros Hargs. unfold exit_code, main. rewrite (bind_ok _ _ _ _ _ Hargs).
  destruct (main_tmpdir ns w1) as [[tmpdir|e] w2] eqn:Htmp.
  2:{ rewrite (bind_raise _ _ _ _ _ Htmp). split; [discriminate|].
      intros (? & ? & ? & ? & ? & ? & H & _). discriminate. }
  rewrite (bind_ok _ _ _ _ _ Htmp).
  destruct (main_try_spec ns tmpdir w2) as [(w4 & Hbody & Htry) | (e & wr & w4 & Hbody & Htry)];
    rewrite (bind_ok _ _ _ _ _ Htry).
  - unfold main_body in Hbody.
    apply bind_inv_ok in Hbody as ([] & w3 & Hchecks & Hrun).
    apply run_tests_ok_iff in Hrun as [loc Hrun].
    destruct (main_cleanup ns tmpdir w4) as [[[]|e] w5] eqn:Hclean.
    + rewrite (bind_ok _ _ _ _ _ Hclean). cbn. split; [|reflexivity].
      intros _. exists tmpdir, w2, w3, loc, w4, w5. auto.
    + rewrite (bind_raise _ _ _ _ _ Hclean). split; [discriminate|].
      intros (tmpdir' & w2' & w3' & loc' & w4' & w5' & H1 & H2 & H3 & H4).
      simplify_eq. rewrite Hchecks in H2. simplify_eq. rewrite Hrun in H3. simplify_eq.
      rewrite Hclean in H4. discriminate.
  - assert ((let (r, _) := bind (main_cleanup ns tmpdir) (fun _ => ret 1%Z) w4 in
             match r with Ok code => code | Raise _ => 1%Z end) = 1%Z) as Hone.
    { unfold bind. destruct (main_cleanup ns tmpdir w4) as [[[]|e'] w5]; reflexivity. }
    cbn [negb]. split.
    + intros H. exfalso. revert H.
      unfold bind at 1. destruct (main_cleanup ns tmpdir w4) as [[[]|e'] w5]; discriminate.
    + intros (tmpdir' & w2' & w3' & loc' & w4' & w5' & H1 & H2 & H3 & H4).
      exfalso. simplify_eq. unfold main_body in Hbody.
      rewrite (bind_ok _ _ _ _ _ H2) in Hbody.
      unfold run_tests in Hbody. rewrite (bind_ok _ _ _ _ _ H3) in Hbody. discriminate.
Qed.

Lemma exit_code_zero_iff_no_exception_witness :
  let ns := Demo.ns0 false false in
  let w := Demo.world0 in
  exit_code ns w = 0%Z <->
  exists tmpdir w2 w3 loc w4 w5,
    main_tmpdir ns (snd (main_args ns w)) = (Ok tmpdir, w2) /\
    main_checks ns tmpdir w2 = (Ok tt, w3) /\
    run_tests_locals (main_path ns tmpdir) (pick_backends ns) (ns_s ns) (ns_x ns) w3
      = (Ok loc, w4) /\
    main_cleanup ns tmpdir w4 = (Ok tt, w5).
Proof.
  intros ns w.
  apply (exit_code_zero_iff_no_exception ns w (snd (main_args ns w))).
  vm_compute. reflexivity.
Defined.

(** The claim as worded fails: a type-checking session in which the only
    test fails, and is reported as failed, ends with exit code 0. *)
Lemma failed_test_exits_zero :
  let r := main (Demo.ns0 false false) Demo.world0 in
  exit_code (Demo.ns0 false false) Demo.world0 = 0%Z /\
  map (fun v => (v_pass v, v_test v, v_ok v)) (w_verdicts (snd r))
    = [(T "typecheck", T "testsuite/good/t1", false)] /\
  existsb (Str.eqb (status_msg (T "typecheck") 0 1 1)) (w_stdout (snd r)) = true /\
  existsb (Str.eqb (T "Some tests failed:" ++ Str.nl)) (w_stdout (snd r)) = true /\
  w_stderr (snd r) = [].
Proof. cbv zeta. repeat split; vm_compute; reflexivity. Qed.

(** ** What the success flag is *)

(** When [run_tests] returns, its flag [success] says that the counter
    [tests_bad] of the last pass is zero; [failures] may hold records of
    earlier passes all the same. *)
Lemma success_is_last_pass_clean path backends prefix exts w loc w' :
  run_tests_locals path backends prefix exts w = (Ok loc, w') ->
  (tests_ok (tally loc) + tests_bad (tally loc))%nat = length (test_files_of loc) /\
  (success loc = true <-> tests_bad (tally loc) = 0%nat).
Proof.
  intros H. unfold run_tests_locals in H.
  do 5 (apply bind_inv_ok in H as (? & ? & _ & H)).
  apply bind_inv_ok in H as (test_files & w1 & _ & H).
  apply bind_inv_ok in H as (t & w2 & Hpasses & H).
  apply bind_inv_ok in H as (? & w3 & _ & H).
  apply bind_inv_ok in H as (ok & w4 & Hshow & H).
  injection H as <- <-. cbn.
  destruct (show_results_spec backends (length test_files) t w3) as (w5 & Hshow' & _).
  rewrite Hshow' in Hshow. injection Hshow as <- _.
  apply run_passes_spec in Hpasses as (vs & _ & _ & _ & Hsum).
  split; [exact Hsum|]. rewrite Nat.eqb_eq. lia.
Qed.

(** ** Every pass of a run *)

(** In a completed run over the backends, every pass, reached from the
    state the passes before it left, is the test loop started from two zero
    counters, and ends with counters that add up to the number of test
    cases. *)
Lemma backend_loop_every_pass path prefix macho tests pre suffix post :
  forall t w t' w',
  backend_loop path prefix macho (length tests) tests (pre ++ suffix :: post) t w
    = (Ok t', w') ->
  exists t0 w0 tb wb,
    backend_loop path prefix macho (length tests) tests pre t w = (Ok t0, w0) /\
    test_loop
      (Path.join path
         [prefix ++ (if Str.eqb suffix (T "llvm") then [] else T "_" ++ suffix)])
      (Some (pick_linker path suffix macho)) suffix (length tests) tests
      {| tests_ok := 0; tests_bad := 0; failures := failures t0 |} w0 = (Ok tb, wb) /\
    (tests_ok tb + tests_bad tb)%nat = length tests.
Proof.
  induction pre as [|b pre IH]; intros t w t' w' H.
  - cbn [app backend_loop] in H. cbv zeta in H.
    apply bind_inv_ok in H as (tb & wb & Hpass & _).
    exists t, w, tb, wb. split; [reflexivity|]. split; [exact Hpass|].
    apply test_loop_counts in Hpass. cbn in Hpass. lia.
  - cbn [app backend_loop] in H. cbv zeta in H.
    apply bind_inv_ok in H as (t1 & w1 & Hpass & H).
    apply bind_inv_ok in H as ([] & w2 & Hprint & H).
    apply IH in H as (t0 & w0 & tb & wb & Hpre & Hb & Hsum).
    exists t0, w0, tb, wb. split; [|split; [exact Hb | exact Hsum]].
    cbn [backend_loop]. cbv zeta.
    rewrite (bind_ok _ _ _ _ _ Hpass), (bind_ok _ _ _ _ _ Hprint). exact Hpre.
Qed.

(** * Further properties of the script *)

(** ** UTF-8: what was decoded encodes back to the same bytes *)

Lemma byte_of_to_N (b : Byte.byte) : Utf8.byte_of (Byte.to_N b) = b.
Proof. unfold Utf8.byte_of. rewrite Byte.of_to_N. reflexivity. Qed.

Lemma to_N_lt_256 (b : Byte.byte) : Byte.to_N b < 256.
Proof. pose proof (Byte.to_N_bounded b). lia. Qed.

Ltac n_arith := zify; Z.to_euclidean_division_equations; lia.

Lemma encode_char_1 (b0 : Byte.byte) :
  Byte.to_N b0 < 128 -> Utf8.encode_char (Byte.to_N b0) = Some [b0].
Proof.
  intros H. unfold Utf8.encode_char.
  destruct (N.ltb_spec (Byte.to_N b0) 128); [|lia].
  rewrite byte_of_to_N. reflexivity.
Qed.

Lemma encode_char_2 (b0 b1 : Byte.byte) :
  194 <= Byte.to_N b0 <= 223 -> 128 <= Byte.to_N b1 <= 191 ->
  Utf8.encode_char ((Byte.to_N b0 - 192) * 64 + (Byte.to_N b1 - 128)) = Some [b0; b1].
Proof.
  intros H0 H1. unfold Utf8.encode_char.
  set (c := (Byte.to_N b0 - 192) * 64 + (Byte.to_N b1 - 128)).
  assert (128 <= c < 2048) as Hc by (subst c; lia).
  destruct (N.ltb_spec c 128); [lia|].
  destruct (N.ltb_spec c 2048); [|lia].
  assert ((192 + c / 64) = (Byte.to_N b0)) as -> by (subst c; n_arith).
  assert ((128 + c mod 64) = (Byte.to_N b1)) as -> by (subst c; n_arith).
  rewrite !byte_of_to_N. reflexivity.
Qed.

Lemma encode_char_3 (b0 b1 b2 : Byte.byte) :
  224 <= Byte.to_N b0 <= 239 ->
  (if Byte.to_N b0 =? 224 then 160 else 128) <= Byte.to_N b1 ->
  Byte.to_N b1 <= (if Byte.to_N b0 =? 237 then 159 else 191) ->
  128 <= Byte.to_N b2 <= 191 ->
  Utf8.encode_char ((Byte.to_N b0 - 224) * 4096 + (Byte.to_N b1 - 128) * 64
                    + (Byte.to_N b2 - 128)) = Some [b0; b1; b2].
Proof.
  intros H0 Hlo Hhi H2. unfold Utf8.encode_char.
  set (c := (Byte.to_N b0 - 224) * 4096 + (Byte.to_N b1 - 128) * 64 + (Byte.to_N b2 - 128)).
  assert (128 <= Byte.to_N b1 <= 191) as H1.
  { destruct (Byte.to_N b0 =? 224), (Byte.to_N b0 =? 237); lia. }
  assert (2048 <= c < 65536) as Hc.
  { subst c. destruct (N.eqb_spec (Byte.to_N b0) 224); lia. }
  assert (~ (55296 <= c <= 57343)) as Hs.
  { subst c. destruct (N.eqb_spec (Byte.to_N b0) 237); lia. }
  destruct (N.ltb_spec c 128); [lia|].
  destruct (N.ltb_spec c 2048); [lia|].
  destruct (N.ltb_spec c 65536); [|lia].
  destruct (N.leb_spec 55296 c); destruct (N.leb_spec c 57343); cbn [andb]; try lia.
  all: assert ((224 + c / 4096) = (Byte.to_N b0)) as -> by (subst c; n_arith);
       assert ((128 + (c / 64) mod 64) = (Byte.to_N b1)) as -> by (subst c; n_arith);
       assert ((128 + c mod 64) = (Byte.to_N b2)) as -> by (subst c; n_arith);
       rewrite !byte_of_to_N; reflexivity.
Qed.

Lemma encode_char_4 (b0 b1 b2 b3 : Byte.byte) :
  240 <= Byte.to_N b0 <= 244 ->
  (if Byte.to_N b0 =? 240 then 144 else 128) <= Byte.to_N b1 ->
  Byte.to_N b1 <= (if Byte.to_N b0 =? 244 then 143 else 191) ->
  128 <= Byte.to_N b2 <= 191 -> 128 <= Byte.to_N b3 <= 191 ->
  Utf8.encode_char ((Byte.to_N b0 - 240) * 262144 + (Byte.to_N b1 - 128) * 4096
                    + (Byte.to_N b2 - 128) * 64 + (Byte.to_N b3 - 128))
  = Some [b0; b1; b2; b3].
Proof.
  intros H0 Hlo Hhi H2 H3. unfold Utf8.encode_char.
  set (c := (Byte.to_N b0 - 240) * 262144 + (Byte.to_N b1 - 128) * 4096
            + (Byte.to_N b2 - 128) * 64 + (Byte.to_N b3 - 128)).
  assert (128 <= Byte.to_N b1 <= 191) as H1.
  { destruct (Byte.to_N b0 =? 240), (Byte.to_N b0 =? 244); lia. }
  assert (65536 <= c < 1114112) as Hc.
  { subst c. destruct (N.eqb_spec (Byte.to_N b0) 240), (N.eqb_spec (Byte.to_N b0) 244); lia. }
  destruct (N.ltb_spec c 128); [lia|].
  destruct (N.ltb_spec c 2048); [lia|].
  destruct (N.ltb_spec c 65536); [lia|].
  destruct (N.ltb_spec c 1114112); [|lia].
  assert ((240 + c / 262144) = (Byte.to_N b0)) as -> by (subst c; n_arith).
  assert ((128 + (c / 4096) mod 64) = (Byte.to_N b1)) as -> by (subst c; n_arith).
  assert ((128 + (c / 64) mod 64) = (Byte.to_N b2)) as -> by (subst c; n_arith).
  assert ((128 + c mod 64) = (Byte.to_N b3)) as -> by (subst c; n_arith).
  rewrite !byte_of_to_N. reflexivity.
Qed.

Lemma is_cont_spec n : Utf8.is_cont n = true <-> 128 <= n <= 191.
Proof. unfold Utf8.is_cont. rewrite andb_true_iff, !N.leb_le. reflexivity. Qed.

Lemma decode_encode_bounded (n : nat) : forall bs s,
  (length bs < n)%nat -> Utf8.decode bs = Some s -> Utf8.encode s = Some bs.
Proof.
  induction n as [|n IH]; intros bs s Hlen H; [lia|].
  destruct bs as [|b0 r0]; cbn [Utf8.decode] in H.
  { injection H as <-. reflexivity. }
  cbv zeta in H. cbn [length] in Hlen.
  destruct (N.ltb_spec (Byte.to_N b0) 128) as [H0|H0].
  { destruct (Utf8.decode r0) as [s'|] eqn:Hr; [|discriminate].
    injection H as <-. cbn [Utf8.encode].
    rewrite (encode_char_1 b0 H0), (IH r0 s') by (lia || assumption). reflexivity. }
  destruct ((194 <=? Byte.to_N b0) && (Byte.to_N b0 <=? 223)) eqn:H2.
  { apply andb_true_iff in H2 as [Ha Hb]. apply N.leb_le in Ha, Hb.
    destruct r0 as [|b1 r1]; [discriminate|].
    destruct (Utf8.is_cont (Byte.to_N b1)) eqn:Hc1; [|discriminate].
    apply is_cont_spec in Hc1.
    destruct (Utf8.decode r1) as [s'|] eqn:Hr; [|discriminate].
    injection H as <-. cbn [Utf8.encode length] in *.
    rewrite (encode_char_2 b0 b1), (IH r1 s') by (lia || assumption). reflexivity. }
  destruct ((224 <=? Byte.to_N b0) && (Byte.to_N b0 <=? 239)) eqn:H3.
  { apply andb_true_iff in H3 as [Ha Hb]. apply N.leb_le in Ha, Hb.
    destruct r0 as [|b1 [|b2 r2]]; [discriminate|discriminate|].
    destruct (_ && Utf8.is_cont (Byte.to_N b2)) eqn:Hc; [|discriminate].
    apply andb_true_iff in Hc as [Hc Hc2]. apply andb_true_iff in Hc as [Hlo Hhi].
    apply N.leb_le in Hlo, Hhi. apply is_cont_spec in Hc2.
    destruct (Utf8.decode r2) as [s'|] eqn:Hr; [|discriminate].
    injection H as <-. cbn [Utf8.encode length] in *.
    rewrite (encode_char_3 b0 b1 b2), (IH r2 s') by (lia || assumption). reflexivity. }
  destruct ((240 <=? Byte.to_N b0) && (Byte.to_N b0 <=? 244)) eqn:H4; [|discriminate].
  apply andb_true_iff in H4 as [Ha Hb]. apply N.leb_le in Ha, Hb.
  destruct r0 as [|b1 [|b2 [|b3 r3]]]; [discriminate|discriminate|discriminate|].
  destruct (_ && Utf8.is_cont (Byte.to_N b3)) eqn:Hc; [|discriminate].
  apply andb_true_iff in Hc as [Hc Hc3]. apply andb_true_iff in Hc as [Hc Hc2].
  apply andb_true_iff in Hc as [Hlo Hhi].
  apply N.leb_le in Hlo, Hhi. apply is_cont_spec in Hc2, Hc3.
  destruct (Utf8.decode r3) as [s'|] eqn:Hr; [|discriminate].
  injection H as <-. cbn [Utf8.encode length] in *.
  rewrite (encode_char_4 b0 b1 b2 b3), (IH r3 s') by (lia || assumption). reflexivity.
Qed.

(** Text that came out of the decoder encodes back to the bytes it was
    decoded from; in particular encoding it never fails. *)
Lemma decode_encode bs s : Utf8.decode bs = Some s -> Utf8.encode s = Some bs.
Proof. apply (decode_encode_bounded (S (length bs))). lia. Qed.

(** ** [clean_files] in full *)

Lemma set_fs_same w : set_fs (set_files (files (w_fs w)) (w_fs w)) w = w.
Proof. destruct w as [[c f d e] p pl tmp tr out err vs]. reflexivity. Qed.

(** [clean_files] deletes the listed paths from the map of regular files
    and touches nothing else. *)
Lemma clean_files_exact names : forall w,
  clean_files names w =
  (Ok tt,
   set_fs (set_files
             (fold_left (fun m n => delete (abspath (w_fs w) n) m) names (files (w_fs w)))
             (w_fs w)) w).
Proof.
  induction names as [|name rest IH]; intros w.
  - cbn. rewrite set_fs_same. reflexivity.
  - cbn [clean_files fold_left].
    rewrite (bind_ok _ _ _ _ _ (isfile_eval name w)).
    destruct (fs_isfile (w_fs w) name) eqn:Hf.
    + rewrite (bind_ok _ _ w tt
                 (set_fs (set_files (delete (abspath (w_fs w) name) (files (w_fs w))) (w_fs w)) w))
        by reflexivity.
      rewrite IH. reflexivity.
    + rewrite (bind_ok _ _ w tt w) by reflexivity.
      rewrite IH. apply fs_isfile_false in Hf.
      rewrite (delete_id _ _ Hf). reflexivity.
Qed.

Lemma lookup_fold_delete (keys : list pystr) : forall (m : gmap pystr bytes) p,
  fold_left (fun m k => delete k m) keys m !! p
  = if bool_decide (p ∈ keys) then None else m !! p.
Proof.
  induction keys as [|k rest IH]; intros m p; cbn [fold_left].
  - rewrite bool_decide_eq_false_2 by apply not_elem_of_nil. reflexivity.
  - rewrite IH. destruct (decide (p = k)) as [->|Hne].
    + rewrite (bool_decide_eq_true_2 (k ∈ k :: rest)) by (apply elem_of_cons; auto).
      rewrite lookup_delete_eq. destruct (bool_decide (k ∈ rest)); reflexivity.
    + rewrite lookup_delete_ne by congruence.
      destruct (decide (p ∈ rest)) as [Hin|Hnin].
      * rewrite !bool_decide_eq_true_2; [reflexivity | apply elem_of_cons; auto | exact Hin].
      * rewrite !bool_decide_eq_false_2; [reflexivity | | exact Hnin].
        intros [?|?]%elem_of_cons; contradiction.
Qed.

Lemma fold_delete_map (f : pystr -> pystr) names : forall (m : gmap pystr bytes),
  fold_left (fun m n => delete (f n) m) names m
  = fold_left (fun m k => delete k m) (map f names) m.
Proof. induction names as [|n rest IH]; intros m; cbn; [reflexivity | apply IH]. Qed.

(** [clean_files], seen from outside. *)
Lemma clean_files_frame names w :
  exists w',
    clean_files names w = (Ok tt, w') /\
    (forall n, n ∈ names -> fs_isfile (w_fs w') n = false) /\
    (forall p, p ∉ map (abspath (w_fs w)) names ->
               files (w_fs w') !! p = files (w_fs w) !! p) /\
    dirs (w_fs w') = dirs (w_fs w) /\ execs (w_fs w') = execs (w_fs w) /\
    cwd (w_fs w') = cwd (w_fs w) /\
    w_trace w' = w_trace w /\ w_stdout w' = w_stdout w /\ w_stderr w' = w_stderr w.
Proof.
  eexists. split; [apply clean_files_exact|]. cbn.
  split; [|split; [|auto 10]].
  - intros n Hn. apply fs_isfile_false. cbn.
    rewrite fold_delete_map, lookup_fold_delete.
    rewrite bool_decide_eq_true_2; [reflexivity|].
    apply list_elem_of_In, in_map, list_elem_of_In. exact Hn.
  - intros p Hp. rewrite fold_delete_map, lookup_fold_delete.
    rewrite bool_decide_eq_false_2; [reflexivity | exact Hp].
Qed.

(** X1.  [clean_files] always returns; afterwards none of the listed names
    is a regular file, every other regular file is as it was, and so are
    the directories, the permissions, the working directory, the history
    of launched commands and the two output streams. *)
Theorem clean_files_removes_exactly_the_listed names w :
  exists w',
    clean_files names w = (Ok tt, w') /\
    (forall n, n ∈ names -> fs_isfile (w_fs w') n = false) /\
    (forall p, p ∉ map (abspath (w_fs w)) names ->
               files (w_fs w') !! p = files (w_fs w) !! p) /\
    dirs (w_fs w') = dirs (w_fs w) /\ execs (w_fs w') = execs (w_fs w) /\
    cwd (w_fs w') = cwd (w_fs w) /\
    w_trace w' = w_trace w /\ w_stdout w' = w_stdout w /\ w_stderr w' = w_stderr w.
Proof. apply clean_files_frame. Qed.

(** ** [run_command] *)

Lemma bind_cases {A B} (m : M A) (k : A -> M B) w :
  (exists a w1, m w = (Ok a, w1) /\ bind m k w = k a w1) \/
  (exists e w1, m w = (Raise e, w1) /\ bind m k w = (Raise e, w1)).
Proof.
  unfold bind. destruct (m w) as [[a|e] w1]; [left | right]; eauto.
Qed.

Lemma write_bytes_trace p c w : w_trace (snd (write_bytes p c w)) = w_trace w.
Proof. reflexivity. Qed.

Lemma run_command_trace cmd args stdi stdo w :
  w_trace (snd (run_command cmd args stdi stdo w)) = w_trace w ++ [cmd :: args].
Proof.
  unfold run_command.
  destruct stdi as [input|]; [destruct (Utf8.encode input) as [b|]|].
  - pose proof (subprocess_run_trace (cmd :: args) (Some b) w) as Ht.
    unfold bind, decode_utf8.
    destruct (subprocess_run (cmd :: args) (Some b) w) as [[child|e] w1]; cbn in *; [|exact Ht].
    destruct stdo; cbn; try destruct (Utf8.decode (child_stdout child)); cbn;
      try exact Ht;
      destruct (Utf8.decode (child_stderr child)); cbn;
      try destruct (returncode child =? 0)%Z; cbn; exact Ht.
  - pose proof (subprocess_run_trace (cmd :: args) (Some []) w) as Ht.
    unfold bind. destruct (subprocess_run (cmd :: args) (Some []) w) as [[c|e] w1];
      cbn in *; exact Ht.
  - pose proof (subprocess_run_trace (cmd :: args) None w) as Ht.
    unfold bind, decode_utf8.
    destruct (subprocess_run (cmd :: args) None w) as [[child|e] w1]; cbn in *; [|exact Ht].
    destruct stdo; cbn; destruct (returncode child =? 0)%Z; cbn;
      try destruct (Utf8.decode (child_stderr child)); cbn; exact Ht.
Qed.

(** X2.  [run_command] launches exactly the command line [cmd :: args].
    If the program cannot be launched the [OSError] goes up as it is.  If
    the child ran, a normal return means exit code 0.  Without [stdi] an
    exit code 0 gives a normal return, and a non-zero one with a decodable
    error stream gives a [TestingException] whose message is the command
    name, [" failed with:"], a newline and the error text.  With [stdi]
    the pipes are in text mode: a captured standard output ([stdo] left
    out) that is not valid UTF-8 gives a [UnicodeDecodeError] whatever the
    exit code; otherwise a decodable error stream gives a normal return
    for exit code 0 and the [TestingException], with the newlines of the
    error text translated, for another one. *)
Theorem run_command_outcome cmd args stdi stdo w :
  let stdin := match stdi with
               | None => None
               | Some input => Some (default [] (Utf8.encode input))
               end in
  let r := run_command cmd args stdi stdo w in
  w_trace (snd r) = w_trace w ++ [cmd :: args] /\
  match fst (w_proc w (cmd :: args) stdin (w_fs w) (w_trace w)) with
  | SpawnError cls errno strerror => fst r = Raise (OSError cls errno strerror)
  | Exited child =>
      (fst r = Ok tt -> returncode child = 0%Z) /\
      match stdi with
      | None =>
          (returncode child = 0%Z -> fst r = Ok tt) /\
          (forall err,
             returncode child <> 0%Z ->
             Utf8.decode (child_stderr child) = Some err ->
             fst r = Raise (TestingException (cmd ++ T " failed with:" ++ Str.nl ++ err)))
      | Some input =>
          Utf8.encode input <> None ->
          (stdo = None -> Utf8.decode (child_stdout child) = None ->
           fst r = Raise (OtherException (T "UnicodeDecodeError"))) /\
          (forall err,
             (stdo = None -> Utf8.decode (child_stdout child) <> None) ->
             Utf8.decode (child_stderr child) = Some err ->
             fst r = if (returncode child =? 0)%Z then Ok tt
                     else Raise (TestingException
                            (cmd ++ T " failed with:" ++ Str.nl ++ universal_newlines err)))
      end
  end.
Proof.
  cbv zeta.
  split; [exact (run_command_trace cmd args stdi stdo w)|].
  unfold run_command, subprocess_run, bind, decode_utf8.
  destruct stdi as [input|]; [destruct (Utf8.encode input) as [b|] eqn:Henc|];
    cbn [from_option]; unfold id.
  - destruct (w_proc w (cmd :: args) (Some b) (w_fs w) (w_trace w)) as [[cls errno msg|child] fs1];
      cbn [fst]; [reflexivity|].
    split; [|intros _; split].
    + destruct stdo; cbn; try destruct (Utf8.decode (child_stdout child)); cbn;
        try discriminate; destruct (Utf8.decode (child_stderr child)); cbn;
        try discriminate; destruct (Z.eqb_spec (returncode child) 0); cbn; auto; discriminate.
    + intros -> Hout. cbn. rewrite Hout. reflexivity.
    + intros err Hout Herr. rewrite Herr.
      destruct stdo; cbn.
      * destruct (returncode child =? 0)%Z; reflexivity.
      * destruct (Utf8.decode (child_stdout child)); [|exfalso; apply Hout; reflexivity].
        cbn. destruct (returncode child =? 0)%Z; reflexivity.
  - destruct (w_proc w (cmd :: args) (Some []) (w_fs w) (w_trace w)) as [[cls errno msg|child] fs1];
      cbn [fst]; [reflexivity|].
    split; [discriminate|]. intros H. contradiction.
  - destruct (w_proc w (cmd :: args) None (w_fs w) (w_trace w)) as [[cls errno msg|child] fs1];
      cbn [fst]; [reflexivity|].
    split; [|split].
    + destruct stdo; cbn; destruct (Z.eqb_spec (returncode child) 0); cbn; auto;
        destruct (Utf8.decode (child_stderr child)); cbn; discriminate.
    + intros Hrc. rewrite Hrc. destruct stdo; reflexivity.
    + intros err Hrc Herr. rewrite Herr.
      destruct stdo; cbn; destruct (Z.eqb_spec (returncode child) 0); cbn; try contradiction;
        reflexivity.
Qed.

(** With nothing redirected [run_command] is the launch followed by the
    look at the exit code. *)
Lemma run_command_plain cmd args w :
  snd (run_command cmd args None None w) = snd (subprocess_run (cmd :: args) None w) /\
  (returned (fst (run_command cmd args None None w)) <->
   exited_zero (fst (subprocess_run (cmd :: args) None w)) = true).
Proof.
  unfold run_command, bind, decode_utf8.
  destruct (subprocess_run (cmd :: args) None w) as [[child|e] w1]; cbn.
  - destruct (returncode child =? 0)%Z; cbn.
    + split; [reflexivity|]. split; auto.
    + destruct (Utf8.decode (child_stderr child)); cbn;
        (split; [reflexivity|]; split; [contradiction | discriminate]).
  - split; [reflexivity|]. split; [contradiction | discriminate].
Qed.

(** ** The tools of the link step, in order *)

Lemma mkstemp_trace pre suf w : w_trace (snd (mkstemp pre suf w)) = w_trace w.
Proof. reflexivity. Qed.

Lemma try_finally_clean_trace {A} (body : M A) names w :
  try_finally body (clean_files names) w
  = (fst (body w),
     set_fs (set_files
               (fold_left (fun m n => delete (abspath (w_fs (snd (body w))) n) m) names
                  (files (w_fs (snd (body w)))))
               (w_fs (snd (body w)))) (snd (body w))).
Proof.
  unfold try_finally. destruct (body w) as [r w1]. rewrite clean_files_exact. reflexivity.
Qed.

(** A run of commands without redirection, each launched only if the one
    before exited with code 0. *)
Lemma run_command_last cmd args w :
  w_trace (snd (run_command cmd args None None w))
  = w_trace w ++ fst (launch_in_turn [cmd :: args] w) /\
  (returned (fst (run_command cmd args None None w)) <->
   snd (launch_in_turn [cmd :: args] w) = true).
Proof.
  destruct (run_command_plain cmd args w) as [Hw Hr].
  split.
  - rewrite run_command_trace. cbn [launch_in_turn].
    destruct (exited_zero _); reflexivity.
  - rewrite Hr. cbn [launch_in_turn].
    destruct (exited_zero _); cbn; split; auto; discriminate.
Qed.

Lemma run_command_then cmd args (k : M unit) rest w :
  (forall w1,
     w_trace (snd (k w1)) = w_trace w1 ++ fst (launch_in_turn rest w1) /\
     (returned (fst (k w1)) <-> snd (launch_in_turn rest w1) = true)) ->
  w_trace (snd (bind (run_command cmd args None None) (fun _ => k) w))
  = w_trace w ++ fst (launch_in_turn ((cmd :: args) :: rest) w) /\
  (returned (fst (bind (run_command cmd args None None) (fun _ => k) w)) <->
   snd (launch_in_turn ((cmd :: args) :: rest) w) = true).
Proof.
  intros Hk.
  destruct (run_command_plain cmd args w) as [Hw Hr].
  pose proof (run_command_trace cmd args None None w) as Ht.
  cbn [launch_in_turn]. unfold bind.
  destruct (run_command cmd args None None w) as [[[]|e] w1]; cbn [fst snd] in *.
  - assert (Hz : exited_zero (fst (subprocess_run (cmd :: args) None w)) = true)
      by (apply Hr; exact I).
    rewrite Hz. cbn [fst snd]. rewrite <- Hw.
    destruct (Hk w1) as [Hk1 Hk2]. split; [|exact Hk2].
    rewrite Hk1, Ht, <- app_assoc. reflexivity.
  - destruct (exited_zero (fst (subprocess_run (cmd :: args) None w))) eqn:Hz.
    + exfalso. apply Hr. reflexivity.
    + cbn. split; [exact Ht|]. split; [contradiction | discriminate].
Qed.

(** [run_command] in text mode with the output sent to a file. *)
Lemma run_command_text_file cmd args input f w :
  let first := subprocess_run (cmd :: args) (Some (default [] (Utf8.encode input))) w in
  match fst first with
  | Ok child =>
      if bool_decide (Utf8.encode input <> None) && exited_zero (fst first)
         && bool_decide (Utf8.decode (child_stderr child) <> None)
      then run_command cmd args (Some input) (Some f) w
           = (Ok tt, snd (write_bytes f (child_stdout child) (snd first)))
      else ~ returned (fst (run_command cmd args (Some input) (Some f) w))
  | Raise _ => ~ returned (fst (run_command cmd args (Some input) (Some f) w))
  end.
Proof.
  cbv zeta. unfold run_command, bind, decode_utf8.
  destruct (Utf8.encode input) as [b|]; cbn [from_option]; unfold id.
  - destruct (subprocess_run (cmd :: args) (Some b) w) as [[child|e] w1]; cbn [fst snd];
      [|cbn; auto].
    rewrite bool_decide_eq_true_2 by discriminate. cbn [andb exited_zero].
    destruct (Utf8.decode (child_stderr child)) as [err|].
    + rewrite bool_decide_eq_true_2 by discriminate. rewrite andb_true_r.
      destruct (returncode child =? 0)%Z; cbn; auto.
    + rewrite bool_decide_eq_false_2 by (intros H; apply H; reflexivity).
      rewrite andb_false_r. cbn. auto.
  - destruct (subprocess_run (cmd :: args) (Some []) w) as [[child|e] w1]; cbn [fst snd];
      [|cbn; auto].
    rewrite bool_decide_eq_false_2 by (intros H; apply H; reflexivity). cbn. auto.
Qed.

(** X3.  [link_llvm] launches [llvm-as] on the encoded source text in
    every case.  It goes on only if [llvm-as] exited with code 0 and wrote
    an error stream that is valid UTF-8: then it launches [llvm-link] on
    the temporary file and the runtime and, only if that exited with code
    0, [clang] on [main.bc]; and it returns exactly when all three exited
    with code 0.  Otherwise [llvm-as] is the only tool launched and an
    exception is raised. *)
Theorem link_llvm_tools_in_order path source_str w :
  exists tmp w1,
    mkstemp (T "test_llvm_") (T ".bc") w = (Ok tmp, w1) /\
    let llvm_as := [T "llvm-as"] in
    let rest := [[T "llvm-link"; tmp; Path.join path [T "lib"; T "runtime.bc"]; T "-o=main.bc"];
                 [T "clang"; T "main.bc"]] in
    let r := link_llvm path source_str w in
    let first := subprocess_run llvm_as (Some (default [] (Utf8.encode source_str)))
                   (snd (write_bytes tmp [] w1)) in
    match fst first with
    | Ok child =>
        if bool_decide (Utf8.encode source_str <> None) && exited_zero (fst first)
           && bool_decide (Utf8.decode (child_stderr child) <> None)
        then
          let run := launch_in_turn rest
                       (snd (write_bytes tmp (child_stdout child) (snd first))) in
          w_trace (snd r) = w_trace w ++ llvm_as :: fst run /\
          (returned (fst r) <-> snd run = true)
        else w_trace (snd r) = w_trace w ++ [llvm_as] /\ ~ returned (fst r)
    | Raise _ => w_trace (snd r) = w_trace w ++ [llvm_as] /\ ~ returned (fst r)
    end.
Proof.
  destruct (mkstemp_spec (T "test_llvm_") (T ".bc") w) as (tmp & w1 & Hmk & _).
  exists tmp, w1. split; [exact Hmk|]. cbv zeta.
  pose proof (mkstemp_trace (T "test_llvm_") (T ".bc") w) as Ht1.
  rewrite Hmk in Ht1. cbn [snd] in Ht1.
  unfold link_llvm. rewrite (bind_ok _ _ _ _ _ Hmk). cbv zeta.
  rewrite try_finally_clean_trace. cbn [fst snd w_trace set_fs].
  rewrite (bind_ok _ _ w1 tt (snd (write_bytes tmp [] w1))) by reflexivity.
  set (w0 := snd (write_bytes tmp [] w1)).
  assert (Ht0 : w_trace w0 = w_trace w) by (rewrite <- Ht1; reflexivity).
  rewrite <- Ht0.
  set (k := bind (run_command (T "llvm-link")
                    [tmp; Path.join path [T "lib"; T "runtime.bc"]; T "-o=main.bc"] None None)
                 (fun _ => run_command (T "clang") [T "main.bc"] None None)).
  assert (Hk : forall w2,
    w_trace (snd (k w2)) = w_trace w2 ++ fst (launch_in_turn
      [[T "llvm-link"; tmp; Path.join path [T "lib"; T "runtime.bc"]; T "-o=main.bc"];
       [T "clang"; T "main.bc"]] w2) /\
    (returned (fst (k w2)) <-> snd (launch_in_turn
      [[T "llvm-link"; tmp; Path.join path [T "lib"; T "runtime.bc"]; T "-o=main.bc"];
       [T "clang"; T "main.bc"]] w2) = true)).
  { intros w2. apply run_command_then. intros w3. apply run_command_last. }
  pose proof (run_command_trace (T "llvm-as") [] (Some source_str) (Some tmp) w0) as Hta.
  pose proof (run_command_text_file (T "llvm-as") [] source_str tmp w0) as Hfirst.
  cbv zeta in Hfirst.
  assert (Hstop : ~ returned (fst (run_command (T "llvm-as") [] (Some source_str) (Some tmp) w0)) ->
    w_trace (snd (bind (run_command (T "llvm-as") [] (Some source_str) (Some tmp)) (fun _ => k) w0))
    = w_trace w0 ++ [[T "llvm-as"]] /\
    ~ returned (fst (bind (run_command (T "llvm-as") [] (Some source_str) (Some tmp))
                       (fun _ => k) w0))).
  { intros Hn. unfold bind.
    destruct (run_command (T "llvm-as") [] (Some source_str) (Some tmp) w0) as [[[]|e] wx];
      cbn [fst snd] in *; [exfalso; apply Hn; exact I|].
    split; [exact Hta | auto]. }
  destruct (fst (subprocess_run [T "llvm-as"] (Some (default [] (Utf8.encode source_str))) w0))
    as [child|e] eqn:Hrun; [|apply Hstop; exact Hfirst].
  destruct (bool_decide (Utf8.encode source_str <> None) && exited_zero (Ok child)
            && bool_decide (Utf8.decode (child_stderr child) <> None));
    [|apply Hstop; exact Hfirst].
  rewrite Hfirst in Hta. cbn [snd] in Hta.
  rewrite (bind_ok _ _ _ _ _ Hfirst).
  destruct (Hk (snd (write_bytes tmp (child_stdout child)
                       (snd (subprocess_run [T "llvm-as"]
                               (Some (default [] (Utf8.encode source_str))) w0)))))
    as [Hk1 Hk2].
  split; [|exact Hk2]. rewrite Hk1, Hta, <- app_assoc. reflexivity.
Qed.

(** X4.  When the source text cannot be encoded [link_x86] launches
    nothing.  Otherwise it launches [nasm] on the temporary assembly file
    with the object format of the backend and of the host and, only if
    [nasm] exited with code 0, [clang] on the object file and the runtime;
    it returns exactly when both exited with code 0. *)
Theorem link_x86_tools_in_order path source_str (is_x64 is_macho : bool) w :
  exists tmp_s tmp_o w1 w2,
    mkstemp (T "test_x86_") (T ".s") w = (Ok tmp_s, w1) /\
    mkstemp (T "test_x86_") (T ".o") w1 = (Ok tmp_o, w2) /\
    let arch := if is_macho then (if is_x64 then T "macho64" else T "macho32")
                else (if is_x64 then T "elf64" else T "elf32") in
    let runtime := Path.join path
                     [T "lib"; T "runtime" ++ (if is_x64 then T "x64" else T "x86") ++ T ".o"] in
    let cmds := [[T "nasm"; T "-f " ++ arch; tmp_s; T "-o " ++ tmp_o];
                 [T "clang"; tmp_o; runtime]] in
    let r := link_x86 path source_str is_x64 is_macho w in
    match Utf8.encode source_str with
    | None =>
        fst r = Raise (OtherException (T "UnicodeEncodeError")) /\
        w_trace (snd r) = w_trace w
    | Some b =>
        let run := launch_in_turn cmds
                     (snd (write_bytes tmp_s b (snd (write_bytes tmp_s [] w2)))) in
        w_trace (snd r) = w_trace w ++ fst run /\
        (returned (fst r) <-> snd run = true)
    end.
Proof.
  destruct (mkstemp_spec (T "test_x86_") (T ".s") w) as (tmp_s & w1 & Hmk1 & _).
  destruct (mkstemp_spec (T "test_x86_") (T ".o") w1) as (tmp_o & w2 & Hmk2 & _).
  exists tmp_s, tmp_o, w1, w2. split; [exact Hmk1|]. split; [exact Hmk2|].
  cbv zeta.
  pose proof (mkstemp_trace (T "test_x86_") (T ".s") w) as Ht1.
  rewrite Hmk1 in Ht1. cbn [snd] in Ht1.
  pose proof (mkstemp_trace (T "test_x86_") (T ".o") w1) as Ht2.
  rewrite Hmk2 in Ht2. cbn [snd] in Ht2.
  unfold link_x86. rewrite (bind_ok _ _ _ _ _ Hmk1), (bind_ok _ _ _ _ _ Hmk2). cbv zeta.
  rewrite try_finally_clean_trace. cbn [fst snd w_trace set_fs].
  rewrite (bind_ok _ _ w2 tt (snd (write_bytes tmp_s [] w2))) by reflexivity.
  unfold encode_utf8. destruct (Utf8.encode source_str) as [b|].
  - rewrite (bind_ok _ _ _ b (snd (write_bytes tmp_s [] w2))) by reflexivity.
    rewrite (bind_ok _ _ _ tt (snd (write_bytes tmp_s b (snd (write_bytes tmp_s [] w2)))))
      by reflexivity.
    set (w3 := snd (write_bytes tmp_s b (snd (write_bytes tmp_s [] w2)))).
    assert (Ht3 : w_trace w3 = w_trace w) by (rewrite <- Ht1, <- Ht2; reflexivity).
    rewrite <- Ht3.
    apply run_command_then. intros w4. apply run_command_last.
  - cbn. split; [reflexivity | congruence].
Qed.

(** The session of [Demo.world_nasm_fails]: the assembler exits with code
    1, so the linker is not launched. *)
Example failing_nasm_is_last :
  let r := link_x86 (T "sub") (T "ret") false false Demo.world_nasm_fails in
  map (hd []) (w_trace (snd r)) = [T "nasm"] /\
  fst r = Raise (TestingException (T "nasm failed with:" ++ Str.nl ++ T "nasm: fatal")).
Proof. split; vm_compute; reflexivity. Qed.

(** ** Failures of the compile step that are not verdicts *)

(** X5.  [run_compiler] never lets an [OSError] through.  A source file
    that is not there is reported as "Unable to execute" the compiler,
    which is then not launched; a compiler that cannot be launched is
    reported the same way, with the error number and message of the
    launch. *)
Theorem run_compiler_launch_failures exe src is_good w :
  let unable (errno : Z) (strerror : pystr) :=
    TestingException
      (T "Unable to execute " ++ exe ++ T " for some reason, " ++
       T "here is the errno: " ++ Str.of_Z errno ++ T ": " ++ strerror) in
  (forall cls errno strerror,
     fst (run_compiler exe src is_good w) <> Raise (OSError cls errno strerror)) /\
  (fs_isfile (w_fs w) src = false ->
   exists errno strerror,
     run_compiler exe src is_good w = (Raise (unable errno strerror), w)) /\
  (forall infile cls errno strerror fs1,
     files (w_fs w) !! abspath (w_fs w) src = Some infile ->
     w_proc w [exe] (Some infile) (w_fs w) (w_trace w) = (SpawnError cls errno strerror, fs1) ->
     fst (run_compiler exe src is_good w) = Raise (unable errno strerror)).
Proof.
  cbv zeta. split; [|split].
  - intros cls errno strerror. unfold run_compiler, bind at 1, try_catch.
    destruct (bind (open_read src) _ w) as [[[[child out] err]|e] w1].
    + destruct is_good; discriminate.
    + destruct e; cbn; discriminate.
  - intros Hf. apply fs_isfile_false in Hf.
    unfold run_compiler, bind at 1, try_catch, bind at 1, open_read, bind at 1, get_fs.
    rewrite Hf. destruct (fs_isdir (w_fs w) src); eexists _, _; reflexivity.
  - intros infile cls errno strerror fs1 Hfile Hproc.
    unfold run_compiler, bind at 1, try_catch, bind at 1, open_read, bind at 1, get_fs.
    rewrite Hfile. cbn [ret]. unfold bind at 1, subprocess_run. rewrite Hproc. reflexivity.
Qed.

(** X6.  The text that [run_compiler] keeps as [stdout_compiler] encodes
    back, as UTF-8, to exactly the bytes the compiler wrote: handing it to
    the tools of the link step cannot fail on encoding and loses nothing. *)
Theorem compiler_output_survives_decoding exe src is_good w passed data w' :
  run_compiler exe src is_good w = (Ok (passed, data), w') ->
  exists infile child,
    subprocess_run [exe] (Some infile) w = (Ok child, w') /\
    Utf8.encode (stdout_compiler data) = Some (child_stdout child).
Proof.
  intros H. apply run_compiler_inv in H
    as (infile & child & out & err & _ & Hrun & Hout & _ & _ & ->).
  exists infile, child. split; [exact Hrun|]. cbn. apply decode_encode. exact Hout.
Qed.

Lemma compiler_output_survives_decoding_witness :
  let exe := T "sub/jlc_x86" in
  let r := run_compiler exe (T "testsuite/good/t1.jl") true Demo.world0 in
  let data := match fst r with Ok (_, d) => d | Raise _ => Build_Struct [] [] [] [] [] end in
  exists infile child,
    subprocess_run [exe] (Some infile) Demo.world0 = (Ok child, snd r) /\
    Utf8.encode (stdout_compiler data) = Some (child_stdout child).
Proof.
  intros exe r data.
  apply (compiler_output_survives_decoding exe (T "testsuite/good/t1.jl") true Demo.world0
           true data (snd r)).
  vm_compute. reflexivity.
Defined.

(** ** A pass stops at the first exception *)

Lemma test_loop_app full linker title total pre post : forall t w,
  test_loop full linker title total (pre ++ post) t w
  = bind (test_loop full linker title total pre t)
         (test_loop full linker title total post) w.
Proof.
  induction pre as [|[filename is_good] pre IH]; intros t w.
  - reflexivity.
  - cbn [app test_loop]. unfold bind.
    destruct (exec_test full filename is_good linker w) as [[[ok data]|e] w1]; [|reflexivity].
    cbn. rewrite IH. reflexivity.
Qed.

(** X7.  When [exec_test] raises for a test case, the pass raises the same
    exception at once: no verdict is noted for that test case, and the
    test cases after it are not executed. *)
Theorem pass_stops_at_first_exception full linker title total
    pre filename is_good post t w t1 w1 e w2 :
  test_loop full linker title total pre t w = (Ok t1, w1) ->
  exec_test full filename is_good linker w1 = (Raise e, w2) ->
  test_loop full linker title total (pre ++ (filename, is_good) :: post) t w
  = (Raise e, w2).
Proof.
  intros Hpre Hexec. rewrite test_loop_app, (bind_ok _ _ _ _ _ Hpre).
  cbn [test_loop]. apply bind_raise. exact Hexec.
Qed.

Lemma pass_stops_at_first_exception_witness :
  let full := T "sub/jlc_x86" in
  let linker := Some (pick_linker (T "sub") (T "x86") false) in
  let t := {| tests_ok := 0; tests_bad := 0; failures := [] |} in
  let r := exec_test full (T "testsuite/good/t1") true linker Demo.world_nasm_fails in
  test_loop full linker (T "x86") 2
    ([] ++ (T "testsuite/good/t1", true) :: [(T "testsuite/good/t2", true)]) t
    Demo.world_nasm_fails
  = (Raise (TestingException (T "nasm failed with:" ++ Str.nl ++ T "nasm: fatal")), snd r).
Proof.
  intros full linker t r.
  apply (pass_stops_at_first_exception full linker (T "x86") 2%nat []
           (T "testsuite/good/t1") true [(T "testsuite/good/t2", true)]
           t Demo.world_nasm_fails t Demo.world_nasm_fails).
  - reflexivity.
  - vm_compute. reflexivity.
Defined.

(** ** [main]: arguments, exit codes, clean-up *)


Lemma listdir_eval p names w :
  dirs (w_fs w) !! abspath (w_fs w) p = Some names -> listdir p w = (Ok names, w).
Proof. intros H. unfold listdir, bind, get_fs. rewrite H. reflexivity. Qed.

Lemma main_args_codes ns w code w' :
  main_args ns w = (Ok (Some code), w') -> code = 0%Z \/ code = 1%Z.
Proof.
  unfold main_args. intros H.
  apply bind_inv_ok in H as (avail & w1 & _ & H).
  destruct (ns_list ns).
  - apply bind_inv_ok in H as (? & ? & _ & H). apply bind_inv_ok in H as (? & ? & _ & H).
    injection H as <- _. auto.
  - destruct (filter _ (ns_x ns)).
    + apply bind_inv_ok in H as (is_f & ? & _ & H). apply bind_inv_ok in H as (is_d & ? & _ & H).
      destruct (ns_archive ns && negb is_f).
      { apply bind_inv_ok in H as (? & ? & _ & H). apply bind_inv_ok in H as (? & ? & _ & H).
        injection H as <- _. auto. }
      destruct (negb (ns_archive ns) && negb is_d).
      { apply bind_inv_ok in H as (? & ? & _ & H). injection H as <- _. auto. }
      discriminate.
    + apply bind_inv_ok in H as (? & ? & _ & H). injection H as <- _. auto.
Qed.

(** X8.  Whatever the arguments and the world, the exit code of the
    script is 0 or 1. *)
Theorem exit_code_is_0_or_1 ns w : exit_code ns w = 0%Z \/ exit_code ns w = 1%Z.
Proof.
  unfold exit_code, main.
  destruct (main_args ns w) as [[[code|]|e] w1] eqn:Hargs.
  - rewrite (bind_ok _ _ _ _ _ Hargs). cbn. eapply main_args_codes. exact Hargs.
  - rewrite (bind_ok _ _ _ _ _ Hargs).
    destruct (main_tmpdir ns w1) as [[tmpdir|e] w2] eqn:H1;
      [rewrite (bind_ok _ _ _ _ _ H1) | rewrite (bind_raise _ _ _ _ _ H1); auto].
    destruct (main_try ns tmpdir w2) as [[failure|e] w3] eqn:H2;
      [rewrite (bind_ok _ _ _ _ _ H2) | rewrite (bind_raise _ _ _ _ _ H2); auto].
    destruct (main_cleanup ns tmpdir w3) as [[[]|e] w4] eqn:H3;
      [rewrite (bind_ok _ _ _ _ _ H3) | rewrite (bind_raise _ _ _ _ _ H3); auto].
    cbn. destruct failure; auto.
  - rewrite (bind_raise _ _ _ _ _ Hargs). auto.
Qed.

(** X9.  When the script gets past its argument checks and ends through
    [sys.exit], no regular file [a.out] is left in the working directory,
    whether the tests passed, failed or were cut short by an exception. *)
Theorem session_leaves_no_a_out ns w w1 code w' :
  main_args ns w = (Ok None, w1) ->
  main ns w = (Ok code, w') ->
  fs_isfile (w_fs w') (T "a.out") = false.
Proof.
  intros Hargs H. unfold main in H. rewrite (bind_ok _ _ _ _ _ Hargs) in H.
  apply bind_inv_ok in H as (tmpdir & w2 & _ & H).
  apply bind_inv_ok in H as (failure & w3 & _ & H).
  apply bind_inv_ok in H as ([] & w4 & Hclean & H).
  injection H as _ <-. unfold main_cleanup in Hclean.
  apply bind_inv_ok in Hclean as ([] & w5 & _ & Hclean).
  destruct (clean_files_spec [T "a.out"] w5) as (w6 & Hrun & _ & _ & Hgone).
  rewrite Hrun in Hclean. injection Hclean as <-.
  apply Hgone. apply elem_of_cons. auto.
Qed.

Lemma session_leaves_no_a_out_witness :
  let ns := Demo.ns0 false true in
  fs_isfile (w_fs (snd (main ns Demo.world0))) (T "a.out") = false.
Proof.
  intros ns.
  apply (session_leaves_no_a_out ns Demo.world0 (snd (main_args ns Demo.world0)) 0%Z
           (snd (main ns Demo.world0))).
  - vm_compute. reflexivity.
  - vm_compute. reflexivity.
Defined.



Lemma filter_head {A} (P : A -> Prop) `{forall x, Decision (P x)} (l : list A) x r :
  filter P l = x :: r ->
  exists pre post, l = pre ++ x :: post /\ P x /\ Forall (fun y => ~ P y) pre.
Proof.
  induction l as [|y l IH]; intros Hf; [discriminate|].
  destruct (decide (P y)) as [Hy|Hy].
  - rewrite filter_cons_True in Hf by exact Hy. injection Hf as -> _.
    exists [], l. split; [reflexivity|]. split; [exact Hy | constructor].
  - rewrite filter_cons_False in Hf by exact Hy.
    destruct (IH Hf) as (pre & post & -> & Hx & Hpre).
    exists (y :: pre), post. split; [reflexivity|]. split; [exact Hx|].
    constructor; assumption.
Qed.

(** X11.  An extension that is not a directory of [testsuite/extensions]
    ends the script with exit code 1 before anything else happens: the
    first such name is reported on the error stream, and the world is
    otherwise as it was. *)
Theorem invalid_extension_stops_the_script ns w names :
  ns_list ns = false ->
  dirs (w_fs w) !! abspath (w_fs w) (T "testsuite/extensions") = Some names ->
  (exists ext, ext ∈ ns_x ns /\ ext ∉ names) ->
  exists pre bad post,
    ns_x ns = pre ++ bad :: post /\ Forall (fun e => e ∈ names) pre /\ (bad ∉ names) /\
    main ns w = (Ok 1%Z, add_stderr (T "Not a valid extension: " ++ bad ++ Str.nl) w).
Proof.
  intros Hlist Hdir (ext & Hin & Hnot).
  destruct (filter (fun e => e ∉ names) (ns_x ns)) as [|bad r] eqn:Hf.
  { exfalso. assert (ext ∈ filter (fun e => e ∉ names) (ns_x ns)) as Hx
      by (apply list_elem_of_filter; auto).
    rewrite Hf in Hx. apply elem_of_nil in Hx. exact Hx. }
  destruct (filter_head _ _ _ _ Hf) as (pre & post & Hx & Hbad & Hpre).
  exists pre, bad, post. split; [exact Hx|]. split; [|split; [exact Hbad|]].
  - eapply Forall_impl; [exact Hpre|]. cbn. intros e He.
    destruct (decide (e ∈ names)); [assumption | contradiction].
  - assert (main_args ns w
            = (Ok (Some 1%Z), add_stderr (T "Not a valid extension: " ++ bad ++ Str.nl) w))
      as Hargs.
    { unfold main_args. rewrite (bind_ok _ _ _ _ _ (listdir_eval _ _ _ Hdir)).
      rewrite Hlist, Hf. unfold eprint, stderr_write, bind, ret.
      rewrite <- app_assoc. reflexivity. }
    unfold main. rewrite (bind_ok _ _ _ _ _ Hargs). reflexivity.
Qed.

Lemma invalid_extension_stops_the_script_witness :
  let ns := {| ns_submission := T "sub"; ns_s := T "jlc"; ns_llvm := true;
               ns_x86 := false; ns_x64 := false; ns_x := [T "arrays1"];
               ns_archive := false; ns_noclean := false; ns_list := false |} in
  let w := Demo.world0 in
  exists pre bad post,
    ns_x ns = pre ++ bad :: post /\ Forall (fun e => e ∈ []) pre /\ (bad ∉ []) /\
    main ns w = (Ok 1%Z, add_stderr (T "Not a valid extension: " ++ bad ++ Str.nl) w).
Proof.
  intros ns w. apply (invalid_extension_stops_the_script ns w []).
  - reflexivity.
  - vm_compute. reflexivity.
  - exists (T "arrays1"). split; [apply elem_of_cons; auto | apply not_elem_of_nil].
Defined.

(** ** The checks of the submission *)

Lemma check_contents_world path w : snd (check_contents path w) = w.
Proof.
  unfold check_contents, isdir, isfile, get_fs, bind, ret, raise.
  repeat (cbn; match goal with |- context [negb ?b] => destruct b end); reflexivity.
Qed.

Lemma check_contents_cases path w :
  let fs := w_fs w in
  if fs_isdir fs (Path.join path [T "doc"]) && fs_isdir fs (Path.join path [T "lib"])
     && fs_isdir fs (Path.join path [T "src"]) && fs_isfile fs (Path.join path [T "Makefile"])
  then check_contents path w = (Ok tt, w)
  else exists msg, check_contents path w = (Raise (TestingException msg), w).
Proof.
  cbv zeta. unfold check_contents.
  rewrite (bind_ok _ _ w (fs_isdir (w_fs w) (Path.join path [T "doc"])) w) by reflexivity.
  destruct (fs_isdir (w_fs w) (Path.join path [T "doc"])); cbn [andb negb];
    [|eexists; reflexivity].
  rewrite (bind_ok _ _ w (fs_isdir (w_fs w) (Path.join path [T "lib"])) w) by reflexivity.
  destruct (fs_isdir (w_fs w) (Path.join path [T "lib"])); cbn [andb negb];
    [|eexists; reflexivity].
  rewrite (bind_ok _ _ w (fs_isdir (w_fs w) (Path.join path [T "src"])) w) by reflexivity.
  destruct (fs_isdir (w_fs w) (Path.join path [T "src"])); cbn [andb negb];
    [|eexists; reflexivity].
  rewrite (bind_ok _ _ _ _ _ (isfile_eval _ w)).
  destruct (fs_isfile (w_fs w) (Path.join path [T "Makefile"])); cbn [andb negb];
    [reflexivity | eexists; reflexivity].
Qed.

(** X12.  A submission directory that lacks [doc], [lib], [src] or the
    [Makefile] is turned down before anything is built or run: the script
    launches no command, changes no file, reports on the error stream and
    exits with 1. *)
Theorem bad_layout_runs_nothing ns w w1 :
  main_args ns w = (Ok None, w1) ->
  ns_archive ns = false ->
  (let fs := w_fs w1 in let path := ns_submission ns in
   fs_isdir fs (Path.join path [T "doc"]) && fs_isdir fs (Path.join path [T "lib"])
   && fs_isdir fs (Path.join path [T "src"]) && fs_isfile fs (Path.join path [T "Makefile"])
   = false) ->
  exists msg w',
    main ns w = (Ok 1%Z, w') /\
    w_trace w' = w_trace w1 /\
    (forall p, p <> abspath (w_fs w1) (T "a.out") ->
               files (w_fs w') !! p = files (w_fs w1) !! p) /\
    w_stdout w' = w_stdout w1 /\
    w_stderr w' = w_stderr w1 ++
      [Str.nl ++ T "testing.py failed with:" ++ Str.nl ++ indent_with 4 msg ++ Str.nl].
Proof.
  cbv zeta. intros Hargs Harch Hbad.
  pose proof (check_contents_cases (ns_submission ns) w1) as Hcc. cbv zeta in Hcc.
  rewrite Hbad in Hcc. destruct Hcc as [msg Hcc].
  set (w2 := add_stderr (Str.nl ++ T "testing.py failed with:" ++ Str.nl
                         ++ indent_with 4 msg ++ Str.nl) w1).
  assert (main_try ns [] w1 = (Ok true, w2)) as Htry.
  { assert (main_checks ns [] w1 = (Raise (TestingException msg), w1)) as Hchecks.
    { unfold main_checks, main_path. rewrite Harch.
      rewrite (bind_ok _ _ w1 tt w1) by reflexivity. apply bind_raise. exact Hcc. }
    assert (main_body ns [] w1 = (Raise (TestingException msg), w1)) as Hbody.
    { unfold main_body. apply bind_raise. exact Hchecks. }
    unfold main_try, try_catch. rewrite (bind_raise _ _ _ _ _ Hbody).
    cbn [main_except]. unfold eprint, stderr_write, bind, ret. subst w2.
    rewrite <- !app_assoc. reflexivity. }
  destruct (clean_files_frame [T "a.out"] w2)
    as (w3 & Hclean & _ & Hframe & _ & _ & _ & Htr & Hout & Herr).
  exists msg, w3. split; [|split; [exact Htr | split; [|split; [exact Hout | exact Herr]]]].
  - unfold main. rewrite (bind_ok _ _ _ _ _ Hargs). unfold main_tmpdir. rewrite Harch.
    rewrite (bind_ok _ _ w1 [] w1) by reflexivity.
    rewrite (bind_ok _ _ _ _ _ Htry).
    unfold main_cleanup. rewrite Harch, andb_false_r.
    rewrite (bind_ok _ _ w2 tt w3); [reflexivity|].
    rewrite (bind_ok _ _ w2 tt w2) by reflexivity. exact Hclean.
  - intros p Hp. apply Hframe. cbn. intros Hin.
    apply elem_of_cons in Hin as [Hin|Hin]; [contradiction|].
    apply elem_of_nil in Hin. exact Hin.
Qed.

Lemma bad_layout_runs_nothing_witness :
  let ns := Demo.ns0 true false in
  let w := Demo2.world_nodoc in
  exists msg w',
    main ns w = (Ok 1%Z, w') /\
    w_trace w' = w_trace (snd (main_args ns w)) /\
    (forall p, p <> abspath (w_fs (snd (main_args ns w))) (T "a.out") ->
               files (w_fs w') !! p = files (w_fs (snd (main_args ns w))) !! p) /\
    w_stdout w' = w_stdout (snd (main_args ns w)) /\
    w_stderr w' = w_stderr (snd (main_args ns w)) ++
      [Str.nl ++ T "testing.py failed with:" ++ Str.nl ++ indent_with 4 msg ++ Str.nl].
Proof.
  intros ns w.
  apply (bad_layout_runs_nothing ns w (snd (main_args ns w))).
  - vm_compute. reflexivity.
  - reflexivity.
  - vm_compute. reflexivity.
Defined.

(** ** The archive name *)

Ltac char_is H c n :=
  let Hne := fresh "Hne" in
  let p := fresh "p" in
  destruct (N.eq_dec c n) as [->|Hne];
  [ | exfalso; destruct c as [|p]; [discriminate H|];
      do 8 (try (destruct p as [p|p|]; try discriminate H;
                 try (apply Hne; reflexivity))) ].

Lemma skip_digits_spec (s : pystr) :
  exists ds, s = ds ++ skip_digits s /\ Forall is_digit ds /\
    match skip_digits s with c :: _ => ~ is_digit c | [] => True end.
Proof.
  induction s as [|c s (ds & Hs & Hds & Hhd)]; cbn [skip_digits].
  - exists []. auto.
  - destruct (N.leb_spec 48 c); destruct (N.leb_spec c 57); cbn [andb].
    + exists (c :: ds). cbn. split; [congruence|]. split; [|exact Hhd].
      constructor; [unfold is_digit; lia | exact Hds].
    + exists []. cbn. split; [reflexivity|]. split; [constructor|]. unfold is_digit. lia.
    + exists []. cbn. split; [reflexivity|]. split; [constructor|]. unfold is_digit. lia.
    + exists []. cbn. split; [reflexivity|]. split; [constructor|]. unfold is_digit. lia.
Qed.

Lemma skip_digits_app (ds s : pystr) :
  Forall is_digit ds -> skip_digits (ds ++ 46 :: s) = 46 :: s.
Proof.
  induction 1 as [|c ds Hc Hds IH]; [reflexivity|].
  cbn [app skip_digits]. unfold is_digit in Hc.
  destruct (N.leb_spec 48 c); [|lia]. destruct (N.leb_spec c 57); [|lia]. exact IH.
Qed.

Lemma last_removelast (l : pystr) x : last l = Some x -> l = removelast l ++ [x].
Proof.
  induction l as [|a [|b l] IH]; intros H; [discriminate| |].
  - injection H as ->. reflexivity.
  - cbn [removelast app]. f_equal. apply IH. exact H.
Qed.

Lemma archive_ext_cases (ext : pystr) :
  (let ext' := match last ext with Some 10 => removelast ext | _ => ext end in
   Str.eqb ext' (T "tgz") || Str.eqb ext' (T "tar.gz")
   || Str.eqb ext' (T "tar.bz2") || Str.eqb ext' (T "tar.xz")) = true ->
  exists e tail, ext = e ++ tail /\
    (e = T "tgz" \/ e = T "tar.gz" \/ e = T "tar.bz2" \/ e = T "tar.xz") /\
    (tail = [] \/ tail = Str.nl).
Proof.
  cbv zeta. intros H.
  assert (forall e, Str.eqb e (T "tgz") || Str.eqb e (T "tar.gz")
                    || Str.eqb e (T "tar.bz2") || Str.eqb e (T "tar.xz") = true ->
                    e = T "tgz" \/ e = T "tar.gz" \/ e = T "tar.bz2" \/ e = T "tar.xz") as Hopt.
  { intros e He. rewrite !orb_true_iff, !str_eqb_true in He. tauto. }
  destruct (last ext) as [c|] eqn:Hlast.
  - destruct (N.eq_dec c 10) as [->|Hne].
    + exists (removelast ext), Str.nl. split; [apply last_removelast; exact Hlast|].
      split; [apply Hopt; exact H | auto].
    + exists ext, []. rewrite app_nil_r. split; [reflexivity|]. split; [|auto].
      apply Hopt. destruct c as [|p]; [exact H|].
      do 5 (try (destruct p as [p|p|]; try exact H)). exfalso. apply Hne. reflexivity.
  - exists ext, []. rewrite app_nil_r. split; [reflexivity|]. split; [|auto].
    apply Hopt. exact H.
Qed.

Lemma archive_name_ok_spec fname :
  archive_name_ok fname = true <-> submission_name fname.
Proof.
  split.
  - intros H. unfold archive_name_ok in H.
    destruct fname as [|c1 fname]; [discriminate|]. char_is H c1 112.
    destruct fname as [|c2 fname]; [discriminate|]. char_is H c2 97.
    destruct fname as [|c3 fname]; [discriminate|]. char_is H c3 114.
    destruct fname as [|c4 fname]; [discriminate|]. char_is H c4 116.
    destruct fname as [|part fname]; [discriminate|].
    destruct fname as [|c6 fname]; [discriminate|]. char_is H c6 45.
    destruct fname as [|d rest]; [discriminate|].
    apply andb_true_iff in H as [H Hext]. apply andb_true_iff in H as [Hpart Hd].
    apply andb_true_iff in Hpart as [Hp1 Hp2]. apply andb_true_iff in Hd as [Hd1 Hd2].
    apply N.leb_le in Hp1, Hp2, Hd1, Hd2.
    destruct (skip_digits_spec rest) as (ds & Hrest & Hds & _).
    destruct (skip_digits rest) as [|c ext]; [discriminate|]. char_is Hext c 46.
    apply archive_ext_cases in Hext as (e & tail & -> & He & Htail).
    exists part, d, ds, e, tail. split; [|split; [lia | split; [lia | auto]]].
    rewrite Hrest. reflexivity.
  - intros (part & d & ds & ext & tail & -> & Hpart & Hd & Hds & Hext & Htail).
    change (T "part") with [112; 97; 114; 116].
    change (T "-") with [45]. change (T ".") with [46].
    cbn [app]. unfold archive_name_ok. cbv iota beta.
    rewrite skip_digits_app by exact Hds. cbv iota beta.
    apply andb_true_iff. split.
    + apply andb_true_iff. split; apply andb_true_iff; split; apply N.leb_le; lia.
    + destruct Hext as [-> | [-> | [-> | ->]]]; destruct Htail as [-> | ->]; reflexivity.
Qed.

(** X13.  The names that [check_archive] accepts are exactly those of the
    form [part], one of [A], [B], [C], a dash, a decimal number without a
    leading zero, a dot and one of [tgz], [tar.gz], [tar.bz2], [tar.xz],
    with at most one newline after it. *)
Theorem archive_name_ok_iff_submission_name fname :
  archive_name_ok fname = true <-> submission_name fname.
Proof. apply archive_name_ok_spec. Qed.

(** X14.  [check_archive] turns a badly named archive down before it
    touches anything; for a well named one it launches [tar], once, with
    the archive and the target directory, and nothing else. *)
Theorem check_archive_name_gate path target w :
  (~ submission_name (snd (Path.split path)) ->
   check_archive path target w
   = (Raise (TestingException
              (T "Archive is not named according to submission guidelines")), w)) /\
  (submission_name (snd (Path.split path)) ->
   exists opt,
     (opt = T "xf" \/ opt = T "xzf" \/ opt = T "xjf" \/ opt = T "xJf") /\
     w_trace (snd (check_archive path target w))
     = w_trace w ++ [[T "tar"; opt; path; T "-C"; target]]).
Proof.
  split.
  - intros Hname. unfold check_archive.
    destruct (archive_name_ok (snd (Path.split path))) eqn:Hok; [|reflexivity].
    exfalso. apply Hname, archive_name_ok_spec. exact Hok.
  - intros Hname. apply archive_name_ok_spec in Hname. unfold check_archive.
    rewrite Hname. cbn [negb].
    set (opt := if Str.eqb (snd (Path.splitext path)) (T ".tar") then T "xf"
                else if Str.eqb (snd (Path.splitext path)) (T ".gz") then T "xzf"
                else if Str.eqb (snd (Path.splitext path)) (T ".bz2") then T "xjf"
                else T "xJf").
    exists opt. split.
    { subst opt. repeat (match goal with |- context [if ?b then _ else _] => destruct b end);
        auto. }
    unfold stdout_write at 1.
    rewrite (bind_ok _ _ w tt (add_stdout _ w)) by reflexivity.
    unfold path_exists, get_fs.
    rewrite (bind_ok _ _ _ (fs_isfile (w_fs w) target || fs_isdir (w_fs w) target)
               (add_stdout
                  (T "- Unpacking " ++ snd (Path.split path) ++ T " to " ++ dq ++ target ++ dq
                   ++ T " ... ") w)) by reflexivity.
    set (w1 := add_stdout _ w).
    assert (exists w2, (if fs_isfile (w_fs w) target || fs_isdir (w_fs w) target
                        then ret tt else makedirs target) w1 = (Ok tt, w2)
                       /\ w_trace w2 = w_trace w) as (w2 & Hmk & Htr).
    { destruct (fs_isfile (w_fs w) target || fs_isdir (w_fs w) target);
        eexists; split; reflexivity. }
    rewrite (bind_ok _ _ _ _ _ Hmk).
    pose proof (subprocess_run_trace [T "tar"; opt; path; T "-C"; target] None w2) as Hrun.
    unfold bind at 1.
    destruct (subprocess_run [T "tar"; opt; path; T "-C"; target] None w2) as [[child|e] w3];
      cbn in Hrun; rewrite Htr in Hrun; [|exact Hrun].
    destruct (negb (returncode child =? 0)%Z); [|exact Hrun].
    unfold print, stdout_write, bind, decode_utf8.
    destruct (Utf8.decode (child_stderr child)); exact Hrun.
Qed.

Example check_archive_accepts :
  archive_name_ok (T "partB-12.tar.gz") = true /\
  archive_name_ok (T "partB-012.tar.gz") = false /\
  archive_name_ok (T "partD-1.tar.gz") = false /\
  archive_name_ok (T "partA-1.zip") = false.
Proof. repeat split; reflexivity. Qed.

(** ** The executables of the build *)

(** X15.  The check of the executables returns exactly when, for every
    backend asked for, the compiler with the name of that backend is a
    regular file with the execute permission; otherwise it raises a
    [TestingException]; in both cases the world is as it was. *)
Theorem check_executables_iff path prefix suffices w :
  let ready (suffix : pystr) :=
    fs_isfile (w_fs w) (Path.join path [exec_name_of prefix suffix]) = true /\
    abspath (w_fs w) (Path.join path [exec_name_of prefix suffix]) ∈ execs (w_fs w) in
  snd (check_executables path prefix suffices w) = w /\
  (fst (check_executables path prefix suffices w) = Ok tt <-> Forall ready suffices) /\
  (forall e, fst (check_executables path prefix suffices w) = Raise e ->
             exists msg, e = TestingException msg).
Proof.
  cbv zeta. induction suffices as [|suffix rest (IHw & IHok & IHe)].
  - cbn. split; [reflexivity|]. split; [split; auto|]. discriminate.
  - cbn [check_executables]. fold (exec_name_of prefix suffix).
    rewrite (bind_ok _ _ _ _ _ (isfile_eval _ w)).
    destruct (fs_isfile (w_fs w) (Path.join path [exec_name_of prefix suffix])) eqn:Hf;
      cbn [negb].
    + unfold access_x, get_fs.
      rewrite (bind_ok _ _ w
                 (bool_decide (abspath (w_fs w) (Path.join path [exec_name_of prefix suffix])
                               ∈ execs (w_fs w))) w) by reflexivity.
      destruct (decide (abspath (w_fs w) (Path.join path [exec_name_of prefix suffix])
                        ∈ execs (w_fs w))) as [Hx|Hx].
      * rewrite bool_decide_eq_true_2 by exact Hx. cbn [negb].
        split; [exact IHw|]. split; [|exact IHe].
        rewrite IHok. split.
        -- intros H. constructor; [split; [exact Hf | exact Hx] | exact H].
        -- intros H. inversion H; assumption.
      * rewrite bool_decide_eq_false_2 by exact Hx. cbn [negb].
        split; [reflexivity|]. split.
        -- split; [discriminate|]. intros H. inversion H as [|? ? [_ Hx'] ?]. contradiction.
        -- intros e He. injection He as <-. eauto.
    + split; [reflexivity|]. split.
      * split; [discriminate|]. intros H. inversion H as [|? ? [Hf' _] ?]. congruence.
      * intros e He. injection He as <-. eauto.
Qed.

(** ** The catalogue as a whole *)

Lemma build_list_loop_exact path is_good names : forall tests w,
  build_list_loop tests path is_good names w
  = (Ok (tests ++
         map (fun fname => (Path.join path [fst (Path.splitext fname)], is_good))
           (filter (fun fname => fs_isfile (w_fs w) (Path.join path [fname]) = true /\
                                 snd (Path.splitext fname) = T ".jl") names)), w).
Proof.
  induction names as [|fname rest IH]; intros tests w.
  - cbn. rewrite app_nil_r. reflexivity.
  - cbn [build_list_loop]. rewrite (bind_ok _ _ _ _ _ (isfile_eval _ w)).
    destruct (Path.splitext fname) as [base ext] eqn:Hsplit.
    destruct (fs_isfile (w_fs w) (Path.join path [fname])) eqn:Hfile;
      destruct (Str.eqb ext (T ".jl")) eqn:Hext; cbn [andb].
    + apply str_eqb_true in Hext.
      rewrite filter_cons_True by (rewrite Hsplit; split; [exact Hfile | exact Hext]).
      rewrite IH. cbn [map]. rewrite Hsplit. cbn [fst]. rewrite <- app_assoc. reflexivity.
    + rewrite filter_cons_False; [apply IH|].
      rewrite Hsplit. intros [_ H]. cbn [snd] in H.
      apply (proj2 (str_eqb_true _ _)) in H. congruence.
    + rewrite filter_cons_False; [apply IH|]. intros [H _]. congruence.
    + rewrite filter_cons_False; [apply IH|]. intros [H _]. congruence.
Qed.

Lemma build_list_exact tests path is_good w :
  build_list tests path is_good w
  = match dirs (w_fs w) !! abspath (w_fs w) path with
    | Some _ => (Ok (tests ++ jl_entries (w_fs w) path is_good), w)
    | None => (Raise (if fs_isfile (w_fs w) path then ENOTDIR else ENOENT), w)
    end.
Proof.
  unfold build_list, jl_entries.
  destruct (dirs (w_fs w) !! abspath (w_fs w) path) as [names|] eqn:Hdir.
  - rewrite (bind_ok _ _ w names w).
    + apply build_list_loop_exact.
    + unfold listdir, get_fs, bind. rewrite Hdir. reflexivity.
  - apply bind_raise. unfold listdir, get_fs, bind. rewrite Hdir.
    destruct (fs_isfile (w_fs w) path); reflexivity.
Qed.

Lemma build_extensions_exact exts : forall tests w,
  snd (build_extensions tests exts w) = w /\
  match fst (build_extensions tests exts w) with
  | Ok tests' =>
      Forall (fun ext => is_Some (dirs (w_fs w) !!
                abspath (w_fs w) (T "testsuite/extensions/" ++ ext))) exts /\
      tests' = tests ++
        concat (map (fun ext => jl_entries (w_fs w) (T "testsuite/extensions/" ++ ext) true)
                  exts)
  | Raise e =>
      (e = ENOTDIR \/ e = ENOENT) /\
      Exists (fun ext => dirs (w_fs w) !!
                abspath (w_fs w) (T "testsuite/extensions/" ++ ext) = None) exts
  end.
Proof.
  induction exts as [|ext rest IH]; intros tests w.
  - cbn. rewrite app_nil_r. auto.
  - cbn [build_extensions].
    pose proof (build_list_exact tests (T "testsuite/extensions/" ++ ext) true w) as Hb.
    destruct (dirs (w_fs w) !! abspath (w_fs w) (T "testsuite/extensions/" ++ ext))
      as [names|] eqn:Hdir.
    + rewrite (bind_ok _ _ _ _ _ Hb).
      destruct (IH (tests ++ jl_entries (w_fs w) (T "testsuite/extensions/" ++ ext) true) w)
        as [Hw Hr].
      split; [exact Hw|].
      destruct (fst (build_extensions _ rest w)) as [tests'|e].
      * destruct Hr as [Hall ->]. split.
        -- constructor; [rewrite Hdir; eauto | exact Hall].
        -- cbn [map concat]. rewrite <- app_assoc. reflexivity.
      * destruct Hr as [He Hex]. split; [exact He|]. apply Exists_cons. right. exact Hex.
    + rewrite (bind_raise _ _ _ _ _ Hb). cbn [fst snd]. split; [reflexivity|]. split.
      * destruct (fs_isfile (w_fs w) _); auto.
      * apply Exists_cons. left. exact Hdir.
Qed.

(** X16.  Building the catalogue changes nothing.  It succeeds exactly
    when [testsuite/good], [testsuite/bad] and the directory of every
    requested extension can be listed, and otherwise raises the error of
    the listing.  The catalogue is then the test cases of
    [testsuite/good], expected to compile, followed by those of
    [testsuite/bad], expected to be rejected, followed by those of the
    extension directories in the order requested, expected to compile:
    every regular file with the extension [.jl], in the order of the
    listings, and nothing else. *)
Theorem build_catalog_layout exts w :
  let fs := w_fs w in
  let ext_dir (ext : pystr) := T "testsuite/extensions/" ++ ext in
  let needed := T "testsuite/good" :: T "testsuite/bad" :: map ext_dir exts in
  let r := build_catalog exts w in
  snd r = w /\
  match fst r with
  | Ok tests =>
      Forall (fun d => is_Some (dirs fs !! abspath fs d)) needed /\
      tests = jl_entries fs (T "testsuite/good") true ++
              jl_entries fs (T "testsuite/bad") false ++
              concat (map (fun ext => jl_entries fs (ext_dir ext) true) exts)
  | Raise e =>
      (e = ENOTDIR \/ e = ENOENT) /\
      Exists (fun d => dirs fs !! abspath fs d = None) needed
  end.
Proof.
  cbv zeta. unfold build_catalog.
  pose proof (build_list_exact [] (T "testsuite/good") true w) as Hg.
  destruct (dirs (w_fs w) !! abspath (w_fs w) (T "testsuite/good")) as [g|] eqn:Hdg.
  - rewrite (bind_ok _ _ _ _ _ Hg). cbn [app].
    pose proof (build_list_exact (jl_entries (w_fs w) (T "testsuite/good") true)
                  (T "testsuite/bad") false w) as Hb.
    destruct (dirs (w_fs w) !! abspath (w_fs w) (T "testsuite/bad")) as [b|] eqn:Hdb.
    + rewrite (bind_ok _ _ _ _ _ Hb).
      destruct (build_extensions_exact exts
                  (jl_entries (w_fs w) (T "testsuite/good") true ++
                   jl_entries (w_fs w) (T "testsuite/bad") false) w) as [Hw Hr].
      split; [exact Hw|].
      destruct (fst (build_extensions _ exts w)) as [tests|e].
      * destruct Hr as [Hall ->]. split.
        -- constructor; [rewrite Hdg; eauto|]. constructor; [rewrite Hdb; eauto|].
           apply Forall_fmap. exact Hall.
        -- rewrite <- app_assoc. reflexivity.
      * destruct Hr as [He Hex]. split; [exact He|].
        apply Exists_cons. right. apply Exists_cons. right.
        apply Exists_fmap. exact Hex.
    + rewrite (bind_raise _ _ _ _ _ Hb). cbn [fst snd]. split; [reflexivity|]. split.
      * destruct (fs_isfile (w_fs w) _); auto.
      * apply Exists_cons. right. apply Exists_cons. left. exact Hdb.
  - rewrite (bind_raise _ _ _ _ _ Hg). cbn [fst snd]. split; [reflexivity|]. split.
    + destruct (fs_isfile (w_fs w) _); auto.
    + apply Exists_cons. left. exact Hdg.
Qed.

(** In the session of [Demo] the listing of [testsuite/good] has the
    source file [t1.jl], a text file and a directory: only the first
    gives a test case. *)
Example catalogue_of_the_demo :
  jl_entries (w_fs Demo.world0) (T "testsuite/good") true = [(T "testsuite/good/t1", true)] /\
  fst (build_catalog [] Demo.world0) = Ok [(T "testsuite/good/t1", true)].
Proof. split; vm_compute; reflexivity. Qed.

(** ** The error text kept for the report *)

Lemma last_rev_head (l : pystr) : last (rev l) = head l.
Proof. destruct l as [|c l]; [reflexivity|]. cbn. apply last_snoc. Qed.

Lemma strip_ends (s : pystr) :
  match head (Str.strip s) with Some c => Str.isspace c = false | None => True end /\
  match last (Str.strip s) with Some c => Str.isspace c = false | None => True end.
Proof.
  unfold Str.strip, Str.rstrip.
  destruct (lstrip_spec s) as (l & _ & _ & Hu).
  destruct (lstrip_spec (rev (Str.lstrip s))) as (r & Hr & _ & Hv).
  split.
  - apply (f_equal (@rev N)) in Hr. rewrite rev_involutive, rev_app_distr in Hr.
    destruct (rev (Str.lstrip (rev (Str.lstrip s)))) as [|c t] eqn:Hrv; [exact I|].
    cbn. rewrite Hr in Hu. cbn in Hu. exact Hu.
  - rewrite last_rev_head.
    destruct (Str.lstrip (rev (Str.lstrip s))) as [|c t]; [exact I | exact Hv].
Qed.

(** X17.  The error text that [run_compiler] keeps in [stderr_actual] is
    what the compiler wrote on its error stream without the white space at
    both ends: it neither starts nor ends with a white-space character. *)
Theorem stderr_actual_is_trimmed exe src is_good w passed data w' :
  run_compiler exe src is_good w = (Ok (passed, data), w') ->
  exists infile child text l r,
    subprocess_run [exe] (Some infile) w = (Ok child, w') /\
    Utf8.decode (child_stderr child) = Some text /\
    text = l ++ stderr_actual data ++ r /\
    forallb Str.isspace l = true /\ forallb Str.isspace r = true /\
    match head (stderr_actual data) with Some c => Str.isspace c = false | None => True end /\
    match last (stderr_actual data) with Some c => Str.isspace c = false | None => True end.
Proof.
  intros H. apply run_compiler_inv in H
    as (infile & child & out & err & _ & Hrun & _ & Herr & _ & ->).
  destruct (strip_decompose err) as (l & r & Hs & Hl & Hr).
  destruct (strip_ends err) as [Hh Ht].
  exists infile, child, err, l, r. cbn. auto 10.
Qed.

Lemma stderr_actual_is_trimmed_witness :
  let exe := T "sub/jlc" in
  let r0 := run_compiler exe (T "testsuite/good/t1.jl") true Demo.world0 in
  let data := match fst r0 with Ok (_, d) => d | Raise _ => Build_Struct [] [] [] [] [] end in
  exists infile child text l r,
    subprocess_run [exe] (Some infile) Demo.world0 = (Ok child, snd r0) /\
    Utf8.decode (child_stderr child) = Some text /\
    text = l ++ stderr_actual data ++ r /\
    forallb Str.isspace l = true /\ forallb Str.isspace r = true /\
    match head (stderr_actual data) with Some c => Str.isspace c = false | None => True end /\
    match last (stderr_actual data) with Some c => Str.isspace c = false | None => True end.
Proof.
  intros exe r0 data.
  apply (stderr_actual_is_trimmed exe (T "testsuite/good/t1.jl") true Demo.world0 false data
           (snd r0)).
  vm_compute. reflexivity.
Defined.

(** ** The counters at the end are those of the last backend *)

Lemma backend_loop_app path prefix macho total tests pre post : forall t w,
  backend_loop path prefix macho total tests (pre ++ post) t w
  = bind (backend_loop path prefix macho total tests pre t)
         (backend_loop path prefix macho total tests post) w.
Proof.
  induction pre as [|b pre IH]; intros t w.
  - reflexivity.
  - cbn [app backend_loop]. cbv zeta. unfold bind.
    destruct (test_loop _ _ b total tests _ w) as [[t1|e] w1]; [|reflexivity].
    cbn. rewrite IH. reflexivity.
Qed.

(** X18.  After the passes over the backends, [tests_ok] and [tests_bad]
    count the verdicts of the last backend only: the passing and the
    failing ones among the last stretch of the history, one verdict per
    test case. *)
Theorem final_counters_are_last_pass path prefix macho tests pre suffix t w t' w' :
  backend_loop path prefix macho (length tests) tests (pre ++ [suffix]) t w = (Ok t', w') ->
  exists before vs,
    w_verdicts w' = before ++ vs /\
    executed vs = map (fun tc : TestCase => (suffix, fst tc)) tests /\
    tests_ok t' = length (filter (fun v => v_ok v = true) vs) /\
    tests_bad t' = length (filter (fun v => v_ok v = false) vs).
Proof.
  intros H. rewrite backend_loop_app in H.
  apply bind_inv_ok in H as (t0 & w0 & _ & H).
  cbn [backend_loop] in H. cbv zeta in H.
  apply bind_inv_ok in H as (t1 & w1 & Hpass & H).
  apply bind_inv_ok in H as ([] & w2 & Hprint & H).
  injection Hprint as <-. injection H as <- <-.
  apply test_loop_spec in Hpass as (vs & Hlog & Hex & _ & Hok & Hbad);
    [|apply pick_linker_keeps].
  exists (w_verdicts w0), vs. cbn in *. auto.
Qed.

Lemma final_counters_are_last_pass_witness :
  let tests := [(T "testsuite/good/t1", true)] in
  let t := {| tests_ok := 0; tests_bad := 0; failures := [] |} in
  let r := backend_loop (T "sub") (T "jlc") false (length tests) tests
             ([T "llvm"] ++ [T "x86"]) t Demo.world0 in
  let t' := match fst r with Ok x => x | Raise _ => t end in
  exists before vs,
    w_verdicts (snd r) = before ++ vs /\
    executed vs = map (fun tc : TestCase => (T "x86", fst tc)) tests /\
    tests_ok t' = length (filter (fun v => v_ok v = true) vs) /\
    tests_bad t' = length (filter (fun v => v_ok v = false) vs).
Proof.
  intros tests t r t'.
  apply (final_counters_are_last_pass (T "sub") (T "jlc") false tests [T "llvm"] (T "x86")
           t Demo.world0 t' (snd r)).
  vm_compute. reflexivity.
Defined.

(** ** The run stage: what the program is given *)

Lemma open_read_eval p w b :
  files (w_fs w) !! abspath (w_fs w) p = Some b -> open_read p w = (Ok b, w).
Proof. intros H. unfold open_read, bind, get_fs. rewrite H. reflexivity. Qed.

Lemma read_text_eval p w b :
  files (w_fs w) !! abspath (w_fs w) p = Some b ->
  read_text p w =
  match Utf8.decode b with
  | Some s => (Ok (universal_newlines s), w)
  | None => (Raise (OtherException (T "UnicodeDecodeError")), w)
  end.
Proof.
  intros H. unfold read_text. rewrite (bind_ok _ _ _ _ _ (open_read_eval _ _ _ H)).
  unfold decode_utf8. destruct (Utf8.decode b); reflexivity.
Qed.

(** The bytes on the standard input of the produced program. *)
Lemma exec_test_run_stage exe filename link w d0 w0 w1 :
  run_compiler exe (filename ++ T ".jl") true w = (Ok (true, d0), w0) ->
  link (stdout_compiler d0) w0 = (Ok tt, w1) ->
  let stdin := default [] (files (w_fs w1) !! abspath (w_fs w1) (filename ++ T ".input")) in
  exec_test exe filename true (Some link) w =
  match expected_output (w_fs w1) filename with
  | None => (Raise (OtherException (T "UnicodeDecodeError")), w1)
  | Some expected =>
      bind (try_catch
              (bind (subprocess_run [T "./a.out"] (Some stdin))
                    (fun child => decode_utf8 (child_stdout child)))
              (unable_to_execute (T "./a.out")))
           (fun actual =>
              ret (Str.eqb actual expected,
                   {| stderr_actual := stderr_actual d0;
                      stderr_expected := stderr_expected d0;
                      stdout_expected := expected;
                      stdout_actual := actual;
                      stdout_compiler := stdout_compiler d0 |})) w1
  end.
Proof.
  intros Hc Hlink. cbv zeta. unfold exec_test.
  rewrite (bind_ok _ _ _ _ _ Hc). cbn [negb orb].
  rewrite (bind_ok _ _ _ _ _ Hlink).
  rewrite (bind_ok _ _ _ _ _ (isfile_eval _ w1)).
  assert ((if fs_isfile (w_fs w1) (filename ++ T ".input")
           then open_read (filename ++ T ".input") else ret []) w1
          = (Ok (default [] (files (w_fs w1) !! abspath (w_fs w1) (filename ++ T ".input"))),
             w1)) as Hin.
  { destruct (fs_isfile (w_fs w1) (filename ++ T ".input")) eqn:Hf.
    - apply fs_isfile_true in Hf as [b Hb]. rewrite Hb. cbn. apply open_read_eval. exact Hb.
    - apply fs_isfile_false in Hf. rewrite Hf. reflexivity. }
  rewrite (bind_ok _ _ _ _ _ Hin).
  rewrite (bind_ok _ _ _ _ _ (isfile_eval _ w1)).
  unfold expected_output.
  destruct (fs_isfile (w_fs w1) (filename ++ T ".output")) eqn:Hf.
  - apply fs_isfile_true in Hf as [b Hb]. rewrite Hb.
    pose proof (read_text_eval _ _ _ Hb) as Hrt.
    destruct (Utf8.decode b) as [s|]; cbn.
    + rewrite (bind_ok _ _ _ _ _ Hrt). reflexivity.
    + rewrite (bind_raise _ _ _ _ _ Hrt). reflexivity.
  - apply fs_isfile_false in Hf. rewrite Hf.
    rewrite (bind_ok _ _ w1 [] w1) by reflexivity. reflexivity.
Qed.

(** X19.  Once a good test case is compiled and linked, the produced
    program is launched, as [./a.out], with the bytes of the input fixture
    on its standard input, untranslated, or with no input when there is no
    fixture; if it cannot be launched the session fails with "Unable to
    execute ./a.out".  When the expected-output fixture is not valid UTF-8
    the program is not launched at all. *)
Theorem run_stage_feeds_input_fixture exe filename link w d0 w0 w1 :
  run_compiler exe (filename ++ T ".jl") true w = (Ok (true, d0), w0) ->
  link (stdout_compiler d0) w0 = (Ok tt, w1) ->
  let stdin := default [] (files (w_fs w1) !! abspath (w_fs w1) (filename ++ T ".input")) in
  let r := exec_test exe filename true (Some link) w in
  match expected_output (w_fs w1) filename with
  | None => r = (Raise (OtherException (T "UnicodeDecodeError")), w1)
  | Some _ =>
      snd r = snd (subprocess_run [T "./a.out"] (Some stdin) w1) /\
      w_trace (snd r) = w_trace w1 ++ [[T "./a.out"]] /\
      (forall cls errno strerror fs1,
         w_proc w1 [T "./a.out"] (Some stdin) (w_fs w1) (w_trace w1)
         = (SpawnError cls errno strerror, fs1) ->
         fst r = Raise (TestingException
                   (T "Unable to execute " ++ T "./a.out" ++ T " for some reason, " ++
                    T "here is the errno: " ++ Str.of_Z errno ++ T ": " ++ strerror)))
  end.
Proof.
  intros Hc Hlink. cbv zeta. rewrite (exec_test_run_stage _ _ _ _ _ _ _ Hc Hlink). cbv zeta.
  destruct (expected_output (w_fs w1) filename) as [expected|]; [|reflexivity].
  set (stdin := default [] (files (w_fs w1) !! abspath (w_fs w1) (filename ++ T ".input"))).
  assert (forall k : pystr -> M (bool * Struct),
            (forall a w2, snd (k a w2) = w2) ->
            snd (bind (try_catch
                   (bind (subprocess_run [T "./a.out"] (Some stdin))
                         (fun child => decode_utf8 (child_stdout child)))
                   (unable_to_execute (T "./a.out"))) k w1)
            = snd (subprocess_run [T "./a.out"] (Some stdin) w1)) as Hw.
  { intros k Hk. rewrite bind_pure_world by exact Hk.
    rewrite try_catch_unable_world. apply bind_pure_world.
    intros child w2. apply decode_utf8_world. }
  split; [apply Hw; reflexivity|]. split.
  - rewrite Hw by reflexivity. apply subprocess_run_trace.
  - intros cls errno strerror fs1 Hproc.
    unfold bind at 1, try_catch, bind at 1, subprocess_run. rewrite Hproc. reflexivity.
Qed.

Lemma run_stage_feeds_input_fixture_witness :
  let exe := T "sub/jlc_x86" in
  let filename := T "testsuite/good/t1" in
  let link := pick_linker (T "sub") (T "x86") false in
  let w := Demo.world_crlf in
  let c := run_compiler exe (filename ++ T ".jl") true w in
  let d0 := match fst c with Ok (_, d) => d | Raise _ => Build_Struct [] [] [] [] [] end in
  let w1 := snd (link (stdout_compiler d0) (snd c)) in
  let stdin := default [] (files (w_fs w1) !! abspath (w_fs w1) (filename ++ T ".input")) in
  let r := exec_test exe filename true (Some link) w in
  match expected_output (w_fs w1) filename with
  | None => r = (Raise (OtherException (T "UnicodeDecodeError")), w1)
  | Some _ =>
      snd r = snd (subprocess_run [T "./a.out"] (Some stdin) w1) /\
      w_trace (snd r) = w_trace w1 ++ [[T "./a.out"]] /\
      (forall cls errno strerror fs1,
         w_proc w1 [T "./a.out"] (Some stdin) (w_fs w1) (w_trace w1)
         = (SpawnError cls errno strerror, fs1) ->
         fst r = Raise (TestingException
                   (T "Unable to execute " ++ T "./a.out" ++ T " for some reason, " ++
                    T "here is the errno: " ++ Str.of_Z errno ++ T ": " ++ strerror)))
  end.
Proof.
  intros exe filename link w c d0 w1 stdin r.
  apply (run_stage_feeds_input_fixture exe filename link w d0 (snd c) w1).
  - vm_compute. reflexivity.
  - vm_compute. reflexivity.
Defined.

(** ** What a test case cannot touch

    Any component of the world that changing the file system, the name
    supply or the history of commands leaves alone is left alone by
    everything [exec_test] does: in particular the two output streams. *)

Section Leaves.

Context {F : Type} (proj : World -> F).
Hypothesis proj_set_fs : forall fs w, proj (set_fs fs w) = proj w.
Hypothesis proj_set_tmp : forall n w, proj (set_tmp n w) = proj w.
Hypothesis proj_add_trace : forall argv w, proj (add_trace argv w) = proj w.

Lemma leaves_ret {A} (a : A) : leaves proj (ret a).
Proof. intros w. reflexivity. Qed.

Lemma leaves_raise {A} (e : exn) : leaves proj (raise (A := A) e).
Proof. intros w. reflexivity. Qed.

Lemma leaves_bind {A B} (m : M A) (k : A -> M B) :
  leaves proj m -> (forall a, leaves proj (k a)) -> leaves proj (bind m k).
Proof.
  intros Hm Hk w. unfold bind. specialize (Hm w).
  destruct (m w) as [[a|e] w1]; cbn in *; [rewrite Hk|]; exact Hm.
Qed.

Lemma leaves_try_finally {A} (body : M A) (fin : M unit) :
  leaves proj body -> leaves proj fin -> leaves proj (try_finally body fin).
Proof.
  intros Hb Hf w. unfold try_finally. specialize (Hb w).
  destruct (body w) as [r w1]. specialize (Hf w1).
  destruct (fin w1) as [[[]|e] w2]; cbn in *; congruence.
Qed.

Lemma leaves_try_catch {A} (body : M A) (handler : exn -> option (M A)) :
  leaves proj body -> (forall e h, handler e = Some h -> leaves proj h) ->
  leaves proj (try_catch body handler).
Proof.
  intros Hb Hh w. unfold try_catch. specialize (Hb w).
  destruct (body w) as [[a|e] w1]; cbn in *; [exact Hb|].
  destruct (handler e) as [h|] eqn:He; [|exact Hb].
  rewrite (Hh e h He). exact Hb.
Qed.

Lemma leaves_get_fs : leaves proj get_fs.
Proof. intros w. reflexivity. Qed.

Lemma leaves_put_fs fs : leaves proj (put_fs fs).
Proof. intros w. apply proj_set_fs. Qed.

Lemma leaves_platform_system : leaves proj platform_system.
Proof. intros w. reflexivity. Qed.

Lemma leaves_take_tmp dir pre suf : leaves proj (take_tmp dir pre suf).
Proof. intros w. apply proj_set_tmp. Qed.

Lemma leaves_subprocess_run argv stdin : leaves proj (subprocess_run argv stdin).
Proof.
  intros w. unfold subprocess_run.
  destruct (w_proc w argv stdin (w_fs w) (w_trace w)) as [[cls errno msg|c] fs1]; cbn;
    rewrite proj_add_trace, proj_set_fs; reflexivity.
Qed.

Lemma leaves_unable_to_execute {A} what e (h : M A) :
  unable_to_execute what e = Some h -> leaves proj h.
Proof.
  destruct e; cbn; intros H; try discriminate.
  injection H as <-. apply leaves_raise.
Qed.

Create HintDb leaves_db.

#[local] Hint Resolve leaves_get_fs leaves_put_fs leaves_platform_system leaves_take_tmp
  leaves_subprocess_run : leaves_db.

Ltac leaves_step :=
  first
    [ apply leaves_ret | apply leaves_raise
    | solve [auto with leaves_db]
    | eapply leaves_unable_to_execute; eassumption
    | apply leaves_bind | apply leaves_try_finally | apply leaves_try_catch
    | match goal with
      | |- leaves _ (match ?x with _ => _ end) => destruct x
      | |- forall _, _ => intro
      end ].

Ltac leaves_all := repeat leaves_step.

Lemma leaves_isfile p : leaves proj (isfile p).
Proof. unfold isfile. leaves_all. Qed.

Lemma leaves_open_read p : leaves proj (open_read p).
Proof. unfold open_read. leaves_all. Qed.

Lemma leaves_decode_utf8 b : leaves proj (decode_utf8 b).
Proof. unfold decode_utf8. leaves_all. Qed.

Lemma leaves_encode_utf8 s : leaves proj (encode_utf8 s).
Proof. unfold encode_utf8. leaves_all. Qed.

Lemma leaves_write_bytes p c : leaves proj (write_bytes p c).
Proof. unfold write_bytes. leaves_all. Qed.

Lemma leaves_os_remove p : leaves proj (os_remove p).
Proof. unfold os_remove. leaves_all. Qed.

#[local] Hint Resolve leaves_isfile leaves_open_read leaves_decode_utf8 leaves_encode_utf8
  leaves_write_bytes leaves_os_remove : leaves_db.

Lemma leaves_read_text p : leaves proj (read_text p).
Proof. unfold read_text. leaves_all. Qed.

Lemma leaves_mkstemp pre suf : leaves proj (mkstemp pre suf).
Proof. unfold mkstemp. leaves_all. Qed.

Lemma leaves_clean_files names : leaves proj (clean_files names).
Proof. induction names as [|n rest IH]; cbn [clean_files]; leaves_all. Qed.

Lemma leaves_run_command cmd args stdi stdo : leaves proj (run_command cmd args stdi stdo).
Proof. unfold run_command. leaves_all. Qed.

#[local] Hint Resolve leaves_read_text leaves_mkstemp leaves_clean_files
  leaves_run_command : leaves_db.

Lemma leaves_link_llvm path s : leaves proj (link_llvm path s).
Proof. unfold link_llvm. leaves_all. Qed.

Lemma leaves_link_x86 path s is_x64 is_macho : leaves proj (link_x86 path s is_x64 is_macho).
Proof. unfold link_x86. leaves_all. Qed.

Lemma leaves_pick_linker path suffix macho s : leaves proj (pick_linker path suffix macho s).
Proof.
  unfold pick_linker.
  destruct (Str.eqb suffix (T "llvm")); [apply leaves_link_llvm|].
  destruct (Str.eqb suffix (T "x86")); apply leaves_link_x86.
Qed.

Lemma leaves_run_compiler exe src is_good : leaves proj (run_compiler exe src is_good).
Proof. unfold run_compiler. leaves_all. Qed.

#[local] Hint Resolve leaves_run_compiler : leaves_db.

Lemma leaves_exec_test exe filename is_good linker :
  (forall link, linker = Some link -> forall s, leaves proj (link s)) ->
  leaves proj (exec_test exe filename is_good linker).
Proof.
  intros Hl. unfold exec_test. apply leaves_bind; [apply leaves_run_compiler|].
  intros [ok data]. destruct linker as [link|]; [|apply leaves_ret].
  pose proof (Hl link eq_refl) as Hlink.
  leaves_all.
Qed.

End Leaves.

(** ** The progress lines *)

Lemma exec_test_stdout exe filename is_good linker w :
  (forall link, linker = Some link -> forall s, leaves w_stdout (link s)) ->
  w_stdout (snd (exec_test exe filename is_good linker w)) = w_stdout w.
Proof.
  intros Hl. apply (leaves_exec_test w_stdout); auto.
Qed.

Lemma no_linker_stdout link :
  @None (pystr -> M unit) = Some link -> forall s, leaves w_stdout (link s).
Proof. discriminate. Qed.

Lemma pick_linker_stdout path suffix macho link :
  Some (pick_linker path suffix macho) = Some link -> forall s, leaves w_stdout (link s).
Proof. intros H s. injection H as <-. apply (leaves_pick_linker w_stdout); auto. Qed.

Lemma test_loop_step full linker title total filename is_good rest t w ok data w1 :
  exec_test full filename is_good linker w = (Ok (ok, data), w1) ->
  test_loop full linker title total ((filename, is_good) :: rest) t w
  = let t1 := if ok
              then {| tests_ok := S (tests_ok t); tests_bad := tests_bad t;
                      failures := failures t |}
              else {| tests_ok := tests_ok t; tests_bad := S (tests_bad t);
                      failures := failures t ++ [(filename, data)] |} in
    test_loop full linker title total rest t1
      (add_stdout (status_msg title (tests_ok t1) (tests_bad t1) total)
         (add_verdict {| v_pass := title; v_test := filename; v_ok := ok; v_data := data |}
            w1)).
Proof. intros H. cbn [test_loop]. rewrite (bind_ok _ _ _ _ _ H). reflexivity. Qed.

Lemma test_loop_abort full linker title total filename is_good rest t w e w1 :
  exec_test full filename is_good linker w = (Raise e, w1) ->
  test_loop full linker title total ((filename, is_good) :: rest) t w = (Raise e, w1).
Proof. intros H. cbn [test_loop]. apply bind_raise. exact H. Qed.

(** What one pass writes: a status line after every executed test case,
    and each line counts one test case more than the line before. *)
Lemma test_loop_stdout full linker title total tests :
  (forall link, linker = Some link -> forall s, leaves w_stdout (link s)) ->
  forall t w,
  exists tallies : list (nat * nat),
    w_stdout (snd (test_loop full linker title total tests t w))
    = w_stdout w ++ map (fun p => status_msg title (fst p) (snd p) total) tallies /\
    (forall i p, tallies !! i = Some p ->
                 (fst p + snd p = tests_ok t + tests_bad t + S i)%nat) /\
    (length tallies <= length tests)%nat /\
    (returned (fst (test_loop full linker title total tests t w)) ->
     length tallies = length tests).
Proof.
  intros Hl. induction tests as [|[filename is_good] rest IH]; intros t w.
  - exists []. cbn. rewrite app_nil_r. split; [reflexivity|]. split; [|auto].
    intros i p Hi. discriminate.
  - pose proof (exec_test_stdout full filename is_good linker w Hl) as Hout.
    destruct (exec_test full filename is_good linker w) as [[[ok data]|e] w1] eqn:Hexec;
      cbn in Hout.
    + rewrite (test_loop_step _ _ _ _ _ _ _ _ _ _ _ _ Hexec). cbv zeta.
      set (t1 := if ok
                 then {| tests_ok := S (tests_ok t); tests_bad := tests_bad t;
                         failures := failures t |}
                 else {| tests_ok := tests_ok t; tests_bad := S (tests_bad t);
                         failures := failures t ++ [(filename, data)] |}).
      set (w2 := add_stdout (status_msg title (tests_ok t1) (tests_bad t1) total)
                   (add_verdict
                      {| v_pass := title; v_test := filename; v_ok := ok; v_data := data |}
                      w1)).
      destruct (IH t1 w2) as (tallies & Hs & Hidx & Hlen & Hret).
      exists ((tests_ok t1, tests_bad t1) :: tallies).
      split; [|split; [|split]].
      * rewrite Hs. subst w2. cbn. rewrite Hout, <- app_assoc. reflexivity.
      * intros [|i] p Hi.
        -- injection Hi as <-. subst t1. destruct ok; cbn; lia.
        -- apply Hidx in Hi. subst t1. destruct ok; cbn in Hi; lia.
      * cbn. lia.
      * intros H. cbn. rewrite (Hret H). reflexivity.
    + rewrite (test_loop_abort _ _ _ _ _ _ _ _ _ _ _ Hexec).
      exists []. cbn. rewrite app_nil_r. split; [exact Hout|]. split; [|split].
      * intros i p Hi. discriminate.
      * lia.
      * contradiction.
Qed.

(** X20.  During a pass a status line is written after every executed
    test case and at no other moment; the line written after the i-th
    test case reports counters that add up to i.  A pass that completes
    has written one line per test case. *)
Theorem status_lines_count_the_tests full linker title total tests recorded w :
  (forall link, linker = Some link -> forall s, leaves w_stdout (link s)) ->
  let r := test_loop full linker title total tests
             {| tests_ok := 0; tests_bad := 0; failures := recorded |} w in
  exists tallies : list (nat * nat),
    w_stdout (snd r)
    = w_stdout w ++ map (fun p => status_msg title (fst p) (snd p) total) tallies /\
    (forall i p, tallies !! i = Some p -> (fst p + snd p = S i)%nat) /\
    (length tallies <= length tests)%nat /\
    (returned (fst r) -> length tallies = length tests).
Proof.
  intros Hl. cbv zeta.
  destruct (test_loop_stdout full linker title total tests Hl
              {| tests_ok := 0; tests_bad := 0; failures := recorded |} w)
    as (tallies & Hs & Hidx & Hlen & Hret).
  exists tallies. split; [exact Hs|]. split; [|auto].
  intros i p Hi. apply Hidx in Hi. cbn in Hi. lia.
Qed.

Lemma status_lines_count_the_tests_witness :
  let tests := [(T "testsuite/good/t1", true)] in
  let r := test_loop (T "sub/jlc") None (T "typecheck") 1 tests
             {| tests_ok := 0; tests_bad := 0; failures := [] |} Demo.world0 in
  exists tallies : list (nat * nat),
    w_stdout (snd r)
    = w_stdout Demo.world0
      ++ map (fun p => status_msg (T "typecheck") (fst p) (snd p) 1) tallies /\
    (forall i p, tallies !! i = Some p -> (fst p + snd p = S i)%nat) /\
    (length tallies <= length tests)%nat /\
    (returned (fst r) -> length tallies = length tests).
Proof.
  intros tests r.
  apply (status_lines_count_the_tests (T "sub/jlc") None (T "typecheck") 1%nat tests []
           Demo.world0).
  intros link H. discriminate H.
Defined.

(** ** No report after an abort *)

Lemma progress_of_status title total (tallies : list (nat * nat)) :
  Forall progress_chunk (map (fun p => status_msg title (fst p) (snd p) total) tallies).
Proof.
  apply Forall_forall. intros c Hc. apply list_elem_of_In, in_map_iff in Hc as (p & <- & _).
  right. eauto.
Qed.

Lemma backend_loop_stdout path prefix macho total tests backends : forall t w,
  exists chunks,
    w_stdout (snd (backend_loop path prefix macho total tests backends t w))
    = w_stdout w ++ chunks /\ Forall progress_chunk chunks.
Proof.
  induction backends as [|suffix rest IH]; intros t w.
  - exists []. cbn. rewrite app_nil_r. split; [reflexivity | constructor].
  - cbn [backend_loop]. cbv zeta.
    set (f := Path.join path
                [prefix ++ (if Str.eqb suffix (T "llvm") then [] else T "_" ++ suffix)]).
    set (t0 := {| tests_ok := 0; tests_bad := 0; failures := failures t |}).
    destruct (test_loop_stdout f (Some (pick_linker path suffix macho)) suffix total tests
                (pick_linker_stdout path suffix macho) t0 w)
      as (tallies & Hs & _ & _ & _).
    unfold bind at 1.
    destruct (test_loop f (Some (pick_linker path suffix macho)) suffix total tests t0 w)
      as [[t1|e] w1]; cbn in Hs.
    + unfold bind at 1, print, stdout_write.
      destruct (IH t1 (add_stdout ([] ++ Str.nl) w1)) as (chunks & Hc & Hall).
      exists (map (fun p => status_msg suffix (fst p) (snd p) total) tallies
              ++ Str.nl :: chunks).
      split.
      * rewrite Hc. cbn. rewrite Hs, <- !app_assoc. reflexivity.
      * apply Forall_app. split; [apply progress_of_status|].
        constructor; [left; reflexivity | exact Hall].
    + eexists. split; [exact Hs | apply progress_of_status].
Qed.

Lemma run_passes_stdout path backends prefix tests w :
  exists chunks,
    w_stdout (snd (run_passes path backends prefix tests w)) = w_stdout w ++ chunks /\
    Forall progress_chunk chunks.
Proof.
  unfold run_passes. destruct backends as [|b rest].
  - destruct (test_loop_stdout (Path.join path [prefix]) None (T "typecheck") (length tests)
                tests no_linker_stdout
                {| tests_ok := 0; tests_bad := 0; failures := [] |} w)
      as (tallies & Hs & _).
    eexists. split; [exact Hs | apply progress_of_status].
  - unfold bind at 1, platform_system. apply backend_loop_stdout.
Qed.

Lemma listdir_world p w : snd (listdir p w) = w.
Proof.
  unfold listdir, bind, get_fs.
  destruct (dirs (w_fs w) !! abspath (w_fs w) p); [reflexivity|].
  destruct (fs_isfile (w_fs w) p); reflexivity.
Qed.

Lemma build_list_world tests path is_good w : snd (build_list tests path is_good w) = w.
Proof.
  unfold build_list. pose proof (listdir_world path w) as Hw.
  destruct (listdir path w) as [[names|e] w1] eqn:Hls; cbn in Hw; subst w1.
  - rewrite (bind_ok _ _ _ _ _ Hls).
    destruct (build_list_loop_spec path is_good names names tests w) as (new & -> & _);
      [auto | reflexivity].
  - rewrite (bind_raise _ _ _ _ _ Hls). reflexivity.
Qed.

Lemma build_extensions_world exts : forall tests w,
  snd (build_extensions tests exts w) = w.
Proof.
  induction exts as [|ext rest IH]; intros tests w; [reflexivity|].
  cbn [build_extensions]. unfold bind.
  pose proof (build_list_world tests (T "testsuite/extensions/" ++ ext) true w) as Hw.
  destruct (build_list tests (T "testsuite/extensions/" ++ ext) true w) as [[t1|e] w1];
    cbn in Hw; subst w1; [apply IH | reflexivity].
Qed.

Lemma build_catalog_world exts w : snd (build_catalog exts w) = w.
Proof.
  unfold build_catalog, bind.
  pose proof (build_list_world [] (T "testsuite/good") true w) as H1.
  destruct (build_list [] (T "testsuite/good") true w) as [[t1|e] w1]; cbn in H1; subst w1;
    [|reflexivity].
  pose proof (build_list_world t1 (T "testsuite/bad") false w) as H2.
  destruct (build_list t1 (T "testsuite/bad") false w) as [[t2|e] w2]; cbn in H2; subst w2;
    [|reflexivity].
  apply build_extensions_world.
Qed.

Lemma progress_chunk_not_report c :
  progress_chunk c ->
  c <> T "All tests succeeded." ++ Str.nl /\ c <> T "Some tests failed:" ++ Str.nl.
Proof.
  intros [-> | (title & ok & bad & tot & ->)]; split; discriminate.
Qed.

(** X21.  When [run_tests] is cut short by an exception it has written
    the banner and progress lines only: neither "All tests succeeded." nor
    the list of failures is printed for a run that did not complete. *)
Theorem no_report_after_abort path backends prefix exts w e :
  fst (run_tests_locals path backends prefix exts w) = Raise e ->
  exists banner chunks,
    length banner = 5%nat /\
    w_stdout (snd (run_tests_locals path backends prefix exts w))
    = w_stdout w ++ banner ++ chunks /\
    Forall progress_chunk chunks /\
    Forall (fun c => c <> T "All tests succeeded." ++ Str.nl /\
                     c <> T "Some tests failed:" ++ Str.nl) (banner ++ chunks).
Proof.
  intros H. unfold run_tests_locals in *.
  set (b1 := T "About to run tests with these settings:") in *.
  set (b2 := T "  Prefix:     " ++ prefix) in *.
  set (b3 := T "  Backends:   " ++ match backends with
                                   | [] => T "None (type checking only)"
                                   | _ => Str.of_list backends
                                   end) in *.
  set (b4 := T "  Extensions: " ++ match exts with [] => T "None" | _ => Str.of_list exts end)
    in *.
  set (w5 := add_stdout ([] ++ Str.nl) (add_stdout (b4 ++ Str.nl) (add_stdout (b3 ++ Str.nl)
               (add_stdout (b2 ++ Str.nl) (add_stdout (b1 ++ Str.nl) w))))).
  set (rest := bind (build_catalog exts) _) in *.
  assert (bind (print b1) (fun _ => bind (print b2) (fun _ => bind (print b3)
            (fun _ => bind (print b4) (fun _ => bind (print []) (fun _ => rest))))) w
          = rest w5) as Heq by reflexivity.
  rewrite Heq in H |- *. clear Heq.
  assert (exists chunks, w_stdout (snd (rest w5)) = w_stdout w5 ++ chunks /\
                         Forall progress_chunk chunks) as (chunks & Hout & Hall).
  { subst rest. unfold bind at 1 in H. unfold bind at 1.
    pose proof (build_catalog_world exts w5) as Hcat.
    destruct (build_catalog exts w5) as [[tests|e1] w6]; cbn in Hcat; subst w6.
    - destruct (run_passes_stdout path backends prefix tests w5) as (chunks & Hs & Hall).
      unfold bind at 1 in H. unfold bind at 1.
      destruct (run_passes path backends prefix tests w5) as [[t|e2] w7]; cbn in Hs.
      + exfalso. unfold bind at 1, print, stdout_write in H.
        destruct (show_results_spec backends (length tests) t (add_stdout ([] ++ Str.nl) w7))
          as (w8 & Hshow & _).
        rewrite (bind_ok _ _ _ _ _ Hshow) in H. discriminate H.
      + exists chunks. auto.
    - exists []. rewrite app_nil_r. split; [reflexivity | constructor]. }
  exists [b1 ++ Str.nl; b2 ++ Str.nl; b3 ++ Str.nl; b4 ++ Str.nl; [] ++ Str.nl], chunks.
  split; [reflexivity|]. split; [|split; [exact Hall|]].
  - rewrite Hout. subst w5. cbn [w_stdout add_stdout]. rewrite <- !app_assoc. reflexivity.
  - apply Forall_app. split.
    + repeat constructor; subst b1 b2 b3 b4; discriminate.
    + eapply Forall_impl; [exact Hall|]. apply progress_chunk_not_report.
Qed.

Lemma no_report_after_abort_witness :
  let r := run_tests_locals (T "sub") [T "x86"] (T "jlc") [] Demo.world_nasm_fails in
  exists banner chunks,
    length banner = 5%nat /\
    w_stdout (snd r) = w_stdout Demo.world_nasm_fails ++ banner ++ chunks /\
    Forall progress_chunk chunks /\
    Forall (fun c => c <> T "All tests succeeded." ++ Str.nl /\
                     c <> T "Some tests failed:" ++ Str.nl) (banner ++ chunks).
Proof.
  intros r.
  apply (no_report_after_abort (T "sub") [T "x86"] (T "jlc") [] Demo.world_nasm_fails
           (TestingException (T "nasm failed with:" ++ Str.nl ++ T "nasm: fatal"))).
  vm_compute. reflexivity.
Defined.

(** ** Indentation of a message *)

Lemma splitlines_go_plain_char cur c r :
  Str.is_linebreak c = false ->
  Str.splitlines_go cur (c :: r) = Str.splitlines_go (c :: cur) r.
Proof.
  intros H. destruct c as [|p]; [| do 4 (try destruct p as [p|p|])];
    cbn [Str.splitlines_go]; try (rewrite H; reflexivity); discriminate H.
Qed.

Lemma splitlines_go_plain (s : pystr) : forall cur,
  forallb (fun c => negb (Str.is_linebreak c)) s = true ->
  Str.splitlines_go cur s = match rev cur ++ s with [] => [] | l => [l] end.
Proof.
  induction s as [|c r IH]; intros cur H.
  - cbn [Str.splitlines_go]. rewrite app_nil_r.
    destruct cur as [|x cur]; [reflexivity|].
    destruct (rev (x :: cur)) eqn:Hr; [|reflexivity].
    apply (f_equal (@length N)) in Hr. rewrite length_rev in Hr. discriminate Hr.
  - cbn [forallb] in H. apply andb_true_iff in H as [Hc Hr].
    apply negb_true_iff in Hc.
    rewrite (splitlines_go_plain_char cur c r Hc), (IH (c :: cur) Hr).
    cbn [rev]. rewrite <- app_assoc. reflexivity.
Qed.

(** X22.  A message without a line boundary is indented by putting the
    spaces in front of it, and nothing is added at its end; the empty
    message stays empty. *)
Theorem indent_with_single_line spaces s :
  forallb (fun c => negb (Str.is_linebreak c)) s = true ->
  indent_with spaces s = match s with [] => [] | _ => repeat 32 spaces ++ s end.
Proof.
  intros H. unfold indent_with, Str.splitlines.
  rewrite (splitlines_go_plain s [] H). cbn [rev app].
  destruct s; reflexivity.
Qed.

Lemma indent_with_single_line_witness :
  indent_with 4 (T "nasm: fatal")
  = match T "nasm: fatal" with [] => [] | _ => repeat 32 4 ++ T "nasm: fatal" end.
Proof. apply (indent_with_single_line 4 (T "nasm: fatal")). reflexivity. Defined.

Example indent_with_lines :
  indent_with 2 (T "a" ++ [13; 10] ++ T "b" ++ [10]) = T "  a" ++ [10] ++ T "  b".
Proof. reflexivity. Qed.

(** ** Carriage returns and the run stage *)

Lemma universal_newlines_cr r :
  universal_newlines (13 :: r)
  = 10 :: universal_newlines (match r with 10 :: r' => r' | _ => r end).
Proof.
  destruct r as [|c r]; [reflexivity|].
  destruct c as [|p]; [reflexivity|]. do 4 (try destruct p as [p|p|]); reflexivity.
Qed.

Lemma universal_newlines_other c r :
  c <> 13 -> universal_newlines (c :: r) = c :: universal_newlines r.
Proof.
  intros H. destruct c as [|p]; [reflexivity|].
  do 4 (try destruct p as [p|p|]); try reflexivity. contradiction.
Qed.

Lemma universal_newlines_no_cr_bounded (n : nat) : forall s,
  (length s < n)%nat -> 13 ∉ universal_newlines s.
Proof.
  induction n as [|n IH]; intros s Hlen; [lia|].
  destruct s as [|c r]; [apply not_elem_of_nil|].
  cbn [length] in Hlen. destruct (N.eq_dec c 13) as [->|Hc].
  - rewrite universal_newlines_cr. intros Hin. apply elem_of_cons in Hin as [Hin|Hin];
      [discriminate|].
    revert Hin. apply IH. destruct r as [|c r]; cbn [length] in *; [lia|].
    destruct (N.eq_dec c 10) as [->|Hc]; [lia|].
    destruct c as [|p]; [cbn [length]; lia|].
    do 4 (try destruct p as [p|p|]); cbn [length]; lia.
  - rewrite universal_newlines_other by exact Hc. intros Hin.
    apply elem_of_cons in Hin as [Hin|Hin]; [congruence|].
    revert Hin. apply IH. lia.
Qed.

(** A text-mode read never hands over a carriage return. *)
Lemma universal_newlines_no_cr s : 13 ∉ universal_newlines s.
Proof. apply (universal_newlines_no_cr_bounded (S (length s))). lia. Qed.

Lemma expected_output_no_cr fs filename expected :
  expected_output fs filename = Some expected -> 13 ∉ expected.
Proof.
  unfold expected_output. destruct (files fs !! _) as [content|].
  - destruct (Utf8.decode content) as [s|]; cbn; [|discriminate].
    intros H. injection H as <-. apply universal_newlines_no_cr.
  - intros H. injection H as <-. apply not_elem_of_nil.
Qed.

(** X23.  A test case that passes the run stage has printed text without
    any carriage return: the text it is compared with comes from a
    text-mode read, which never contains one. *)
Theorem passing_output_has_no_carriage_return exe filename link w data w' :
  exec_test exe filename true (Some link) w = (Ok (true, data), w') ->
  stdout_actual data = stdout_expected data /\ 13 ∉ stdout_actual data.
Proof.
  intros H. pose proof H as H0. unfold exec_test in H0.
  apply bind_inv_ok in H0 as ([ok d0] & w0 & Hc & H0).
  destruct ok; cbn [negb orb] in H0.
  2:{ injection H0 as ? _ _. discriminate. }
  apply bind_inv_ok in H0 as ([] & w1 & Hlink & _).
  pose proof (exec_test_run_stage _ _ _ _ _ _ _ Hc Hlink) as Hrs. cbv zeta in Hrs.
  pose proof (eq_trans (eq_sym Hrs) H) as H1. clear Hrs H. rename H1 into H.
  destruct (expected_output (w_fs w1) filename) as [expected|] eqn:Hexp; [|discriminate].
  apply bind_inv_ok in H as (actual & w2 & _ & H).
  injection H as Heq <- _. apply str_eqb_true in Heq. subst actual. cbn.
  split; [reflexivity|]. eapply expected_output_no_cr. exact Hexp.
Qed.

Lemma passing_output_has_no_carriage_return_witness :
  let exe := T "sub/jlc_x86" in
  let filename := T "testsuite/good/t1" in
  let link := pick_linker (T "sub") (T "x86") false in
  let r := exec_test exe filename true (Some link) Demo.world0 in
  let data := match fst r with Ok (_, d) => d | Raise _ => Build_Struct [] [] [] [] [] end in
  stdout_actual data = stdout_expected data /\ 13 ∉ stdout_actual data.
Proof.
  intros exe filename link r data.
  apply (passing_output_has_no_carriage_return exe filename link Demo.world0 data (snd r)).
  vm_compute. reflexivity.
Defined.

(** ** Type checking only *)

Lemma exec_test_no_linker exe filename is_good w :
  exec_test exe filename is_good None w
  = run_compiler exe (filename ++ T ".jl") is_good w.
Proof.
  unfold exec_test, bind.
  destruct (run_compiler exe (filename ++ T ".jl") is_good w) as [[[ok data]|e] w1];
    reflexivity.
Qed.

(** X24.  In a type-checking pass the only program launched is the
    compiler, once per executed test case at most and never more often
    than there are test cases. *)
Theorem typecheck_pass_launches_only_the_compiler full title total tests t w :
  exists k, (k <= length tests)%nat /\
    w_trace (snd (test_loop full None title total tests t w))
    = w_trace w ++ repeat [full] k.
Proof.
  revert t w. induction tests as [|[filename is_good] rest IH]; intros t w.
  - exists 0%nat. cbn. rewrite app_nil_r. split; [lia | reflexivity].
  - pose proof (run_compiler_trace full (filename ++ T ".jl") is_good w) as Htr.
    rewrite <- exec_test_no_linker in Htr.
    destruct (exec_test full filename is_good None w) as [[[ok data]|e] w1] eqn:Hexec;
      cbn in Htr.
    + rewrite (test_loop_step _ _ _ _ _ _ _ _ _ _ _ _ Hexec). cbv zeta.
      match goal with
      | |- context [test_loop full None title total rest ?t1 ?w2] =>
          destruct (IH t1 w2) as (k & Hk & Hs)
      end.
      rewrite Hs. cbn [w_trace add_stdout add_verdict].
      destruct Htr as [-> | ->].
      * exists k. split; [cbn; lia | reflexivity].
      * exists (S k). split; [cbn; lia|]. rewrite <- app_assoc. reflexivity.
    + rewrite (test_loop_abort _ _ _ _ _ _ _ _ _ _ _ Hexec). cbn [snd].
      destruct Htr as [-> | ->].
      * exists 0%nat. cbn. rewrite app_nil_r. split; [lia | reflexivity].
      * exists 1%nat. cbn. split; [lia | reflexivity].
Qed.

(** ** [check_build] *)

Lemma run_command_platform cmd args stdi stdo w :
  w_platform (snd (run_command cmd args stdi stdo w)) = w_platform w.
Proof.
  apply (leaves_run_command w_platform); reflexivity.
Qed.

Lemma check_runtimes_cons runtime suff rest :
  check_runtimes runtime (suff :: rest)
  = bind (if Str.eqb suff (T "llvm") then
            bind (isfile (runtime ++ T ".ll")) (fun f =>
            if negb f
            then bind (print (T "Failed.")) (fun _ =>
                 raise (TestingException
                   (dq ++ T "runtime.ll" ++ dq ++ T " is missing from " ++ dq ++ T "lib" ++ dq)))
            else run_command (T "llvm-as")
                   [runtime ++ T ".ll"; T "-o=" ++ runtime ++ T ".bc"] None None)
          else if Str.eqb suff (T "x86") || Str.eqb suff (T "x64") then
            bind (isfile (runtime ++ T ".s")) (fun f =>
            if negb f
            then bind (print (T "Failed.")) (fun _ =>
                 raise (TestingException
                   (dq ++ T "runtime.s" ++ dq ++ T " is missing from " ++ dq ++ T "lib" ++ dq)))
            else
              bind platform_system (fun sys =>
              let arch :=
                if Str.eqb sys (T "Darwin")
                then (if Str.eqb suff (T "x64") then T "macho64" else T "macho32")
                else (if Str.eqb suff (T "x64") then T "elf64" else T "elf32") in
              run_command (T "nasm")
                [T "-f " ++ arch; runtime ++ T ".s"; T "-o " ++ runtime ++ suff ++ T ".o"]
                None None))
          else ret tt)
         (fun _ => check_runtimes runtime rest).
Proof. reflexivity. Qed.

(** The oracle sees the files, the history of launches and nothing else
    of the world: two worlds that agree on them launch alike. *)
Local Abbreviation same_machine w w' :=
  (w_fs w = w_fs w' /\ w_proc w = w_proc w' /\ w_trace w = w_trace w').

Lemma subprocess_run_same argv stdin w w' :
  same_machine w w' ->
  fst (subprocess_run argv stdin w) = fst (subprocess_run argv stdin w') /\
  same_machine (snd (subprocess_run argv stdin w)) (snd (subprocess_run argv stdin w')).
Proof.
  intros (Hfs & Hp & Ht). unfold subprocess_run. rewrite Hfs, Hp, Ht.
  destruct (w_proc w' argv stdin (w_fs w') (w_trace w')) as [[cls errno msg|c] fs1];
    cbn; rewrite Hp, Ht; auto.
Qed.

Lemma launch_in_turn_same cmds : forall w w',
  same_machine w w' -> launch_in_turn cmds w = launch_in_turn cmds w'.
Proof.
  induction cmds as [|argv rest IH]; intros w w' H; [reflexivity|].
  cbn [launch_in_turn]. destruct (subprocess_run_same argv None w w' H) as [Hf Hs].
  rewrite Hf, (IH _ _ Hs). reflexivity.
Qed.

Lemma launch_in_turn_all cmds : forall w,
  snd (launch_in_turn cmds w) = true -> fst (launch_in_turn cmds w) = cmds.
Proof.
  induction cmds as [|argv rest IH]; intros w; [reflexivity|].
  cbn [launch_in_turn]. destruct (exited_zero _); cbn [fst snd]; [|discriminate].
  intros H. rewrite (IH _ H). reflexivity.
Qed.

(** One turn of the loop over the runtimes. *)
Lemma check_runtimes_turn runtime suff (rest : M unit) w :
  let turn :=
    if Str.eqb suff (T "llvm") then
      bind (isfile (runtime ++ T ".ll")) (fun f =>
      if negb f
      then bind (print (T "Failed.")) (fun _ =>
           raise (TestingException
             (dq ++ T "runtime.ll" ++ dq ++ T " is missing from " ++ dq ++ T "lib" ++ dq)))
      else run_command (T "llvm-as")
             [runtime ++ T ".ll"; T "-o=" ++ runtime ++ T ".bc"] None None)
    else if Str.eqb suff (T "x86") || Str.eqb suff (T "x64") then
      bind (isfile (runtime ++ T ".s")) (fun f =>
      if negb f
      then bind (print (T "Failed.")) (fun _ =>
           raise (TestingException
             (dq ++ T "runtime.s" ++ dq ++ T " is missing from " ++ dq ++ T "lib" ++ dq)))
      else
        bind platform_system (fun sys =>
        let arch :=
          if Str.eqb sys (T "Darwin")
          then (if Str.eqb suff (T "x64") then T "macho64" else T "macho32")
          else (if Str.eqb suff (T "x64") then T "elf64" else T "elf32") in
        run_command (T "nasm")
          [T "-f " ++ arch; runtime ++ T ".s"; T "-o " ++ runtime ++ suff ++ T ".o"]
          None None))
    else ret tt in
  w_platform (snd (turn w)) = w_platform w /\
  match runtime_command runtime (w_platform w) suff with
  | None => turn w = (Ok tt, w)
  | Some c =>
      (~ returned (fst (turn w)) /\ same_machine (snd (turn w)) w) \/
      (snd (turn w) = snd (subprocess_run c None w) /\
       (returned (fst (turn w)) <-> exited_zero (fst (subprocess_run c None w)) = true))
  end.
Proof.
  cbv zeta. unfold runtime_command.
  destruct (Str.eqb suff (T "llvm")) eqn:El;
    [|destruct (Str.eqb suff (T "x86") || Str.eqb suff (T "x64")) eqn:Ex].
  - rewrite (bind_ok _ _ _ _ _ (isfile_eval _ w)).
    destruct (fs_isfile (w_fs w) (runtime ++ T ".ll")); cbn [negb].
    + split; [apply run_command_platform|]. right. apply run_command_plain.
    + cbn. split; [reflexivity|]. left. auto.
  - rewrite (bind_ok _ _ _ _ _ (isfile_eval _ w)).
    destruct (fs_isfile (w_fs w) (runtime ++ T ".s")); cbn [negb].
    + assert (Hsys : platform_system w = (Ok (w_platform w), w)) by reflexivity.
      rewrite (bind_ok _ _ _ _ _ Hsys). cbv zeta.
      split; [apply run_command_platform|]. right. apply run_command_plain.
    + cbn. split; [reflexivity|]. left. auto.
  - split; reflexivity.
Qed.

Lemma check_runtimes_launch runtime backends : forall w w',
  same_machine w w' ->
  let cmds := omap (runtime_command runtime (w_platform w)) backends in
  exists j,
    w_trace (snd (check_runtimes runtime backends w))
    = w_trace w ++ take j (fst (launch_in_turn cmds w')) /\
    (returned (fst (check_runtimes runtime backends w)) ->
     snd (launch_in_turn cmds w') = true /\
     w_trace (snd (check_runtimes runtime backends w)) = w_trace w ++ cmds).
Proof.
  induction backends as [|suff rest IH]; intros w w' Hsame; cbv zeta.
  - exists 0%nat. cbn. rewrite app_nil_r. auto.
  - rewrite check_runtimes_cons. cbn [omap list_omap].
    pose proof (check_runtimes_turn runtime suff (check_runtimes runtime rest) w) as Hturn.
    cbv zeta in Hturn.
    match goal with |- context [bind ?m ?k w] => set (turn := m) in * end.
    destruct Hturn as [Hp Hturn].
    destruct (runtime_command runtime (w_platform w) suff) as [c|] eqn:Hc.
    + cbn [launch_in_turn].
      destruct (subprocess_run_same c None w w' Hsame) as [Hf Hs].
      pose proof (subprocess_run_trace c None w) as Htc.
      destruct Hturn as [[Hn Hm] | [Hw Hr]].
      * exists 0%nat. rewrite take_0, app_nil_r.
        unfold bind. destruct (turn w) as [[[]|e] w1]; cbn [fst snd] in *.
        -- exfalso. apply Hn. exact I.
        -- split; [apply Hm | contradiction].
      * rewrite <- Hf. unfold bind.
        destruct (turn w) as [[[]|e] w1] eqn:Hm; cbn [fst snd] in *.
        -- rewrite (proj1 Hr I). cbn [fst snd]. subst w1.
           destruct (IH (snd (subprocess_run c None w)) (snd (subprocess_run c None w')) Hs)
             as (j & Htr & Hret).
           rewrite Hp in Htr, Hret.
           exists (S j). cbn [take]. split.
           ++ rewrite Htr, Htc, <- app_assoc. reflexivity.
           ++ intros H. destruct (Hret H) as [Hall Hfull]. split; [exact Hall|].
              rewrite Hfull, Htc, <- app_assoc. reflexivity.
        -- destruct (exited_zero (fst (subprocess_run c None w))) eqn:Hz.
           ++ exfalso. apply (proj2 Hr). reflexivity.
           ++ exists 1%nat. cbn [fst take]. rewrite ?take_0. subst w1.
              split; [exact Htc | contradiction].
    + assert (Hb : bind turn (fun _ => check_runtimes runtime rest) w
                   = check_runtimes runtime rest w).
      { unfold bind. rewrite Hturn. reflexivity. }
      rewrite Hb. apply IH. exact Hsame.
Qed.

Lemma check_executables_world path prefix suffices : forall w,
  snd (check_executables path prefix suffices w) = w.
Proof.
  induction suffices as [|suffix rest IH]; intros w; [reflexivity|].
  cbn [check_executables]. cbv zeta.
  rewrite (bind_ok _ _ _ _ _ (isfile_eval _ w)).
  destruct (fs_isfile _ _); cbn [negb]; [|reflexivity].
  assert (Hx : forall p, access_x p w = (Ok (bool_decide (abspath (w_fs w) p ∈ execs (w_fs w))), w))
    by reflexivity.
  rewrite (bind_ok _ _ _ _ _ (Hx _)).
  destruct (bool_decide _); cbn [negb]; [apply IH | reflexivity].
Qed.

(** X25.  [check_build] launches [make] through the shell first.  The
    commands it launches are the first ones of this run: [make], then,
    for the backends asked for and in their order, [llvm-as] on
    [lib/runtime.ll] or [nasm] on [lib/runtime.s] with the object format
    of the backend and of the host, each launched only if the one before
    exited with code 0.  So no command is launched after one that failed,
    and [check_build] returns only after all of them exited with code 0. *)
Theorem check_build_launch_order path prefix backends w :
  let make := [T "sh"; T "-exec"; T "make -C " ++ path] in
  let cmds := omap (runtime_command (Path.join path [T "lib"; T "runtime"]) (w_platform w))
                backends in
  let r := check_build path prefix backends w in
  let run := launch_in_turn (make :: cmds) w in
  exists j, (1 <= j)%nat /\
    w_trace (snd r) = w_trace w ++ take j (fst run) /\
    (returned (fst r) ->
     snd run = true /\ w_trace (snd r) = w_trace w ++ make :: cmds).
Proof.
  cbv zeta. unfold check_build.
  set (make := [T "sh"; T "-exec"; T "make -C " ++ path]).
  set (runtime := Path.join path [T "lib"; T "runtime"]).
  assert (Hw : forall s w0, stdout_write s w0 = (Ok tt, add_stdout s w0)) by reflexivity.
  assert (Hpr : forall s w0, print s w0 = (Ok tt, add_stdout (s ++ Str.nl) w0)) by reflexivity.
  rewrite (bind_ok _ _ _ _ _ (Hw _ w)).
  set (w1 := add_stdout _ w).
  assert (Hsame1 : same_machine w1 w) by (repeat split).
  destruct (subprocess_run_same make None w1 w Hsame1) as [Hf Hs].
  pose proof (subprocess_run_trace make None w1) as Ht.
  change (w_trace w1) with (w_trace w) in Ht.
  assert (Hpl : w_platform (snd (subprocess_run make None w1)) = w_platform w).
  { change (w_platform w) with (w_platform w1).
    apply (leaves_subprocess_run w_platform); reflexivity. }
  cbn [launch_in_turn]. rewrite <- Hf.
  destruct (subprocess_run make None w1) as [[child|e] w2] eqn:Hrun; cbn [fst snd] in *.
  - rewrite (bind_ok _ _ _ _ _ Hrun). cbn [exited_zero].
    destruct (returncode child =? 0)%Z; cbn [negb fst snd].
    + rewrite (bind_ok _ _ _ _ _ (Hpr _ w2)).
      rewrite (bind_ok _ _ _ _ _ (Hw _ _)).
      set (w3 := add_stdout _ (add_stdout _ w2)).
      pose proof (check_executables_world path prefix
        (match backends with [] => [T "llvm"] | _ => backends end) w3) as Hce.
      destruct (check_executables _ _ _ w3) as [[[]|e] w4] eqn:Hex; cbn [snd] in Hce; subst w4.
      * rewrite (bind_ok _ _ _ _ _ Hex).
        rewrite (bind_ok _ _ _ _ _ (Hpr _ _)).
        rewrite (bind_ok _ _ _ _ _ (Hw _ _)).
        set (w5 := add_stdout _ (add_stdout _ w3)).
        assert (Hsame5 : same_machine w5 (snd (subprocess_run make None w))).
        { destruct Hs as (H1 & H2 & H3). repeat split; assumption. }
        destruct (check_runtimes_launch runtime backends w5 _ Hsame5) as (j & Htr & Hret).
        change (w_platform w5) with (w_platform w2) in Htr, Hret.
        change (w_trace w5) with (w_trace w2) in Htr, Hret.
        rewrite Hpl in Htr, Hret. rewrite Ht in Htr, Hret.
        exists (S j). split; [lia|]. cbn [take].
        destruct (check_runtimes runtime backends w5) as [[[]|e] w6] eqn:Hcr; cbn [fst snd] in *.
        -- rewrite (bind_ok _ _ _ _ _ Hcr). cbn. split.
           ++ rewrite Htr, <- app_assoc. reflexivity.
           ++ intros _. destruct (Hret I) as [Hall Hfull]. split; [exact Hall|].
              rewrite Hfull, <- app_assoc. reflexivity.
        -- rewrite (bind_raise _ _ _ _ _ Hcr). cbn. split.
           ++ rewrite Htr, <- app_assoc. reflexivity.
           ++ contradiction.
      * rewrite (bind_raise _ _ _ _ _ Hex). cbn [fst snd].
        exists 1%nat. cbn [take]. rewrite ?take_0. split; [lia|]. split; [exact Ht | contradiction].
    + rewrite (bind_ok _ _ _ _ _ (Hpr _ w2)).
      exists 1%nat. cbn [take]. rewrite ?take_0. split; [lia|].
      unfold decode_utf8. destruct (Utf8.decode (child_stderr child)); cbn;
        (split; [exact Ht | contradiction]).
  - rewrite (bind_raise _ _ _ _ _ Hrun). cbn [fst snd exited_zero].
    exists 1%nat. cbn [take]. rewrite ?take_0. split; [lia|]. split; [exact Ht | contradiction].
Qed.

(** In the session of [Demo.world_nasm_fails] the build for the backends
    llvm, x86 and x64 stops at the assembler of the x86 runtime. *)
Example failing_runtime_assembler_is_last :
  let r := check_build (T "sub") (T "jlc") [T "llvm"; T "x86"; T "x64"]
             (set_fs (set_files (<[T "/w/sub/jlc_x64" := []]> (files Demo.fs0))
                        {| cwd := cwd Demo.fs0; files := files Demo.fs0;
                           dirs := dirs Demo.fs0;
                           execs := {[ T "/w/sub/jlc"; T "/w/sub/jlc_x86"; T "/w/sub/jlc_x64" ]} |})
                Demo.world_nasm_fails) in
  map (hd []) (w_trace (snd r)) = [T "sh"; T "llvm-as"; T "nasm"] /\
  fst r = Raise (TestingException (T "nasm failed with:" ++ Str.nl ++ T "nasm: fatal")).
Proof. split; vm_compute; reflexivity. Qed.

(** X26.  When [make] exits with a code other than 0, [check_build]
    prints "Failed." and raises a [TestingException] with [make]'s error
    text; it checks no executable and assembles no runtime. *)
Theorem failed_make_stops_the_build path prefix backends w child fs1 err :
  w_proc w [T "sh"; T "-exec"; T "make -C " ++ path] None (w_fs w) (w_trace w)
  = (Exited child, fs1) ->
  returncode child <> 0%Z ->
  Utf8.decode (child_stderr child) = Some err ->
  let r := check_build path prefix backends w in
  fst r = Raise (TestingException (T "make failed with:" ++ Str.nl ++ err)) /\
  w_trace (snd r) = w_trace w ++ [[T "sh"; T "-exec"; T "make -C " ++ path]] /\
  w_stdout (snd r) = w_stdout w ++
    [T "- Running " ++ dq ++ T "make" ++ dq ++ T " in " ++ path ++ T " ... ";
     T "Failed." ++ Str.nl].
Proof.
  intros Hproc Hrc Hdec. cbv zeta. unfold check_build.
  set (make := [T "sh"; T "-exec"; T "make -C " ++ path]) in *.
  assert (Hw : forall s w0, stdout_write s w0 = (Ok tt, add_stdout s w0)) by reflexivity.
  assert (Hpr : forall s w0, print s w0 = (Ok tt, add_stdout (s ++ Str.nl) w0)) by reflexivity.
  rewrite (bind_ok _ _ _ _ _ (Hw _ w)).
  set (w1 := add_stdout _ w).
  assert (Hrun : exists w2, subprocess_run make None w1 = (Ok child, w2) /\
                            w_trace w2 = w_trace w ++ [make] /\
                            w_stdout w2 = w_stdout w1).
  { unfold subprocess_run. change (w_proc w1) with (w_proc w).
    change (w_fs w1) with (w_fs w). change (w_trace w1) with (w_trace w).
    rewrite Hproc. eexists. split; [reflexivity|]. split; reflexivity. }
  destruct Hrun as (w2 & Hrun & Ht & Hs).
  rewrite (bind_ok _ _ _ _ _ Hrun).
  destruct (returncode child =? 0)%Z eqn:E; [apply Z.eqb_eq in E; contradiction|].
  cbn [negb]. rewrite (bind_ok _ _ _ _ _ (Hpr _ w2)).
  unfold decode_utf8. rewrite Hdec.
  assert (Hret : ret err (add_stdout (T "Failed." ++ Str.nl) w2)
                 = (Ok err, add_stdout (T "Failed." ++ Str.nl) w2)) by reflexivity.
  rewrite (bind_ok _ _ _ _ _ Hret). cbn [raise fst snd].
  split; [reflexivity|]. split; [exact Ht|].
  cbn. rewrite Hs. subst w1. cbn. rewrite <- app_assoc. reflexivity.
Qed.

Lemma failed_make_stops_the_build_witness :
  let w := Demo2.world_make_fails in
  let r := check_build (T "sub") (T "jlc") [T "llvm"] w in
  fst r = Raise (TestingException (T "make failed with:" ++ Str.nl ++ T "make: *** Error 1")) /\
  w_trace (snd r) = w_trace w ++ [[T "sh"; T "-exec"; T "make -C " ++ T "sub"]] /\
  w_stdout (snd r) = w_stdout w ++
    [T "- Running " ++ dq ++ T "make" ++ dq ++ T " in " ++ T "sub" ++ T " ... ";
     T "Failed." ++ Str.nl].
Proof.
  apply (failed_make_stops_the_build (T "sub") (T "jlc") [T "llvm"] Demo2.world_make_fails
           {| returncode := 2; child_stdout := []; child_stderr := Demo.B "make: *** Error 1" |}
           Demo.fs0 (T "make: *** Error 1")).
  - reflexivity.
  - discriminate.
  - vm_compute. reflexivity.
Defined.
